(** * MBPI-PrintUtility: page-range resolution, fit-to-page placement and
      print-job sequencing of the four [PrintDialog] variants

    The repository holds four successive versions of one PyQt6 dialog:
    [main_1.py] (no preview), [main_2.py] (preview + DPI list),
    [main_3.py] (viewport-fitted preview) and [main.py] (orientation, custom
    paper sizes, content cropping).  Each version is embedded in a module of
    its own ([Main_1], [Main_2], [Main_3], [Main]); the Python built-ins and
    the Qt calls they rely on are embedded in [Py] and [Qt], after CPython
    and Qt 6.  Widget construction, printer enumeration and style sheets are
    left out.

    Conventions of the embedding:
    - a Python [str] is a [string] whose characters are the code points
      0..255; a Python [int] is a [Z]; a Python [list] of ints is a [list Z];
    - a call that may raise returns [option] ([None] = [ValueError]), or an
      [outcome] where the kind of exception matters: building the list of a
      typed range, [list(range(start - 1, end))], raises [OverflowError] when
      the run has more than [sys.maxsize] items and [MemoryError] when it
      has more items than the machine can hold ([list_capacity]);
    - what a method does to the outside world (message boxes, the painter,
      the printer, the preview widgets) is recorded as a list of [event]s, in
      program order; what the outside world answers (does [painter.begin]
      succeed, which raster does a page give, how large is the printable
      area) is read from a record of [Collaborators]. *)

From Stdlib Require Import ZArith List String Ascii Bool Lia.
From Stdlib Require Import QArith Qminmax.
From Stdlib Require Import DecimalString DecimalPos.
Import ListNotations.

Local Open Scope string_scope.
Local Open Scope list_scope.
Local Open Scope Z_scope.

(* ================================================================== *)
(** ** Python built-ins used by the dialogs *)
(* ================================================================== *)

Module Py.

(** [str.isspace] of one character, on code points 0..255: TAB..CR,
    FS..US, SPACE, NEL (0x85) and NBSP (0xA0). *)
Definition isspace (c : ascii) : bool :=
  let n := N_of_ascii c in
  ((9 <=? n) && (n <=? 13) || (28 <=? n) && (n <=? 32)
   || (n =? 133) || (n =? 160))%N.

Fixpoint lstrip (s : string) : string :=
  match s with
  | EmptyString => EmptyString
  | String c s' => if isspace c then lstrip s' else s
  end.

Fixpoint rstrip (s : string) : string :=
  match s with
  | EmptyString => EmptyString
  | String c s' =>
      match rstrip s' with
      | EmptyString => if isspace c then EmptyString else String c EmptyString
      | r => String c r
      end
  end.

(** [s.strip()] *)
Definition strip (s : string) : string := rstrip (lstrip s).

(** [c in s] for a one-character [c] *)
Fixpoint contains (c : ascii) (s : string) : bool :=
  match s with
  | EmptyString => false
  | String a s' => Ascii.eqb a c || contains c s'
  end.

(** [s.split(c)] for a one-character separator: always at least one
    token, empty tokens kept. *)
Fixpoint split (c : ascii) (s : string) : list string :=
  match s with
  | EmptyString => [EmptyString]
  | String a s' =>
      if Ascii.eqb a c then EmptyString :: split c s'
      else match split c s' with
           | t :: ts => String a t :: ts
           | [] => [String a EmptyString]
           end
  end.

(** [bool(s)]: a string is true when it is not empty. *)
Definition truthy (s : string) : bool :=
  match s with EmptyString => false | _ => true end.

Definition digit_value (c : ascii) : option Z :=
  let n := N_of_ascii c in
  if ((48 <=? n) && (n <=? 57))%N then Some (Z.of_N n - 48) else None.

(** The digit scan of [int(str)] in base 10: digits, single underscores
    between them; returns the value and the number of digit characters. *)
Fixpoint scan_digits (s : string) (prev_underscore : bool)
         (acc : Z) (digits : N) : option (Z * N) :=
  match s with
  | EmptyString => if prev_underscore then None else Some (acc, digits)
  | String c s' =>
      if Ascii.eqb c "_" then
        if prev_underscore then None else scan_digits s' true acc digits
      else
        match digit_value c with
        | Some d => scan_digits s' false (10 * acc + d) (digits + 1)
        | None => None
        end
  end.

(** [sys.int_info.default_max_str_digits]: longer decimal literals are
    refused by [int(str)] with a [ValueError]. *)
Definition max_str_digits : N := 4300.

(** The characters [int(str)] skips around the number.  CPython turns the
    Unicode white space above code point 127 (NEL, NBSP) into spaces and then
    skips C's white space (TAB..CR, SPACE); unlike [str.strip] it does not
    skip the separators FS..US (0x1C..0x1F). *)
Definition int_isspace (c : ascii) : bool :=
  let n := N_of_ascii c in
  ((9 <=? n) && (n <=? 13) || (n =? 32) || (n =? 133) || (n =? 160))%N.

Fixpoint lskip (s : string) : string :=
  match s with
  | EmptyString => EmptyString
  | String c s' => if int_isspace c then lskip s' else s
  end.

Fixpoint rskip (s : string) : string :=
  match s with
  | EmptyString => EmptyString
  | String c s' =>
      match rskip s' with
      | EmptyString =>
          if int_isspace c then EmptyString else String c EmptyString
      | r => String c r
      end
  end.

(** The integer literal [int(str)] reads in base 10, white space apart: an
    optional sign, then digits with single underscores between them.
    [None] = [ValueError]. *)
Definition literal (t : string) : option Z :=
  let '(sign, body) :=
    match t with
    | String "+" r => (1, r)
    | String "-" r => (-1, r)
    | _ => (1, t)
    end in
  match body with
  | EmptyString => None
  | String "_" _ => None
  | _ =>
      match scan_digits body false 0 0 with
      | Some (v, n) => if (max_str_digits <? n)%N then None else Some (sign * v)
      | None => None
      end
  end.

(** [int(s)] for a [str] argument, base 10.  [None] = [ValueError]. *)
Definition int (s : string) : option Z := literal (rskip (lskip s)).

(** The items of [range(lo, hi)], in order; [range(n)] is [range 0 n]. *)
Definition range (lo hi : Z) : list Z :=
  map (fun k => lo + Z.of_nat k) (seq 0 (Z.to_nat (hi - lo))).

(** The exceptions of the built-ins that the dialogs meet. *)
Inductive exception :=
| ValueError
| OverflowError
| MemoryError.

(** The name of the exception's class. *)
Definition exception_name (e : exception) : string :=
  match e with
  | ValueError => "ValueError"
  | OverflowError => "OverflowError"
  | MemoryError => "MemoryError"
  end.

(** [str(e)] for the exceptions [list(range(...))] raises. *)
Definition exception_msg (e : exception) : string :=
  match e with
  | OverflowError => "Python int too large to convert to C ssize_t"
  | _ => ""
  end.

(** A call returns a value or raises. *)
Inductive outcome (A : Type) :=
| Returns (a : A)
| Raise (e : exception).
Arguments Returns {A} a.
Arguments Raise {A} e.

(** [sys.maxsize] of a 64-bit build. *)
Definition maxsize : Z := 2 ^ 63 - 1.

(** [list(range(lo, hi))] on a machine that can hold lists of up to
    [capacity] items: the length of the range must fit a C [ssize_t]
    ([OverflowError] otherwise) and the list must fit the memory
    ([MemoryError] otherwise). *)
Definition list_range (capacity lo hi : Z) : outcome (list Z) :=
  let n := Z.max 0 (hi - lo) in
  if maxsize <? n then Raise OverflowError
  else if capacity <? n then Raise MemoryError
  else Returns (range lo hi).

(** [str(n)] for an [int]. *)
Definition str (n : Z) : string := NilZero.string_of_int (Z.to_int n).

(** [l[i]] with Python's negative indices; [None] = [IndexError]. *)
Definition getitem {A} (l : list A) (i : Z) : option A :=
  let n := Z.of_nat (List.length l) in
  if (0 <=? i) && (i <? n) then nth_error l (Z.to_nat i)
  else if (- n <=? i) && (i <? 0) then nth_error l (Z.to_nat (n + i))
  else None.

(** [a, b = map(f, tokens)]: exactly two items, each converted; any
    failure (a conversion, too few or too many items) is a [ValueError]. *)
Definition unpack2 {A} (items : list (option A)) : option (A * A) :=
  match items with
  | [Some a; Some b] => Some (a, b)
  | _ => None
  end.

(** [s.lower()] on code points 0..255: A-Z and the Latin-1 capitals. *)
Definition lower_char (c : ascii) : ascii :=
  let n := N_of_ascii c in
  if ((65 <=? n) && (n <=? 90)
      || (192 <=? n) && (n <=? 222) && negb (n =? 215))%N
  then ascii_of_N (n + 32) else c.

Fixpoint lower (s : string) : string :=
  match s with
  | EmptyString => EmptyString
  | String c s' => String (lower_char c) (lower s')
  end.

(** [s.endswith(suffix)] *)
Fixpoint endswith (s suffix : string) : bool :=
  String.eqb s suffix ||
  match s with
  | EmptyString => false
  | String _ s' => endswith s' suffix
  end.

End Py.


(* ================================================================== *)
(** ** Qt values, effects and collaborators *)
(* ================================================================== *)

Module Qt.

Record QSize := mkSize { width : Z; height : Z }.

Record QRect := mkRect { x : Z; y : Z; rect_width : Z; rect_height : Z }.

(** [QSize.isEmpty()]: either dimension is less than 1. *)
Definition isEmpty (s : QSize) : bool := (width s <? 1) || (height s <? 1).

(** [QSize.transposed()], the size of a pixmap after [QTransform().rotate(90)]. *)
Definition transposed (s : QSize) : QSize := mkSize (height s) (width s).

(** [src.scaled(s, Qt.AspectRatioMode.KeepAspectRatio)], after QSize::scaled
    of Qt's qsize.cpp:
<<
    if (wd == 0 || ht == 0) return s;
    qint64 rw = qint64(s.ht) * qint64(wd) / qint64(ht);
    bool useHeight = (rw <= s.wd);
    if (useHeight) return QSize(rw, s.ht);
    else return QSize(s.wd, qint32(qint64(s.wd) * qint64(ht) / qint64(wd)));
>>
    C++ integer division truncates toward zero ([Z.quot]). *)
Definition scaled (src s : QSize) : QSize :=
  if (width src =? 0) || (height src =? 0) then s
  else
    let rw := Z.quot (height s * width src) (height src) in
    if rw <=? width s then mkSize rw (height s)
    else mkSize (width s) (Z.quot (width s * height src) (width src)).

(** The size of [pixmap.scaled(s, KeepAspectRatio, SmoothTransformation)]
    (QPixmap::scaled): a null pixmap for a null source or an empty target,
    otherwise [scaled] with each dimension raised to at least 1. *)
Definition pixmap_scaled (src s : QSize) : QSize :=
  if (width src <=? 0) || (height src <=? 0) then mkSize 0 0
  else if isEmpty s then mkSize 0 0
  else let n := scaled src s in mkSize (Z.max (width n) 1) (Z.max (height n) 1).

(** A raster as the print and preview paths see it: the [QImage] built
    from the pixmap's samples. *)
Record QImage := mkImage { image_size : QSize; isNull : bool }.

Inductive exn :=
| ValueError (msg : string)
| OtherException (msg : string).

(** [str(e)] *)
Definition exn_msg (e : exn) : string :=
  match e with ValueError m => m | OtherException m => m end.

(** What rendering a page answers: an exception of the document library,
    or a raster. *)
Inductive pixmap_result :=
| Raises (e : exn)
| Image (q_image : QImage).

Inductive Orientation := Portrait | Landscape.
Inductive ColorMode := Color | GrayScale.
Inductive Unit_ := Inch | Millimeter.

Inductive QPageSize :=
| PageSizeId (id : string)
| PageSizeF (w h : Q) (unit : Unit_).

(** The settings a [QPrinter] has received; [None] where the dialog set
    nothing and the printer keeps its default. *)
Record QPrinter := mkPrinter {
  printerName : string;
  copyCount : Z;
  layout_orientation : option Orientation;
  pageSize : option QPageSize;
  resolution_set : option Z;
  colorMode : ColorMode
}.

(** Answers of the outside world. *)
Record Collaborators := mkCollaborators {
  (** [painter.begin(printer)] *)
  painter_begin : QPrinter -> bool;
  (** [printer.pageRect(QPrinter.Unit.DevicePixel)]: width and height, whole
      device pixels *)
  pageRect : QPrinter -> QSize;
  (** [printer.resolution()] *)
  resolution : QPrinter -> Z;
  (** [doc.load_page(n)], [page.get_pixmap(dpi=..., colorspace=...)] and the
      [QImage] built from it; arguments: page number, dpi ([None] = the
      library's default), gray colour space requested *)
  get_pixmap : Z -> option Z -> bool -> pixmap_result;
  (** size of [pixmap.scaledToWidth(w, SmoothTransformation)] *)
  scaledToWidth : QSize -> Z -> QSize;
  (** the number of items of the longest list the interpreter can build in
      this run *)
  list_capacity : Z
}.

(** Effects, in program order. *)
Inductive event :=
| QMessageBox_warning (title text : string)
| QMessageBox_critical (title text : string)
| QMessageBox_information (title text : string)
| painter_begin_called (ok : bool)
| load_page (page_num : Z)
| painter_drawImage (target_rect : QRect) (page_num : Z)
| printer_newPage
| painter_end
| print (line : string)
| accept
| preview_label_setText (text : string)
| preview_label_setPixmap (page_num : Z) (size : QSize)
| page_info_label_setText (text : string)
| prev_page_button_setEnabled (b : bool)
| next_page_button_setEnabled (b : bool)
| uncaught (exception : string).

Definition is_message_box (e : event) : bool :=
  match e with
  | QMessageBox_warning _ _ | QMessageBox_critical _ _
  | QMessageBox_information _ _ => true
  | _ => false
  end.

Definition is_painter_begin (e : event) : bool :=
  match e with painter_begin_called _ => true | _ => false end.

(** The pages drawn by a trace, in order. *)
Fixpoint drawn_pages (t : list event) : list Z :=
  match t with
  | [] => []
  | painter_drawImage _ p :: t' => p :: drawn_pages t'
  | _ :: t' => drawn_pages t'
  end.

(** The pages requested from the document by a trace, in order. *)
Fixpoint loaded_pages (t : list event) : list Z :=
  match t with
  | [] => []
  | load_page p :: t' => p :: loaded_pages t'
  | _ :: t' => loaded_pages t'
  end.

End Qt.
Import Qt.

Definition nl : string := String (ascii_of_nat 10) EmptyString.

(** The attributes of [PrintDialog] that its logic reads or writes.  A
    variant that lacks a widget never reads its field.  [scroll_area] is
    [None] while the attribute does not exist, otherwise the size of its
    viewport. *)
Record PrintDialog := mkDialog {
  file_path : string;
  total_pages : Z;
  preview_pages : list Z;
  current_preview_index : Z;
  printer_combo : string;
  dpi_combo : string;
  color_mode_combo : string;
  orientation_combo : string;
  paper_size_combo : string;
  custom_width_input : Q;
  custom_height_input : Q;
  custom_unit_combo : string;
  copies_spinbox : Z;
  all_pages_radio : bool;
  page_range_edit : string;
  scroll_area : option QSize
}.

Definition set_preview_pages (d : PrintDialog) (v : list Z) : PrintDialog :=
  mkDialog (file_path d) (total_pages d) v (current_preview_index d)
    (printer_combo d) (dpi_combo d) (color_mode_combo d) (orientation_combo d)
    (paper_size_combo d) (custom_width_input d) (custom_height_input d)
    (custom_unit_combo d) (copies_spinbox d) (all_pages_radio d)
    (page_range_edit d) (scroll_area d).

Definition set_current_preview_index (d : PrintDialog) (v : Z) : PrintDialog :=
  mkDialog (file_path d) (total_pages d) (preview_pages d) v
    (printer_combo d) (dpi_combo d) (color_mode_combo d) (orientation_combo d)
    (paper_size_combo d) (custom_width_input d) (custom_height_input d)
    (custom_unit_combo d) (copies_spinbox d) (all_pages_radio d)
    (page_range_edit d) (scroll_area d).

Definition set_total_pages (d : PrintDialog) (v : Z) : PrintDialog :=
  mkDialog (file_path d) v (preview_pages d) (current_preview_index d)
    (printer_combo d) (dpi_combo d) (color_mode_combo d) (orientation_combo d)
    (paper_size_combo d) (custom_width_input d) (custom_height_input d)
    (custom_unit_combo d) (copies_spinbox d) (all_pages_radio d)
    (page_range_edit d) (scroll_area d).

Definition set_all_pages_radio (d : PrintDialog) (v : bool) : PrintDialog :=
  mkDialog (file_path d) (total_pages d) (preview_pages d)
    (current_preview_index d)
    (printer_combo d) (dpi_combo d) (color_mode_combo d) (orientation_combo d)
    (paper_size_combo d) (custom_width_input d) (custom_height_input d)
    (custom_unit_combo d) (copies_spinbox d) v
    (page_range_edit d) (scroll_area d).

Definition set_page_range_edit (d : PrintDialog) (v : string) : PrintDialog :=
  mkDialog (file_path d) (total_pages d) (preview_pages d)
    (current_preview_index d)
    (printer_combo d) (dpi_combo d) (color_mode_combo d) (orientation_combo d)
    (paper_size_combo d) (custom_width_input d) (custom_height_input d)
    (custom_unit_combo d) (copies_spinbox d) (all_pages_radio d)
    v (scroll_area d).

Definition set_orientation_combo (d : PrintDialog) (v : string) : PrintDialog :=
  mkDialog (file_path d) (total_pages d) (preview_pages d)
    (current_preview_index d)
    (printer_combo d) (dpi_combo d) (color_mode_combo d) v
    (paper_size_combo d) (custom_width_input d) (custom_height_input d)
    (custom_unit_combo d) (copies_spinbox d) (all_pages_radio d)
    (page_range_edit d) (scroll_area d).

(** The range specification of the dialog, as the specification names it:
    the "All Pages" radio button, or the custom range with its text. *)
Inductive RangeSpec :=
| All
| Explicit (text : string).

Definition apply_spec (spec : RangeSpec) (d : PrintDialog) : PrintDialog :=
  match spec with
  | All => set_all_pages_radio d true
  | Explicit text => set_page_range_edit (set_all_pages_radio d false) text
  end.

(** The fit-and-centre step shared by every [process_and_print]:
<<
    target_size = page_rect.size().toSize()
    scaled_size = q_image.size().scaled(target_size, KeepAspectRatio)
    x = (page_rect.width() - scaled_size.width()) / 2
    y = (page_rect.height() - scaled_size.height()) / 2
    target_rect = QRect(int(x), int(y), scaled_size.width(), scaled_size.height())
>>
    [page_rect] holds whole device pixels, so the true division by 2 is exact
    on halves and [int()] truncates it toward zero: [Z.quot _ 2]. *)
Definition target_rect (image_size page_rect : QSize) : QRect :=
  let target_size := page_rect in
  let scaled_size := scaled image_size target_size in
  let x := Z.quot (width page_rect - width scaled_size) 2 in
  let y := Z.quot (height page_rect - height scaled_size) 2 in
  mkRect x y (width scaled_size) (height scaled_size).

(* ================================================================== *)
(** ** The page loop of [process_and_print] *)
(* ================================================================== *)

(** The four variants share the loop
<<
    for i, page_num in enumerate(pages_to_print):
        [main_1 only]  if not (0 <= page_num < self.total_pages): continue
        page = self.doc.load_page(page_num); pix = page.get_pixmap(...)
        q_image = QImage(pix.samples, ...)
        if q_image.isNull():
            [what the variant reports]
            continue
        ... target_rect ...
        painter.drawImage(target_rect, q_image)
        if i < len(pages_to_print) - 1:
            printer.newPage()
>>
    and differ in the three places the section abstracts: the range check at
    the top of the body, the arguments of the rendering call, and what is
    reported for a null raster. *)
Section PrintLoop.

Variable page_rect : QSize.
Variable in_document : Z -> bool.
Variable render : Z -> pixmap_result.
Variable report_null : Z -> list event.

(** How the loop is left: normally, or by an exception of the rendering. *)
Inductive loop_exit :=
| Completed
| Raised (e : exn).

(** [print_loop n i pages]: the iterations for [pages], the first of
    which has index [i], in a selection of [n] pages. *)
Fixpoint print_loop (n i : Z) (pages : list Z) : list event * loop_exit :=
  match pages with
  | [] => ([], Completed)
  | page_num :: rest =>
      if negb (in_document page_num) then print_loop n (i + 1) rest
      else
        match render page_num with
        | Raises e => ([load_page page_num], Raised e)
        | Image q_image =>
            let this :=
              if isNull q_image then report_null page_num
              else
                painter_drawImage (target_rect (image_size q_image) page_rect)
                  page_num
                :: (if i <? n - 1 then [printer_newPage] else []) in
            let '(t, r) := print_loop n (i + 1) rest in
            (load_page page_num :: this ++ t, r)
        end
  end.

(** The raster of a page is null. *)
Definition renders_null (p : Z) : bool :=
  match render p with
  | Image q_image => isNull q_image
  | Raises _ => false
  end.

End PrintLoop.

(* ================================================================== *)
(** ** [main.py] *)
(* ================================================================== *)

Module Main.

(** The value the [try] block of [update_preview_range] leaves in
    [self.preview_pages] before the filter, or the exception it raises.
    [range(self.total_pages)] counts the pages of the document that was
    opened, [total_pages = len(doc)], and its list is taken to be built;
    the run of a typed range is as long as the user makes it, and building
    its list can fail. *)
Definition generated_pages (w : Collaborators) (d : PrintDialog)
  : Py.outcome (list Z) :=
  if all_pages_radio d || negb (Py.truthy (page_range_edit d)) then
    Py.Returns (Py.range 0 (total_pages d))
  else
    let range_text := Py.strip (page_range_edit d) in
    if Py.contains "-" range_text then
      match Py.unpack2 (map Py.int (Py.split "-" range_text)) with
      | Some (start, end_) => Py.list_range (list_capacity w) (start - 1) end_
      | None => Py.Raise Py.ValueError
      end
    else
      match Py.int range_text with
      | Some n => Py.Returns [n - 1]
      | None => Py.Raise Py.ValueError
      end.

Definition in_bounds (d : PrintDialog) (p : Z) : bool :=
  (0 <=? p) && (p <? total_pages d).

Definition render_current_preview_page (w : Collaborators) (d : PrintDialog)
  : list event :=
  match preview_pages d, scroll_area d with
  | [], _ => []
  | _, None => []
  | _, Some viewport =>
      match Py.getitem (preview_pages d) (current_preview_index d) with
      | None => [uncaught "IndexError"]
      | Some page_num_to_render =>
          load_page page_num_to_render ::
          match get_pixmap w page_num_to_render None false with
          | Raises e =>
              [preview_label_setText
                 ("Error rendering page:" ++ nl ++ exn_msg e)%string]
          | Image q_image =>
              let pixmap := image_size q_image in
              let pixmap :=
                if String.eqb (orientation_combo d) "Landscape"
                then transposed pixmap else pixmap in
              let available_size :=
                mkSize (width viewport - 5) (height viewport - 5) in
              [preview_label_setPixmap page_num_to_render
                 (pixmap_scaled pixmap available_size)]
          end ++
          [page_info_label_setText
             ("Page: " ++ Py.str (page_num_to_render + 1) ++ " of "
              ++ Py.str (total_pages d))%string;
           prev_page_button_setEnabled (0 <? current_preview_index d);
           next_page_button_setEnabled
             (current_preview_index d
              <? Z.of_nat (List.length (preview_pages d)) - 1)]
      end
  end.

Definition update_preview_range (w : Collaborators) (d : PrintDialog)
  : PrintDialog * list event :=
  let d := set_preview_pages d [] in
  match generated_pages w d with
  | Py.Returns pages =>
      let d := set_preview_pages d (filter (in_bounds d) pages) in
      let d := set_current_preview_index d 0 in
      (d, render_current_preview_page w d)
  | Py.Raise Py.ValueError =>
      let d := set_preview_pages d [] in
      let d := set_current_preview_index d 0 in
      (d, render_current_preview_page w d)
  | Py.Raise e => (d, [uncaught (Py.exception_name e)])
  end.

Definition show_prev_page (w : Collaborators) (d : PrintDialog)
  : PrintDialog * list event :=
  if 0 <? current_preview_index d then
    let d := set_current_preview_index d (current_preview_index d - 1) in
    (d, render_current_preview_page w d)
  else (d, []).

Definition show_next_page (w : Collaborators) (d : PrintDialog)
  : PrintDialog * list event :=
  if current_preview_index d <? Z.of_nat (List.length (preview_pages d)) - 1
  then
    let d := set_current_preview_index d (current_preview_index d + 1) in
    (d, render_current_preview_page w d)
  else (d, []).

(** The raster of one page in the print loop:
    [page.get_pixmap(dpi=print_dpi, clip=clip_rect, alpha=False)]. *)
Definition print_raster (w : Collaborators) (d : PrintDialog)
           (printer : QPrinter) (page_num : Z) : pixmap_result :=
  let print_dpi := resolution w printer in
  get_pixmap w page_num (Some print_dpi) false.

(** [if q_image.isNull(): continue]: nothing is said. *)
Definition null_raster_report (page_num : Z) : list event := [].

Definition no_pages_selected : event :=
  QMessageBox_warning "No Pages Selected"
    "There are no valid pages selected to print.".

Definition print_error : event :=
  QMessageBox_critical "Print Error"
    "Could not start the printer. Check connection and drivers.".

Definition success : event :=
  QMessageBox_information "Success" "Document has been sent to the printer.".

Definition process_and_print (w : Collaborators) (d : PrintDialog)
           (printer : QPrinter) : list event :=
  let pages_to_print := preview_pages d in
  match pages_to_print with
  | [] => [no_pages_selected]
  | _ =>
      if negb (painter_begin w printer) then
        [painter_begin_called false; print_error]
      else
        painter_begin_called true ::
        match print_loop (pageRect w printer) (fun _ => true)
                (print_raster w d printer) null_raster_report
                (Z.of_nat (List.length pages_to_print)) 0 pages_to_print with
        | (t, Completed) => t ++ [painter_end; success]
        | (t, Raised e) =>
            t ++ [QMessageBox_critical "Printing Failed"
                    ("An unexpected error occurred: " ++ exn_msg e)%string;
                  painter_end]
        end
  end.

Record paper_info := mkPaper {
  display : string;
  id : option string;
  size_in : option (Q * Q)
}.

Definition paper_sizes : list paper_info :=
  [ mkPaper "Letter (8.5 x 11.0 in)" (Some "Letter") None;
    mkPaper "Legal (8.5 x 14.0 in)" (Some "Legal") None;
    mkPaper "Legal (8.5 x 13.0 in)" None (Some (17 # 2, 13 # 1)%Q);
    mkPaper "A4 (210 x 297 mm)" (Some "A4") None;
    mkPaper "A3 (297 x 420 mm)" (Some "A3") None;
    mkPaper "A5 (148 x 210 mm)" (Some "A5") None;
    mkPaper "Custom..." None None ].

(** The printer [execute_print] configures before it calls
    [process_and_print] (the modal "Processing..." dialog around the call
    is left out). *)
Definition configured_printer (d : PrintDialog) : QPrinter :=
  let orientation :=
    if String.eqb (orientation_combo d) "Landscape" then Landscape
    else Portrait in
  let selected_paper_text := paper_size_combo d in
  let page_size :=
    if String.eqb selected_paper_text "Custom..." then
      let unit := if String.eqb (custom_unit_combo d) "Inches"
                  then Inch else Millimeter in
      Some (PageSizeF (custom_width_input d) (custom_height_input d) unit)
    else
      match find (fun p => String.eqb (display p) selected_paper_text)
              paper_sizes with
      | Some info =>
          match id info, size_in info with
          | Some i, _ => Some (PageSizeId i)
          | None, Some (pw, ph) => Some (PageSizeF pw ph Inch)
          | None, None => None
          end
      | None => None
      end in
  mkPrinter (printer_combo d) (copies_spinbox d) (Some orientation) page_size
    (Py.int (dpi_combo d))
    (if String.eqb (color_mode_combo d) "Grayscale" then GrayScale else Color).

Definition execute_print (w : Collaborators) (d : PrintDialog) : list event :=
  process_and_print w d (configured_printer d).

(** The selection the dialog computes for a range specification and a
    page count: [update_preview_range] run on a dialog with these inputs. *)
Definition resolve (w : Collaborators) (d : PrintDialog)
           (spec : RangeSpec) (pageCount : Z) : list Z :=
  preview_pages
    (fst (update_preview_range w (apply_spec spec (set_total_pages d pageCount)))).


(** The trace of the [update_preview_range] that computes [resolve]. *)
Definition resolve_events (w : Collaborators) (d : PrintDialog)
           (spec : RangeSpec) (pageCount : Z) : list event :=
  snd (update_preview_range w (apply_spec spec (set_total_pages d pageCount))).

End Main.

(* ================================================================== *)
(** ** [main_1.py] *)
(* ================================================================== *)

Module Main_1.

(** The list the [try] block of [process_and_print] builds, or the
    exception the parse raises. *)
Definition pages_to_print (w : Collaborators) (d : PrintDialog)
  : Py.outcome (list Z) :=
  if all_pages_radio d then Py.Returns (Py.range 0 (total_pages d))
  else
    let range_text := Py.strip (page_range_edit d) in
    if Py.contains "-" range_text then
      match Py.unpack2 (map Py.int (Py.split "-" range_text)) with
      | Some (start, end_) => Py.list_range (list_capacity w) (start - 1) end_
      | None => Py.Raise Py.ValueError
      end
    else
      match Py.int range_text with
      | Some n => Py.Returns [n - 1]
      | None => Py.Raise Py.ValueError
      end.

Definition in_bounds (d : PrintDialog) (p : Z) : bool :=
  (0 <=? p) && (p <? total_pages d).

Definition PRINT_DPI : Z := 300.

Definition invalid_page_range : event :=
  QMessageBox_critical "Invalid Page Range"
    "Please enter a valid page or page range (e.g., '5' or '5-10').".

(** The raster of one page in the print loop:
    [page.get_pixmap(dpi=PRINT_DPI, colorspace=..., alpha=False)]. *)
Definition print_raster (w : Collaborators) (d : PrintDialog)
           (page_num : Z) : pixmap_result :=
  get_pixmap w page_num (Some PRINT_DPI)
    (String.eqb (color_mode_combo d) "Grayscale").

(** [if q_image.isNull(): QMessageBox.warning(...); continue] *)
Definition null_raster_report (page_num : Z) : list event :=
  [QMessageBox_warning "Conversion Error"
     ("Could not create a valid image for page "
      ++ Py.str (page_num + 1) ++ ".")%string].

Definition print_error : event :=
  QMessageBox_critical "Print Error" "Could not start the printer.".

Definition success : event :=
  QMessageBox_information "Success" "Document sent to printer.".

Definition process_and_print (w : Collaborators) (d : PrintDialog)
           (printer : QPrinter) : list event :=
  if negb (Py.endswith (Py.lower (file_path d)) ".pdf") then
    [QMessageBox_warning "Not Implemented"
       "Printing is only supported for PDF files."]
  else
    match pages_to_print w d with
    | Py.Raise Py.ValueError => [invalid_page_range]
    | Py.Raise e =>
        (* [except Exception as e]: the box, then [painter.isActive()] on a
           [painter] that was never assigned *)
        [QMessageBox_critical "Printing Failed"
           ("An unexpected error occurred: " ++ Py.exception_msg e)%string;
         uncaught "UnboundLocalError"]
    | Py.Returns pages_to_print =>
        if negb (painter_begin w printer) then
          [painter_begin_called false; print_error]
        else
          painter_begin_called true ::
          match print_loop (pageRect w printer) (in_bounds d)
                  (print_raster w d) null_raster_report
                  (Z.of_nat (List.length pages_to_print)) 0 pages_to_print
          with
          | (t, Completed) => t ++ [painter_end; success; accept]
          | (t, Raised (ValueError _)) => t ++ [invalid_page_range]
          | (t, Raised (OtherException m)) =>
              t ++ [QMessageBox_critical "Printing Failed"
                      ("An unexpected error occurred: " ++ m)%string;
                    painter_end]
          end
    end.

Definition paper_sizes : list (string * string) :=
  [("Letter", "Letter"); ("A4", "A4"); ("Legal", "Legal"); ("A3", "A3");
   ("A5", "A5")].

(** [paper_sizes.get(paper_size_str, QPageSize.PageSizeId.Letter)] *)
Definition paper_size_id (paper_size_str : string) : string :=
  match find (fun kv => String.eqb (fst kv) paper_size_str) paper_sizes with
  | Some kv => snd kv
  | None => "Letter"
  end.

Definition configured_printer (d : PrintDialog) : QPrinter :=
  mkPrinter (printer_combo d) (copies_spinbox d) None
    (Some (PageSizeId (paper_size_id (paper_size_combo d)))) None
    (if String.eqb (color_mode_combo d) "Grayscale" then GrayScale else Color).

Definition execute_print (w : Collaborators) (d : PrintDialog) : list event :=
  process_and_print w d (configured_printer d).

End Main_1.

(* ================================================================== *)
(** ** [main_2.py] *)
(* ================================================================== *)

Module Main_2.

Definition generated_pages (w : Collaborators) (d : PrintDialog)
  : Py.outcome (list Z) :=
  if all_pages_radio d || negb (Py.truthy (page_range_edit d)) then
    Py.Returns (Py.range 0 (total_pages d))
  else
    let range_text := Py.strip (page_range_edit d) in
    if Py.contains "-" range_text then
      match Py.unpack2 (map Py.int (Py.split "-" range_text)) with
      | Some (start, end_) => Py.list_range (list_capacity w) (start - 1) end_
      | None => Py.Raise Py.ValueError
      end
    else
      match Py.int range_text with
      | Some n => Py.Returns [n - 1]
      | None => Py.Raise Py.ValueError
      end.

Definition in_bounds (d : PrintDialog) (p : Z) : bool :=
  (0 <=? p) && (p <? total_pages d).

Definition no_valid_pages : list event :=
  [preview_label_setText "No valid pages selected.";
   page_info_label_setText "Page: -";
   prev_page_button_setEnabled false;
   next_page_button_setEnabled false].

Definition render_current_preview_page (w : Collaborators) (d : PrintDialog)
  : list event :=
  match preview_pages d with
  | [] => no_valid_pages
  | _ =>
      match Py.getitem (preview_pages d) (current_preview_index d) with
      | None => [uncaught "IndexError"]
      | Some page_num_to_render =>
          load_page page_num_to_render ::
          match get_pixmap w page_num_to_render None false with
          | Raises e =>
              [preview_label_setText
                 ("Error rendering page:" ++ nl ++ exn_msg e)%string]
          | Image q_image =>
              [preview_label_setPixmap page_num_to_render
                 (scaledToWidth w (image_size q_image) 450)]
          end ++
          [page_info_label_setText
             ("Page: " ++ Py.str (page_num_to_render + 1) ++ " of "
              ++ Py.str (total_pages d))%string;
           prev_page_button_setEnabled (0 <? current_preview_index d);
           next_page_button_setEnabled
             (current_preview_index d
              <? Z.of_nat (List.length (preview_pages d)) - 1)]
      end
  end.

Definition update_preview_range (w : Collaborators) (d : PrintDialog)
  : PrintDialog * list event :=
  let d := set_preview_pages d [] in
  match generated_pages w d with
  | Py.Returns pages =>
      let d := set_preview_pages d (filter (in_bounds d) pages) in
      let d := set_current_preview_index d 0 in
      (d, render_current_preview_page w d)
  | Py.Raise Py.ValueError =>
      let d := set_preview_pages d [] in
      let d := set_current_preview_index d 0 in
      (d, render_current_preview_page w d)
  | Py.Raise e => (d, [uncaught (Py.exception_name e)])
  end.

Definition show_prev_page (w : Collaborators) (d : PrintDialog)
  : PrintDialog * list event :=
  if 0 <? current_preview_index d then
    let d := set_current_preview_index d (current_preview_index d - 1) in
    (d, render_current_preview_page w d)
  else (d, []).

Definition show_next_page (w : Collaborators) (d : PrintDialog)
  : PrintDialog * list event :=
  if current_preview_index d <? Z.of_nat (List.length (preview_pages d)) - 1
  then
    let d := set_current_preview_index d (current_preview_index d + 1) in
    (d, render_current_preview_page w d)
  else (d, []).

(** The raster of one page in the print loop:
    [page.get_pixmap(dpi=print_dpi, colorspace=..., alpha=False)]. *)
Definition print_raster (w : Collaborators) (d : PrintDialog)
           (printer : QPrinter) (page_num : Z) : pixmap_result :=
  let print_dpi := resolution w printer in
  get_pixmap w page_num (Some print_dpi)
    (String.eqb (color_mode_combo d) "Grayscale").

(** [if q_image.isNull(): print(f"Warning: ..."); continue] *)
Definition null_raster_report (page_num : Z) : list event :=
  [print ("Warning: Could not create a valid image for page "
          ++ Py.str (page_num + 1) ++ ".")%string].

Definition no_pages_selected : event :=
  QMessageBox_warning "No Pages Selected"
    "There are no valid pages selected to print.".

Definition print_error : event :=
  QMessageBox_critical "Print Error" "Could not start the printer.".

Definition success : event :=
  QMessageBox_information "Success" "Document sent to printer.".

Definition process_and_print (w : Collaborators) (d : PrintDialog)
           (printer : QPrinter) : list event :=
  let pages_to_print := preview_pages d in
  match pages_to_print with
  | [] => [no_pages_selected]
  | _ =>
      if negb (painter_begin w printer) then
        [painter_begin_called false; print_error]
      else
        painter_begin_called true ::
        match print_loop (pageRect w printer) (fun _ => true)
                (print_raster w d printer) null_raster_report
                (Z.of_nat (List.length pages_to_print)) 0 pages_to_print with
        | (t, Completed) => t ++ [painter_end; success; accept]
        | (t, Raised e) =>
            t ++ [QMessageBox_critical "Printing Failed"
                    ("An unexpected error occurred: " ++ exn_msg e)%string;
                  painter_end]
        end
  end.

Definition configured_printer (d : PrintDialog) : QPrinter :=
  mkPrinter (printer_combo d) (copies_spinbox d) None
    (Some (PageSizeId (Main_1.paper_size_id (paper_size_combo d))))
    (Py.int (dpi_combo d))
    (if String.eqb (color_mode_combo d) "Grayscale" then GrayScale else Color).

Definition execute_print (w : Collaborators) (d : PrintDialog) : list event :=
  match Py.int (dpi_combo d) with
  | Some _ => []
  | None =>
      [QMessageBox_warning "Invalid DPI"
         "Could not set print resolution. Using default."]
  end ++ process_and_print w d (configured_printer d).

(** [Main.resolve] for [main_2.py]. *)
Definition resolve (w : Collaborators) (d : PrintDialog)
           (spec : RangeSpec) (pageCount : Z) : list Z :=
  preview_pages
    (fst (Main_2.update_preview_range w
            (apply_spec spec (set_total_pages d pageCount)))).


(** The trace of the [update_preview_range] that computes [resolve]. *)
Definition resolve_events (w : Collaborators) (d : PrintDialog)
           (spec : RangeSpec) (pageCount : Z) : list event :=
  snd (update_preview_range w (apply_spec spec (set_total_pages d pageCount))).

End Main_2.

(* ================================================================== *)
(** ** [main_3.py] *)
(* ================================================================== *)

Module Main_3.

Definition generated_pages (w : Collaborators) (d : PrintDialog)
  : Py.outcome (list Z) :=
  if all_pages_radio d || negb (Py.truthy (page_range_edit d)) then
    Py.Returns (Py.range 0 (total_pages d))
  else
    let range_text := Py.strip (page_range_edit d) in
    if Py.contains "-" range_text then
      match Py.unpack2 (map Py.int (Py.split "-" range_text)) with
      | Some (start, end_) => Py.list_range (list_capacity w) (start - 1) end_
      | None => Py.Raise Py.ValueError
      end
    else
      match Py.int range_text with
      | Some n => Py.Returns [n - 1]
      | None => Py.Raise Py.ValueError
      end.

Definition in_bounds (d : PrintDialog) (p : Z) : bool :=
  (0 <=? p) && (p <? total_pages d).

Definition render_current_preview_page (w : Collaborators) (d : PrintDialog)
  : list event :=
  match preview_pages d with
  | [] => Main_2.no_valid_pages
  | _ =>
      match Py.getitem (preview_pages d) (current_preview_index d) with
      | None => [uncaught "IndexError"]
      | Some page_num_to_render =>
          load_page page_num_to_render ::
          match get_pixmap w page_num_to_render None false with
          | Raises e =>
              [preview_label_setText
                 ("Error rendering page:" ++ nl ++ exn_msg e)%string]
          | Image q_image =>
              let pixmap := image_size q_image in
              match scroll_area d with
              | None =>
                  [preview_label_setText
                     ("Error rendering page:" ++ nl ++
                      "'PrintDialog' object has no attribute 'scroll_area'")%string]
              | Some viewport =>
                  let available_size :=
                    mkSize (width viewport - 5) (height viewport - 5) in
                  [preview_label_setPixmap page_num_to_render
                     (pixmap_scaled pixmap available_size)]
              end
          end ++
          [page_info_label_setText
             ("Page: " ++ Py.str (page_num_to_render + 1) ++ " of "
              ++ Py.str (total_pages d))%string;
           prev_page_button_setEnabled (0 <? current_preview_index d);
           next_page_button_setEnabled
             (current_preview_index d
              <? Z.of_nat (List.length (preview_pages d)) - 1)]
      end
  end.

Definition update_preview_range (w : Collaborators) (d : PrintDialog)
  : PrintDialog * list event :=
  let d := set_preview_pages d [] in
  match generated_pages w d with
  | Py.Returns pages =>
      let d := set_preview_pages d (filter (in_bounds d) pages) in
      let d := set_current_preview_index d 0 in
      (d, render_current_preview_page w d)
  | Py.Raise Py.ValueError =>
      let d := set_preview_pages d [] in
      let d := set_current_preview_index d 0 in
      (d, render_current_preview_page w d)
  | Py.Raise e => (d, [uncaught (Py.exception_name e)])
  end.

Definition show_prev_page (w : Collaborators) (d : PrintDialog)
  : PrintDialog * list event :=
  if 0 <? current_preview_index d then
    let d := set_current_preview_index d (current_preview_index d - 1) in
    (d, render_current_preview_page w d)
  else (d, []).

Definition show_next_page (w : Collaborators) (d : PrintDialog)
  : PrintDialog * list event :=
  if current_preview_index d <? Z.of_nat (List.length (preview_pages d)) - 1
  then
    let d := set_current_preview_index d (current_preview_index d + 1) in
    (d, render_current_preview_page w d)
  else (d, []).

(** The raster of one page in the print loop:
    [page.get_pixmap(dpi=print_dpi, colorspace=..., alpha=False)]. *)
Definition print_raster (w : Collaborators) (d : PrintDialog)
           (printer : QPrinter) (page_num : Z) : pixmap_result :=
  let print_dpi := resolution w printer in
  get_pixmap w page_num (Some print_dpi)
    (String.eqb (color_mode_combo d) "Grayscale").

(** [if q_image.isNull(): print(f"Warning: ..."); continue] *)
Definition null_raster_report (page_num : Z) : list event :=
  [print ("Warning: Could not create a valid image for page "
          ++ Py.str (page_num + 1) ++ ".")%string].

Definition no_pages_selected : event :=
  QMessageBox_warning "No Pages Selected"
    "There are no valid pages selected to print.".

Definition print_error : event :=
  QMessageBox_critical "Print Error"
    "Could not start the printer. Check connection and drivers.".

Definition success : event :=
  QMessageBox_information "Success" "Document has been sent to the printer.".

Definition process_and_print (w : Collaborators) (d : PrintDialog)
           (printer : QPrinter) : list event :=
  let pages_to_print := preview_pages d in
  match pages_to_print with
  | [] => [no_pages_selected]
  | _ =>
      if negb (painter_begin w printer) then
        [painter_begin_called false; print_error]
      else
        painter_begin_called true ::
        match print_loop (pageRect w printer) (fun _ => true)
                (print_raster w d printer) null_raster_report
                (Z.of_nat (List.length pages_to_print)) 0 pages_to_print with
        | (t, Completed) => t ++ [painter_end; success]
        | (t, Raised e) =>
            t ++ [QMessageBox_critical "Printing Failed"
                    ("An unexpected error occurred: " ++ exn_msg e)%string;
                  painter_end]
        end
  end.

Definition configured_printer (d : PrintDialog) : QPrinter :=
  mkPrinter (printer_combo d) (copies_spinbox d) None
    (Some (PageSizeId (Main_1.paper_size_id (paper_size_combo d))))
    (Py.int (dpi_combo d))
    (if String.eqb (color_mode_combo d) "Grayscale" then GrayScale else Color).

Definition execute_print (w : Collaborators) (d : PrintDialog) : list event :=
  process_and_print w d (configured_printer d).

(** [Main.resolve] for [main_3.py]. *)
Definition resolve (w : Collaborators) (d : PrintDialog)
           (spec : RangeSpec) (pageCount : Z) : list Z :=
  preview_pages
    (fst (Main_3.update_preview_range w
            (apply_spec spec (set_total_pages d pageCount)))).


(** The trace of the [update_preview_range] that computes [resolve]. *)
Definition resolve_events (w : Collaborators) (d : PrintDialog)
           (spec : RangeSpec) (pageCount : Z) : list event :=
  snd (update_preview_range w (apply_spec spec (set_total_pages d pageCount))).

End Main_3.

(* ================================================================== *)
(** ** Vocabulary of the specification *)
(* ================================================================== *)

(** The tokens of a range text: the pieces [int] is applied to, i.e. the
    stripped text split at the dashes (the whole stripped text when it has
    no dash). *)
Definition tokens (text : string) : list string :=
  Py.split "-" (Py.strip text).

(** Some token of the text is not an integer literal. *)
Definition has_bad_token (text : string) : Prop :=
  exists tok, In tok (tokens text) /\ Py.int tok = None.

Definition is_uncaught (e : event) : bool :=
  match e with uncaught _ => true | _ => false end.

(** A trace surfaces no error: no message box, no exception leaving the
    handler. *)
Definition quiet (t : list event) : Prop :=
  forall e, In e t -> is_message_box e = false /\ is_uncaught e = false.

(** A trace says something about a page it skipped: a line on standard
    output or a warning box. *)
Definition is_skip_report (e : event) : bool :=
  match e with
  | print _ | QMessageBox_warning _ _ => true
  | _ => false
  end.

(** The run of a typed range [start-end] can be built as a list in the
    world [w]: [list(range(start - 1, end))] returns. *)
Definition run_fits (w : Collaborators) (start end_ : Z) : Prop :=
  Z.max 0 (end_ - (start - 1)) <= Z.min Py.maxsize (list_capacity w).

(** An exception left [update_preview_range] because the list of a typed
    range could not be built. *)
Definition is_list_failure (e : event) : bool :=
  match e with
  | uncaught name =>
      String.eqb name "OverflowError" || String.eqb name "MemoryError"
  | _ => false
  end.

(** A trace of the preview in which nothing was reported and no indexing
    failed: no message box, and no exception left a slot except the one of
    a typed range too long to be built. *)
Definition calm (t : list event) : Prop :=
  forall e, In e t ->
    is_message_box e = false /\
    (is_uncaught e = true -> is_list_failure e = true).

(** A range text whose run, 10^20 pages, is longer than any list. *)
Definition huge_range : string := "1-99999999999999999999".

(** The [try] block of [update_preview_range] is left by an exception
    that [except ValueError] does not catch: the method is cut short
    before it resets the cursor and renders. *)
Definition cut_short (generated : Py.outcome (list Z)) : bool :=
  match generated with
  | Py.Raise Py.OverflowError | Py.Raise Py.MemoryError => true
  | _ => false
  end.

(** The range the dialog holds can be built: when the custom range is
    selected and its text is two tokens that both parse as integers, the run
    between them fits a list. *)
Definition buildable (w : Collaborators) (d : PrintDialog) : Prop :=
  forall ta tb start end_,
    all_pages_radio d = false ->
    tokens (page_range_edit d) = [ta; tb] ->
    Py.int ta = Some start -> Py.int tb = Some end_ ->
    run_fits w start end_.

(* ================================================================== *)
(** ** Fit-to-page as the specification words it *)
(* ================================================================== *)

(** [int(q)] of a rational: truncation toward zero. *)
Definition Qtruncate (q : Q) : Z := Z.quot (Qnum q) (Zpos (Qden q)).

(** "scale is min(targetWidth/sourceWidth, targetHeight/sourceHeight)",
    for positive source dimensions. *)
Definition min_scale (sw sh tw th : Z) : Q :=
  Qmin (tw # Z.to_pos sw) (th # Z.to_pos sh).

(** The source scaled uniformly by [min_scale], in whole pixels. *)
Definition uniformly_scaled (sw sh tw th : Z) : QSize :=
  let s := min_scale sw sh tw th in
  mkSize (Qtruncate (inject_Z sw * s)) (Qtruncate (inject_Z sh * s)).

(** [place(sourceWidth, sourceHeight, targetWidth, targetHeight)] as the
    print path computes it. *)
Definition place (sw sh tw th : Z) : QRect :=
  target_rect (mkSize sw sh) (mkSize tw th).

(** The rounding band of [QSize.scaled]: the width ratio is the smaller
    one, yet the width fitted to the target height still truncates to the
    target width. *)
Definition in_rounding_band (sw sh tw th : Z) : Prop :=
  tw * sh < th * sw < (tw + 1) * sh.

(* ================================================================== *)
(** ** The preview as a state machine *)
(* ================================================================== *)

Definition set_scroll_area (d : PrintDialog) (v : option QSize) : PrintDialog :=
  mkDialog (file_path d) (total_pages d) (preview_pages d)
    (current_preview_index d)
    (printer_combo d) (dpi_combo d) (color_mode_combo d) (orientation_combo d)
    (paper_size_combo d) (custom_width_input d) (custom_height_input d)
    (custom_unit_combo d) (copies_spinbox d) (all_pages_radio d)
    (page_range_edit d) v.

(** The slots of one variant that touch the preview. *)
Record preview_slots := mkSlots {
  slot_update_preview_range : Collaborators -> PrintDialog -> PrintDialog * list event;
  slot_show_prev_page : Collaborators -> PrintDialog -> PrintDialog * list event;
  slot_show_next_page : Collaborators -> PrintDialog -> PrintDialog * list event;
  slot_render_current_preview_page : Collaborators -> PrintDialog -> list event
}.

Definition main_slots : preview_slots :=
  mkSlots Main.update_preview_range Main.show_prev_page Main.show_next_page
    Main.render_current_preview_page.

Definition main_2_slots : preview_slots :=
  mkSlots Main_2.update_preview_range Main_2.show_prev_page
    Main_2.show_next_page Main_2.render_current_preview_page.

Definition main_3_slots : preview_slots :=
  mkSlots Main_3.update_preview_range Main_3.show_prev_page
    Main_3.show_next_page Main_3.render_current_preview_page.

(** What the user can do to the preview, by the signal it raises:
    [all_pages_radio.toggled] and [page_range_edit.textChanged] are connected
    to [update_preview_range], the two buttons to [show_prev_page] and
    [show_next_page], [orientation_combo.currentTextChanged] and [resizeEvent]
    to [render_current_preview_page]. *)
Inductive action :=
| toggle_all_pages (checked : bool)
| edit_page_range (text : string)
| click_prev
| click_next
| select_orientation (text : string)
| resize (viewport : QSize).

Definition handle (m : preview_slots) (w : Collaborators) (a : action)
           (d : PrintDialog) : PrintDialog * list event :=
  match a with
  | toggle_all_pages checked =>
      slot_update_preview_range m w (set_all_pages_radio d checked)
  | edit_page_range text =>
      slot_update_preview_range m w (set_page_range_edit d text)
  | click_prev => slot_show_prev_page m w d
  | click_next => slot_show_next_page m w d
  | select_orientation text =>
      let d := set_orientation_combo d text in
      (d, slot_render_current_preview_page m w d)
  | resize viewport =>
      let d := set_scroll_area d (Some viewport) in
      (d, slot_render_current_preview_page m w d)
  end.

(** The dialog after [__init__]: empty selection, cursor 0, then the first
    [update_preview_range]. *)
Definition opened (m : preview_slots) (w : Collaborators) (d0 : PrintDialog)
  : PrintDialog * list event :=
  slot_update_preview_range m w
    (set_current_preview_index (set_preview_pages d0 []) 0).

(** The dialog and the trace after a sequence of user actions.  An
    exception that leaves a slot is recorded as [uncaught], and the session
    is followed further from the state the slot left behind; where Qt's
    handler ends the process at that point, the session is the prefix up to
    there. *)
Fixpoint run (m : preview_slots) (w : Collaborators) (actions : list action)
         (st : PrintDialog * list event) : PrintDialog * list event :=
  match actions with
  | [] => st
  | a :: rest =>
      let '(d', t) := handle m w a (fst st) in
      run m w rest (d', snd st ++ t)
  end.

(** The invariant of the preview cursor. *)
Definition cursor_in_bounds (d : PrintDialog) : Prop :=
  0 <= current_preview_index d /\
  (preview_pages d <> [] ->
   current_preview_index d < Z.of_nat (List.length (preview_pages d))).

(* ================================================================== *)
(** ** Concrete inputs *)
(* ================================================================== *)

(** A printer that starts, an A4 page at 300 dpi, a document whose every
    page renders to a 1240 x 1754 raster, and room for lists of up to 10^8
    items. *)
Definition sample_world : Collaborators :=
  mkCollaborators
    (fun _ => true)
    (fun _ => mkSize 2480 3508)
    (fun _ => 300)
    (fun _ _ _ => Image (mkImage (mkSize 1240 1754) false))
    (fun s w => mkSize w (Z.quot (height s * w) (width s)))
    100000000.

(** The same, with a printer that cannot be started. *)
Definition offline_world : Collaborators :=
  mkCollaborators
    (fun _ => false)
    (fun _ => mkSize 2480 3508)
    (fun _ => 300)
    (fun _ _ _ => Image (mkImage (mkSize 1240 1754) false))
    (fun s w => mkSize w (Z.quot (height s * w) (width s)))
    100000000.

(** The same as [sample_world], except that page 0 gives a null raster. *)
Definition null_first_page_world : Collaborators :=
  mkCollaborators
    (fun _ => true)
    (fun _ => mkSize 2480 3508)
    (fun _ => 300)
    (fun p _ _ =>
       if p =? 0 then Image (mkImage (mkSize 0 0) true)
       else Image (mkImage (mkSize 1240 1754) false))
    (fun s w => mkSize w (Z.quot (height s * w) (width s)))
    100000000.

(** The same as [sample_world], except that rendering page 0 raises. *)
Definition raising_first_page_world : Collaborators :=
  mkCollaborators
    (fun _ => true)
    (fun _ => mkSize 2480 3508)
    (fun _ => 300)
    (fun p _ _ =>
       if p =? 0 then Raises (OtherException "cannot render page")
       else Image (mkImage (mkSize 1240 1754) false))
    (fun s w => mkSize w (Z.quot (height s * w) (width s)))
    100000000.

(** A landscape sheet: 300 x 200 device pixels when the layout is
    landscape, 200 x 300 otherwise; every page renders to 100 x 200. *)
Definition landscape_world : Collaborators :=
  mkCollaborators
    (fun _ => true)
    (fun printer =>
       match layout_orientation printer with
       | Some Landscape => mkSize 300 200
       | _ => mkSize 200 300
       end)
    (fun _ => 72)
    (fun _ _ _ => Image (mkImage (mkSize 100 200) false))
    (fun s w => mkSize w (Z.quot (height s * w) (width s)))
    100000000.

(** A freshly constructed dialog on a PDF, before the document is counted. *)
Definition sample_dialog : PrintDialog :=
  mkDialog "report.pdf" 0 [] 0 "Office" "300" "Color" "Portrait"
    "A4 (210 x 297 mm)" (17 # 2)%Q (11 # 1)%Q "Inches" 1 true ""
    (Some (mkSize 605 805)).

(** [sample_dialog] with [pageCount] pages and the given range
    specification entered. *)
Definition dialog_with (spec : RangeSpec) (pageCount : Z) : PrintDialog :=
  apply_spec spec (set_total_pages sample_dialog pageCount).


(** A print job that ran to its end over [pages], whose rasters are given
    by [raster]: the painter was started, every page was requested, the
    pages with a valid raster were drawn in order, each page with a null
    raster left exactly [report] in the trace, and the job closed with
    [closing]. *)
Definition ran_skipping_null_pages (trace : list event) (pages : list Z)
           (raster : Z -> pixmap_result) (report : Z -> list event)
           (closing : list event) : Prop :=
  exists t,
    trace = painter_begin_called true :: t ++ closing /\
    loaded_pages t = pages /\
    drawn_pages t = filter (fun p => negb (renders_null raster p)) pages /\
    filter is_skip_report t = flat_map report (filter (renders_null raster) pages).

(** A two-page dialog of main.py after its first [update_preview_range]. *)
Definition two_page_dialog : PrintDialog :=
  fst (Main.update_preview_range null_first_page_world (dialog_with All 2)).

(** A one-page dialog of main.py with "Landscape" selected. *)
Definition landscape_dialog : PrintDialog :=
  fst (Main.update_preview_range landscape_world
         (set_orientation_combo (dialog_with All 1) "Landscape")).


(** The slots of a variant keep the cursor in bounds; while it is, the
    navigation and the rendering raise and report nothing, and
    [update_preview_range] raises at most the exception of a range that
    cannot be built. *)
Definition keeps_cursor (m : preview_slots) : Prop :=
  (forall w d, cursor_in_bounds d ->
     cursor_in_bounds (fst (slot_update_preview_range m w d)) /\
     calm (snd (slot_update_preview_range m w d))) /\
  (forall w d, cursor_in_bounds d ->
     cursor_in_bounds (fst (slot_show_prev_page m w d)) /\
     quiet (snd (slot_show_prev_page m w d))) /\
  (forall w d, cursor_in_bounds d ->
     cursor_in_bounds (fst (slot_show_next_page m w d)) /\
     quiet (snd (slot_show_next_page m w d))) /\
  (forall w d, cursor_in_bounds d ->
     quiet (slot_render_current_preview_page m w d)).

(** A session on a 5-page document that walks to the fourth page and then
    receives a range too long to be built. *)
Definition overflowing_session : list action :=
  [toggle_all_pages false; click_next; click_next; click_next;
   edit_page_range huge_range].

(** A session on a 5-page document: custom range "2-4", then "Next" three
    times and "Previous" once. *)
Definition sample_session : list action :=
  [toggle_all_pages false; edit_page_range "2-4";
   click_next; click_next; click_next; click_prev].


(* ================================================================== *)
(** ** The rest of the dialogs: combo boxes, the DPI list, loading *)
(* ================================================================== *)

(** A non-editable [QComboBox]: its items and its current index ([None] =
    no current item, Qt's -1). *)
Module Combo.

Record QComboBox := mkCombo {
  items : list string;
  currentIndex : option nat
}.

(** [combo.currentText()]: the text of the current item, empty without
    one. *)
Definition currentText (c : QComboBox) : string :=
  match currentIndex c with
  | Some i => nth i (items c) EmptyString
  | None => EmptyString
  end.

(** [combo.clear()] *)
Definition clear (c : QComboBox) : QComboBox := mkCombo [] None.

(** [combo.addItems(texts)]: the items are appended; a combo box that was
    empty makes its first item current. *)
Definition addItems (c : QComboBox) (texts : list string) : QComboBox :=
  match items c, texts with
  | [], _ :: _ => mkCombo texts (Some 0%nat)
  | _, _ => mkCombo (items c ++ texts) (currentIndex c)
  end.

(** [combo.findText(text)]: the index of the first item equal to [text]. *)
Fixpoint findText (its : list string) (text : string) : option nat :=
  match its with
  | [] => None
  | i :: rest =>
      if String.eqb i text then Some 0%nat
      else option_map S (findText rest text)
  end.

(** [combo.setCurrentText(text)] on a non-editable combo box: the first
    item with that text becomes current; without one nothing changes. *)
Definition setCurrentText (c : QComboBox) (text : string) : QComboBox :=
  match findText (items c) text with
  | Some i => mkCombo (items c) (Some i)
  | None => c
  end.

End Combo.

(** [x in xs] for a list of ints. *)
Definition int_in (x : Z) (xs : list Z) : bool := existsb (Z.eqb x) xs.

(** The part of [update_dpi_list] after the printer information has been
    fetched, the same text in the three variants that have it:
<<
    self.dpi_combo.clear()
    if supported_resolutions:
        self.dpi_combo.addItems([str(dpi) for dpi in supported_resolutions])
        if 300 in supported_resolutions:
            self.dpi_combo.setCurrentText("300")
        elif 600 in supported_resolutions:
            self.dpi_combo.setCurrentText("600")
    else:
        self.dpi_combo.addItems(["75", "96", "150", "300", "600"])
        self.dpi_combo.setCurrentText("300")
>> *)
Definition fill_dpi_combo (supported_resolutions : list Z)
           (dpi_combo : Combo.QComboBox) : Combo.QComboBox :=
  let dpi_combo := Combo.clear dpi_combo in
  match supported_resolutions with
  | _ :: _ =>
      let dpi_combo :=
        Combo.addItems dpi_combo (map Py.str supported_resolutions) in
      if int_in 300 supported_resolutions then
        Combo.setCurrentText dpi_combo "300"
      else if int_in 600 supported_resolutions then
        Combo.setCurrentText dpi_combo "600"
      else dpi_combo
  | [] =>
      let dpi_combo :=
        Combo.addItems dpi_combo ["75"; "96"; "150"; "300"; "600"] in
      Combo.setCurrentText dpi_combo "300"
  end.

(** [update_dpi_list] of main.py and main_3.py: nothing happens while no
    printer is selected.  [supportedResolutions] is what the printer
    information reports for a printer name. *)
Definition update_dpi_list (supportedResolutions : string -> list Z)
           (printer_name : string) (dpi_combo : Combo.QComboBox)
  : Combo.QComboBox :=
  if negb (Py.truthy printer_name) then dpi_combo
  else fill_dpi_combo (supportedResolutions printer_name) dpi_combo.

(** [update_dpi_list] of main_2.py: no check of the printer name. *)
Definition update_dpi_list_main_2 (supportedResolutions : string -> list Z)
           (printer_name : string) (dpi_combo : Combo.QComboBox)
  : Combo.QComboBox :=
  fill_dpi_combo (supportedResolutions printer_name) dpi_combo.

Definition set_dpi_combo (d : PrintDialog) (v : string) : PrintDialog :=
  mkDialog (file_path d) (total_pages d) (preview_pages d)
    (current_preview_index d)
    (printer_combo d) v (color_mode_combo d) (orientation_combo d)
    (paper_size_combo d) (custom_width_input d) (custom_height_input d)
    (custom_unit_combo d) (copies_spinbox d) (all_pages_radio d)
    (page_range_edit d) (scroll_area d).

Definition set_paper_size_combo (d : PrintDialog) (v : string) : PrintDialog :=
  mkDialog (file_path d) (total_pages d) (preview_pages d)
    (current_preview_index d)
    (printer_combo d) (dpi_combo d) (color_mode_combo d) (orientation_combo d)
    v (custom_width_input d) (custom_height_input d)
    (custom_unit_combo d) (copies_spinbox d) (all_pages_radio d)
    (page_range_edit d) (scroll_area d).

(** What [fitz.open(path)] answers: an exception, or a document with its
    number of pages. *)
Inductive open_result :=
| OpenRaises (e : exn)
| Document (page_count : nat).

(** The outcome of [load_document]: the dialog, the trace, and whether
    [self.close()] was called. *)
Record loaded := mkLoaded {
  loaded_dialog : PrintDialog;
  loaded_events : list event;
  close_called : bool
}.

Definition failed_to_load (d : PrintDialog) (msg : string) : loaded :=
  mkLoaded d
    [QMessageBox_critical "Error" ("Failed to load document: " ++ msg)%string]
    true.

(** [load_document], the same text in the four files. *)
Definition load_document (fitz_open : string -> open_result)
           (d : PrintDialog) : loaded :=
  if Py.endswith (Py.lower (file_path d)) ".pdf" then
    match fitz_open (file_path d) with
    | Document page_count =>
        mkLoaded (set_total_pages d (Z.of_nat page_count)) [] false
    | OpenRaises e => failed_to_load d (exn_msg e)
    end
  else failed_to_load d "Unsupported file type".

(** The start of [__init__] in the variants with a preview:
    [total_pages = 0], empty selection, cursor 0, [load_document()], and,
    once the widgets exist, the first [update_preview_range()]. *)
Definition constructed (m : preview_slots) (w : Collaborators)
           (fitz_open : string -> open_result) (d0 : PrintDialog)
  : PrintDialog * list event :=
  let l := load_document fitz_open (set_total_pages d0 0) in
  let '(d, t) := opened m w (loaded_dialog l) in
  (d, loaded_events l ++ t).

(** The dialog after [__init__] and a sequence of user actions. *)
Definition session (m : preview_slots) (w : Collaborators)
           (fitz_open : string -> open_result) (d0 : PrintDialog)
           (actions : list action) : PrintDialog * list event :=
  run m w actions (constructed m w fitz_open d0).

(** Every selected page is a page of the document. *)
Definition selection_in_document (d : PrintDialog) : Prop :=
  Forall (fun p => 0 <= p < total_pages d) (preview_pages d).

(** The slots of a variant keep the document's page count, keep the
    selection inside the document, and ask the document only for selected
    pages. *)
Definition keeps_document (m : preview_slots) : Prop :=
  (forall w d,
     total_pages (fst (slot_update_preview_range m w d)) = total_pages d /\
     selection_in_document (fst (slot_update_preview_range m w d))) /\
  (forall w d,
     total_pages (fst (slot_show_prev_page m w d)) = total_pages d /\
     preview_pages (fst (slot_show_prev_page m w d)) = preview_pages d /\
     incl (loaded_pages (snd (slot_show_prev_page m w d))) (preview_pages d)) /\
  (forall w d,
     total_pages (fst (slot_show_next_page m w d)) = total_pages d /\
     preview_pages (fst (slot_show_next_page m w d)) = preview_pages d /\
     incl (loaded_pages (snd (slot_show_next_page m w d))) (preview_pages d)) /\
  (forall w d,
     incl (loaded_pages (slot_render_current_preview_page m w d))
          (preview_pages d)) /\
  (forall w d,
     incl (loaded_pages (snd (slot_update_preview_range m w d)))
          (preview_pages (fst (slot_update_preview_range m w d)))).

(** The number of [printer.newPage()] calls of a trace. *)
Fixpoint page_advances (t : list event) : nat :=
  match t with
  | [] => 0%nat
  | printer_newPage :: t' => S (page_advances t')
  | _ :: t' => page_advances t'
  end.

Definition is_painter_end (e : event) : bool :=
  match e with painter_end => true | _ => false end.

Definition is_painter_started (e : event) : bool :=
  match e with painter_begin_called true => true | _ => false end.

(** The number of events of a trace that satisfy [f]. *)
Definition count (f : event -> bool) (t : list event) : nat :=
  List.length (filter f t).

(** [k] clicks on "Next" (main.py). *)
Fixpoint next_clicks (w : Collaborators) (k : nat) (d : PrintDialog)
  : PrintDialog :=
  match k with
  | O => d
  | S k' => next_clicks w k' (fst (Main.show_next_page w d))
  end.

(** [k] clicks on "Previous" (main.py). *)
Fixpoint prev_clicks (w : Collaborators) (k : nat) (d : PrintDialog)
  : PrintDialog :=
  match k with
  | O => d
  | S k' => prev_clicks w k' (fst (Main.show_prev_page w d))
  end.

(** A page is drawn by the loop: it passes the range check and its raster
    is valid. *)
Definition is_drawn (in_document : Z -> bool) (render : Z -> pixmap_result)
           (p : Z) : bool :=
  in_document p && negb (renders_null render p).

(** A document that cannot be opened. *)
Definition broken_pdf (path : string) : open_result :=
  OpenRaises (OtherException "cannot open broken document").

(** A document of 5 pages. *)
Definition five_pages (path : string) : open_result := Document 5.

(** A printer driver that reports 150, 600 and 1200 dpi. *)
Definition sample_resolutions (printer_name : string) : list Z :=
  [150; 600; 1200].


(** The value of a decimal numeral read after the digits already read
    gave [acc]. *)
Fixpoint uint_value (d : Decimal.uint) (acc : Z) : Z :=
  match d with
  | Decimal.Nil => acc
  | Decimal.D0 l => uint_value l (10 * acc + 0)
  | Decimal.D1 l => uint_value l (10 * acc + 1)
  | Decimal.D2 l => uint_value l (10 * acc + 2)
  | Decimal.D3 l => uint_value l (10 * acc + 3)
  | Decimal.D4 l => uint_value l (10 * acc + 4)
  | Decimal.D5 l => uint_value l (10 * acc + 5)
  | Decimal.D6 l => uint_value l (10 * acc + 6)
  | Decimal.D7 l => uint_value l (10 * acc + 7)
  | Decimal.D8 l => uint_value l (10 * acc + 8)
  | Decimal.D9 l => uint_value l (10 * acc + 9)
  end.

Definition starts_with_digit (s : string) : bool :=
  match s with
  | String c _ =>
      match Py.digit_value c with Some _ => true | None => false end
  | EmptyString => false
  end.


(** How the page advances of a completed job [job] over the selection
    [pages] relate to its drawings, [valid] telling the pages that are
    drawn: [printer.newPage()] follows a drawing unless the drawn page
    stands at the last position of the selection, so the sheets are as many
    as the drawings when the last position is drawn, and one more - a
    trailing sheet with nothing on it - when it is not. *)
Definition sheets_follow_drawings (job : list event) (pages : list Z)
           (valid : Z -> bool) : Prop :=
  drawn_pages job = filter valid pages /\
  page_advances job = List.length (filter valid (removelast pages)) /\
  (valid (last pages 0) = true ->
   S (page_advances job) = List.length (drawn_pages job)) /\
  (valid (last pages 0) = false ->
   page_advances job = List.length (drawn_pages job)).

(** The same as [sample_world], except that page 1 gives a null raster. *)
Definition null_second_page_world : Collaborators :=
  mkCollaborators
    (fun _ => true)
    (fun _ => mkSize 2480 3508)
    (fun _ => 300)
    (fun p _ _ =>
       if p =? 1 then Image (mkImage (mkSize 0 0) true)
       else Image (mkImage (mkSize 1240 1754) false))
    (fun s w => mkSize w (Z.quot (height s * w) (width s)))
    100000000.

(** The same as [sample_world], except that rendering page 1 raises a
    [ValueError]. *)
Definition value_error_world : Collaborators :=
  mkCollaborators
    (fun _ => true)
    (fun _ => mkSize 2480 3508)
    (fun _ => 300)
    (fun p _ _ =>
       if p =? 1 then Raises (ValueError "document closed")
       else Image (mkImage (mkSize 1240 1754) false))
    (fun s w => mkSize w (Z.quot (height s * w) (width s)))
    100000000.

(** The "Printing Failed" box of every variant. *)
Definition printing_failed (e : exn) : event :=
  QMessageBox_critical "Printing Failed"
    ("An unexpected error occurred: " ++ exn_msg e)%string.


(** A job [job] that stopped at page [p]: the painter was started, the
    pages [requested] were requested from the document and the pages
    [drawn] drawn, then [p] was requested and the job ended with
    [closing]. *)
Definition stopped_at (job : list event) (requested drawn : list Z) (p : Z)
           (closing : list event) : Prop :=
  exists t,
    job = painter_begin_called true :: t ++ load_page p :: closing /\
    loaded_pages t = requested /\
    drawn_pages t = drawn.

(** A two-page dialog of main.py whose second page gives a null raster,
    after its first [update_preview_range]. *)
Definition null_second_page_dialog : PrintDialog :=
  fst (Main.update_preview_range null_second_page_world (dialog_with All 2)).


(** A three-page dialog of main.py on a document whose second page cannot
    be rendered, after its first [update_preview_range]. *)
Definition failing_second_page_dialog : PrintDialog :=
  fst (Main.update_preview_range value_error_world (dialog_with All 3)).


Definition is_nav_button (e : event) : bool :=
  match e with
  | prev_page_button_setEnabled _ | next_page_button_setEnabled _ => true
  | _ => false
  end.

(** What a trace tells the two navigation buttons: "Previous Page" is set
    to [prev] and to nothing else, "Next Page" to [next] and to nothing
    else. *)
Definition buttons_set (t : list event) (prev next : bool) : Prop :=
  (forall b, In (prev_page_button_setEnabled b) t <-> b = prev) /\
  (forall b, In (next_page_button_setEnabled b) t <-> b = next).

(** The preview cursor of [d'] is not the one of [d]. *)
Definition moves (d d' : PrintDialog) : bool :=
  negb (current_preview_index d' =? current_preview_index d).


(** A three-page dialog of main_2.py after its first
    [update_preview_range]. *)
Definition three_page_dialog : PrintDialog :=
  fst (Main_2.update_preview_range sample_world (dialog_with All 3)).


(* ================================================================== *)
(** ** Facts about the built-ins *)
(* ================================================================== *)

Module PyFacts.
Import Py.

Lemma range_length lo hi : List.length (range lo hi) = Z.to_nat (hi - lo).
Proof. unfold range. now rewrite length_map, length_seq. Qed.

Lemma range_nth lo hi k :
  (k < List.length (range lo hi))%nat -> nth k (range lo hi) 0 = lo + Z.of_nat k.
Proof.
  rewrite range_length. intros Hk. unfold range.
  rewrite (nth_indep _ 0 (lo + Z.of_nat 0)) by now rewrite length_map, length_seq.
  rewrite (map_nth (fun k => lo + Z.of_nat k)), seq_nth by assumption.
  reflexivity.
Qed.

Lemma range_In lo hi i : In i (range lo hi) <-> lo <= i < hi.
Proof.
  unfold range. rewrite in_map_iff. split.
  - intros (k & <- & Hk). apply in_seq in Hk. lia.
  - intros Hi. exists (Z.to_nat (i - lo)). split; [lia|].
    apply in_seq. lia.
Qed.

Lemma range_empty lo hi : hi <= lo -> range lo hi = [].
Proof.
  intros H. unfold range. replace (Z.to_nat (hi - lo)) with 0%nat by lia.
  reflexivity.
Qed.

Lemma range_0_nat (n : nat) : range 0 (Z.of_nat n) = map Z.of_nat (seq 0 n).
Proof.
  unfold range. rewrite Z.sub_0_r, Nat2Z.id. apply map_ext. intros; lia.
Qed.

Lemma filter_all {A} (f : A -> bool) (l : list A) :
  (forall a, In a l -> f a = true) -> filter f l = l.
Proof.
  induction l as [|a l IH]; simpl; intros H; [reflexivity|].
  rewrite (H a) by now left. f_equal. apply IH. intros; apply H; now right.
Qed.

(** *** [strip], [in] and [split] around a dash *)

Lemma lstrip_app_dash a b :
  lstrip (a ++ String "-" b)%string = (lstrip a ++ String "-" b)%string.
Proof.
  induction a as [|c a IH]; simpl; [reflexivity|].
  destruct (isspace c); [exact IH | reflexivity].
Qed.

Lemma rstrip_app_dash a b :
  rstrip (a ++ String "-" b)%string = (a ++ String "-" (rstrip b))%string.
Proof.
  induction a as [|c a IH]; simpl.
  - destruct (rstrip b); reflexivity.
  - rewrite IH. destruct a; reflexivity.
Qed.

Lemma strip_app_dash a b :
  strip (a ++ String "-" b)%string = (lstrip a ++ String "-" (rstrip b))%string.
Proof. unfold strip. now rewrite lstrip_app_dash, rstrip_app_dash. Qed.

Lemma contains_app_sep c a b : contains c (a ++ String c b)%string = true.
Proof.
  induction a as [|x a IH]; simpl.
  - now rewrite Ascii.eqb_refl.
  - rewrite IH. apply orb_true_r.
Qed.

Lemma contains_lstrip c s : contains c s = false -> contains c (lstrip s) = false.
Proof.
  induction s as [|x s IH]; simpl; [easy|].
  intros H. apply orb_false_elim in H as [Hx Hs].
  destruct (isspace x); [auto|]. simpl. now rewrite Hx, Hs.
Qed.

Lemma contains_rstrip c s : contains c s = false -> contains c (rstrip s) = false.
Proof.
  induction s as [|x s IH]; simpl; [easy|].
  intros H. apply orb_false_elim in H as [Hx Hs]. specialize (IH Hs).
  destruct (rstrip s) eqn:E.
  - destruct (isspace x); simpl; [reflexivity|]. now rewrite Hx.
  - simpl in *. now rewrite Hx, IH.
Qed.

Lemma split_no_sep c s : contains c s = false -> split c s = [s].
Proof.
  induction s as [|x s IH]; simpl; [reflexivity|].
  intros H. apply orb_false_elim in H as [Hx Hs].
  now rewrite Hx, (IH Hs).
Qed.

Lemma split_app_sep c a b :
  contains c a = false -> split c (a ++ String c b)%string = a :: split c b.
Proof.
  induction a as [|x a IH]; simpl.
  - intros _. now rewrite Ascii.eqb_refl.
  - intros H. apply orb_false_elim in H as [Hx Ha].
    now rewrite Hx, (IH Ha).
Qed.

Lemma split_two c a b :
  contains c a = false -> contains c b = false ->
  split c (a ++ String c b)%string = [a; b].
Proof. intros Ha Hb. now rewrite split_app_sep, split_no_sep. Qed.

(** *** [strip] is idempotent *)

Lemma lstrip_idem s : lstrip (lstrip s) = lstrip s.
Proof.
  induction s as [|c s IH]; simpl; [reflexivity|].
  destruct (isspace c) eqn:E; [exact IH|]. simpl. now rewrite E.
Qed.

Lemma rstrip_idem s : rstrip (rstrip s) = rstrip s.
Proof.
  induction s as [|c s IH]; simpl; [reflexivity|].
  destruct (rstrip s) as [|x r] eqn:E.
  - destruct (isspace c) eqn:Ec; simpl; [reflexivity|]. now rewrite Ec.
  - change (rstrip (String c (String x r))) with
      (match rstrip (String x r) with
       | EmptyString => if isspace c then EmptyString else String c EmptyString
       | r' => String c r'
       end).
    now rewrite IH.
Qed.

Lemma lstrip_rstrip s : lstrip (rstrip s) = rstrip (lstrip s).
Proof.
  induction s as [|c s IH]; simpl; [reflexivity|].
  destruct (isspace c) eqn:Ec.
  - destruct (rstrip s) as [|x r] eqn:E.
    + simpl in IH. now rewrite <- IH.
    + simpl. now rewrite Ec.
  - change (rstrip (String c s)) with
      (match rstrip s with
       | EmptyString => if isspace c then EmptyString else String c EmptyString
       | r' => String c r'
       end).
    destruct (rstrip s); rewrite ?Ec; simpl; now rewrite Ec.
Qed.

Lemma strip_lstrip s : strip (lstrip s) = strip s.
Proof. unfold strip. now rewrite lstrip_idem. Qed.

Lemma strip_rstrip s : strip (rstrip s) = strip s.
Proof. unfold strip. now rewrite lstrip_rstrip, rstrip_idem. Qed.

(** *** [int] and [strip] skip different white space *)

Lemma int_isspace_isspace c : int_isspace c = true -> isspace c = true.
Proof.
  destruct c as [[] [] [] [] [] [] [] []]; intros H;
    solve [reflexivity | discriminate H].
Qed.

Lemma not_isspace_int c : isspace c = false -> int_isspace c = false.
Proof.
  intros H. destruct (int_isspace c) eqn:E; [|reflexivity].
  apply int_isspace_isspace in E. congruence.
Qed.

Lemma digit_not_space c d : digit_value c = Some d -> isspace c = false.
Proof.
  destruct c as [[] [] [] [] [] [] [] []]; intros H;
    solve [reflexivity | discriminate H].
Qed.

Lemma rskip_empty s : rskip s = EmptyString -> rstrip s = EmptyString.
Proof.
  induction s as [|c s IH]; [reflexivity|]. cbn [rskip rstrip].
  destruct (rskip s) eqn:E; [|discriminate].
  rewrite (IH eq_refl). destruct (int_isspace c) eqn:Ec; [|discriminate].
  now rewrite (int_isspace_isspace c Ec).
Qed.

(** The first character of [rskip s], when there is one, is that of [s]. *)
Lemma rskip_head s c r : rskip s = String c r -> exists r', s = String c r'.
Proof.
  destruct s as [|a s]; [discriminate|]. cbn [rskip].
  destruct (rskip s); [destruct (int_isspace a)|]; intros H;
    inversion H; eauto.
Qed.

Lemma lstrip_lskip s c r :
  lskip s = String c r -> isspace c = false -> lstrip s = lskip s.
Proof.
  induction s as [|a s IH]; [discriminate|]. cbn [lskip lstrip].
  destruct (int_isspace a) eqn:Ea.
  - rewrite (int_isspace_isspace a Ea). exact IH.
  - intros H Hc. inversion H; subst. now rewrite Hc.
Qed.

Lemma rstrip_rskip s : rstrip (rskip s) = rskip s -> rstrip s = rskip s.
Proof.
  induction s as [|c s IH]; [reflexivity|]. cbn [rskip rstrip].
  destruct (rskip s) as [|x r] eqn:E.
  - rewrite (rskip_empty s E).
    destruct (int_isspace c) eqn:Ec.
    + now rewrite (int_isspace_isspace c Ec).
    + cbn [rstrip]. destruct (isspace c); [discriminate|reflexivity].
  - change (rstrip (String c (String x r))) with
      (match rstrip (String x r) with
       | EmptyString => if isspace c then EmptyString else String c EmptyString
       | r' => String c r'
       end).
    destruct (rstrip (String x r)) as [|y r'] eqn:E'.
    + destruct (isspace c); discriminate.
    + intros H. assert (H' : String y r' = String x r) by congruence.
      now rewrite (IH H').
Qed.

Lemma rskip_fixed s : rstrip s = s -> rskip s = s.
Proof.
  induction s as [|c s IH]; [reflexivity|]. cbn [rskip rstrip].
  destruct (rstrip s) as [|x r] eqn:E.
  - destruct (isspace c) eqn:Ec; [discriminate|].
    intros H. assert (H' : s = EmptyString) by congruence. subst s.
    cbn [rskip]. now rewrite (not_isspace_int c Ec).
  - intros H. assert (H' : String x r = s) by congruence.
    rewrite (IH H'). now rewrite <- H'.
Qed.

(** The decimal literal [int] reads once the white space is skipped. *)
Lemma scan_rstrip s pu acc k r :
  scan_digits s pu acc k = Some r -> rstrip s = s.
Proof.
  revert pu acc k. induction s as [|c s IH]; intros pu acc k; [reflexivity|].
  cbn [scan_digits rstrip].
  destruct (Ascii.eqb c "_") eqn:Eu.
  - destruct pu; [discriminate|]. intros H.
    rewrite (IH _ _ _ H). destruct s; [discriminate H|reflexivity].
  - destruct (digit_value c) as [d|] eqn:Ed; [|discriminate]. intros H.
    rewrite (IH _ _ _ H). destruct s; [|reflexivity].
    now rewrite (digit_not_space c d Ed).
Qed.

Ltac signed_literal H r :=
  let c := fresh "c" in
  let v := fresh "v" in
  let Hs := fresh "Hs" in
  let body := fresh "body" in
  let Hbody := fresh "Hbody" in
  destruct r as [|c r]; [cbn in H; discriminate H|];
  destruct (scan_digits (String c r) false 0 0) as [v|] eqn:Hs;
  [ apply scan_rstrip in Hs;
    remember (String c r) as body eqn:Hbody; cbn [rstrip]; rewrite Hs;
    subst body; reflexivity
  | exfalso; revert H Hs;
    destruct c as [[] [] [] [] [] [] [] []]; cbn; intros H Hs;
    try discriminate H; rewrite Hs in H; discriminate H ].

(** A text [literal] accepts starts with a sign or a digit and ends with a
    digit. *)
Lemma literal_shape t n :
  literal t = Some n ->
  exists c r, t = String c r /\ isspace c = false /\ rstrip t = t.
Proof.
  intros H. destruct t as [|c r]; [discriminate H|]. exists c, r.
  split; [reflexivity|]. revert H.
  destruct c as [[] [] [] [] [] [] [] []]; intros H; cbn in H;
    try discriminate H; (split; [reflexivity|]).
  all: lazymatch goal with
       | |- rstrip (String "+" ?r) = _ => signed_literal H r
       | |- rstrip (String "-" ?r) = _ => signed_literal H r
       | |- rstrip (String ?c ?r) = _ =>
           (* a digit *)
           match type of H with
           | context [scan_digits r false ?a ?k] =>
               let v := fresh "v" in
               let Hs := fresh "Hs" in
               destruct (scan_digits r false a k) as [v|] eqn:Hs;
               [ apply (scan_rstrip (String c r) false 0 0 v); exact Hs
               | discriminate H ]
           end
       end.
Qed.

(** A text [int] accepts, stripped of its white space, is a sign or a
    digit followed by digits and underscores and ended by a digit: [strip]
    removes from it what [int] skips, and nothing else. *)
Lemma int_some_strip s n :
  int s = Some n -> strip s = rskip (lskip s).
Proof.
  unfold int, strip. intros H.
  destruct (literal_shape _ n H) as (c & r & Hcr & Hc & Hr).
  destruct (rskip_head (lskip s) c r Hcr) as [r' Hl].
  rewrite (lstrip_lskip s c r' Hl Hc).
  apply rstrip_rskip. exact Hr.
Qed.

Lemma lskip_lstrip s : lskip (lstrip s) = lstrip s.
Proof.
  induction s as [|c s IH]; [reflexivity|]. cbn [lstrip].
  destruct (isspace c) eqn:Ec; [exact IH|].
  cbn [lskip]. now rewrite (not_isspace_int c Ec).
Qed.

Lemma rskip_rstrip s : rskip (rstrip s) = rstrip s.
Proof. apply rskip_fixed, rstrip_idem. Qed.

Lemma lskip_strip s : lskip (strip s) = strip s.
Proof. unfold strip. rewrite <- lstrip_rstrip. apply lskip_lstrip. Qed.

(** [int] of a stripped text reads the text as it is. *)
Lemma int_stripped s : int (strip s) = literal (strip s).
Proof.
  unfold int. rewrite lskip_strip. unfold strip. now rewrite rskip_rstrip.
Qed.

(** What [int] accepts, it accepts after [strip] as well, with the same
    value; not the other way round: [strip] also removes FS..US. *)
Lemma int_strip_some s n : int s = Some n -> int (strip s) = Some n.
Proof.
  intros H. rewrite int_stripped, (int_some_strip s n H). exact H.
Qed.

Lemma getitem_in_range {A} (l : list A) (i : Z) :
  0 <= i < Z.of_nat (List.length l) -> exists a, getitem l i = Some a.
Proof.
  intros H. unfold getitem.
  replace (0 <=? i) with true by (symmetry; apply Z.leb_le; lia).
  replace (i <? Z.of_nat (List.length l)) with true
    by (symmetry; apply Z.ltb_lt; lia).
  simpl. destruct (nth_error l (Z.to_nat i)) eqn:E; [eauto|].
  apply nth_error_None in E. lia.
Qed.

End PyFacts.

Example int_plain : Py.int "42" = Some 42. Proof. reflexivity. Qed.
Example int_spaces : Py.int "  7 " = Some 7. Proof. reflexivity. Qed.
Example int_signed : Py.int "-12" = Some (-12). Proof. reflexivity. Qed.
Example int_underscore : Py.int "1_000" = Some 1000. Proof. reflexivity. Qed.
Example int_bad1 : Py.int "" = None. Proof. reflexivity. Qed.
Example int_bad2 : Py.int "abc" = None. Proof. reflexivity. Qed.
Example int_bad3 : Py.int "1__0" = None. Proof. reflexivity. Qed.
Example int_bad4 : Py.int "+ 5" = None. Proof. reflexivity. Qed.
Example int_separator :
  Py.int (String (ascii_of_nat 31) "3") = None /\
  Py.strip (String (ascii_of_nat 31) "3") = "3" /\
  Py.int (String (ascii_of_nat 160) "3") = Some 3.
Proof. repeat split; reflexivity. Qed.
Example split_ex1 : Py.split "-" "3-5" = ["3"; "5"]. Proof. reflexivity. Qed.
Example split_ex2 : Py.split "-" "-3" = [""; "3"]. Proof. reflexivity. Qed.
Example split_ex3 : Py.split "-" "abc" = ["abc"]. Proof. reflexivity. Qed.
Example range_ex1 : Py.range 2 5 = [2; 3; 4]. Proof. reflexivity. Qed.
Example range_ex2 : Py.range 1 1 = []. Proof. reflexivity. Qed.
Example str_ex : Py.str 0 = "0" /\ Py.str 12 = "12" /\ Py.str (-3) = "-3".
Proof. repeat split; reflexivity. Qed.
Example endswith_ex : Py.endswith (Py.lower "C:/Docs/Report.PDF") ".pdf" = true.
Proof. reflexivity. Qed.
Example getitem_ex : Py.getitem [10; 20; 30] (-1) = Some 30. Proof. reflexivity. Qed.

(* ================================================================== *)
(** ** The page-range resolver *)
(* ================================================================== *)

Lemma unpack2_None_in {A} (items : list (option A)) :
  In None items -> Py.unpack2 items = None.
Proof.
  intros H. destruct items as [|[a|] [|[b|] [|c r]]]; simpl in *;
    try reflexivity; intuition discriminate.
Qed.

(** [list(range(lo, hi))] returns exactly when the run fits. *)
Lemma list_range_fits w start end_ :
  run_fits w start end_ ->
  Py.list_range (list_capacity w) (start - 1) end_
  = Py.Returns (Py.range (start - 1) end_).
Proof.
  unfold run_fits, Py.list_range. intros H.
  replace (Py.maxsize <? _) with false by (symmetry; apply Z.ltb_ge; lia).
  replace (list_capacity w <? _) with false by (symmetry; apply Z.ltb_ge; lia).
  reflexivity.
Qed.

Lemma list_range_raises w start end_ :
  ~ run_fits w start end_ ->
  Py.list_range (list_capacity w) (start - 1) end_ = Py.Raise Py.OverflowError \/
  Py.list_range (list_capacity w) (start - 1) end_ = Py.Raise Py.MemoryError.
Proof.
  unfold run_fits, Py.list_range. intros H.
  destruct (Py.maxsize <? _) eqn:E1; [now left|].
  destruct (list_capacity w <? _) eqn:E2; [now right|].
  apply Z.ltb_ge in E1, E2. lia.
Qed.

(** The three variants with a preview compute the same selection. *)
Lemma generated_pages_main_2 w d :
  Main_2.generated_pages w d = Main.generated_pages w d.
Proof. reflexivity. Qed.

Lemma generated_pages_main_3 w d :
  Main_3.generated_pages w d = Main.generated_pages w d.
Proof. reflexivity. Qed.

Lemma update_preview_range_pages w d :
  preview_pages (fst (Main.update_preview_range w d)) =
  match Main.generated_pages w d with
  | Py.Returns pages => filter (Main.in_bounds d) pages
  | Py.Raise _ => []
  end.
Proof.
  unfold Main.update_preview_range.
  change (Main.generated_pages w (set_preview_pages d []))
    with (Main.generated_pages w d).
  destruct (Main.generated_pages w d) as [pages|[| |]]; reflexivity.
Qed.

Lemma update_preview_range_pages_2 w d :
  preview_pages (fst (Main_2.update_preview_range w d)) =
  preview_pages (fst (Main.update_preview_range w d)).
Proof.
  unfold Main_2.update_preview_range, Main.update_preview_range.
  change (Main_2.generated_pages w (set_preview_pages d []))
    with (Main.generated_pages w d).
  change (Main.generated_pages w (set_preview_pages d []))
    with (Main.generated_pages w d).
  destruct (Main.generated_pages w d) as [pages|[| |]]; reflexivity.
Qed.

Lemma update_preview_range_pages_3 w d :
  preview_pages (fst (Main_3.update_preview_range w d)) =
  preview_pages (fst (Main.update_preview_range w d)).
Proof.
  unfold Main_3.update_preview_range, Main.update_preview_range.
  change (Main_3.generated_pages w (set_preview_pages d []))
    with (Main.generated_pages w d).
  change (Main.generated_pages w (set_preview_pages d []))
    with (Main.generated_pages w d).
  destruct (Main.generated_pages w d) as [pages|[| |]]; reflexivity.
Qed.

Lemma resolve_main_2 w d spec n : Main_2.resolve w d spec n = Main.resolve w d spec n.
Proof. apply update_preview_range_pages_2. Qed.

Lemma resolve_main_3 w d spec n : Main_3.resolve w d spec n = Main.resolve w d spec n.
Proof. apply update_preview_range_pages_3. Qed.

(** The cursor after [update_preview_range]: 0 when the method runs to its
    last two lines, untouched when the exception of a run too long to be
    built leaves it before. *)
Lemma update_preview_range_index w d :
  current_preview_index (fst (Main.update_preview_range w d)) =
  match Main.generated_pages w d with
  | Py.Raise Py.OverflowError | Py.Raise Py.MemoryError =>
      current_preview_index d
  | _ => 0
  end.
Proof.
  unfold Main.update_preview_range.
  change (Main.generated_pages w (set_preview_pages d []))
    with (Main.generated_pages w d).
  destruct (Main.generated_pages w d) as [pages|[| |]]; reflexivity.
Qed.

(** What [resolve] computes, without the dialog around it. *)
Lemma resolve_unfold w d spec n :
  Main.resolve w d spec n =
  match Main.generated_pages w (apply_spec spec (set_total_pages d n)) with
  | Py.Returns pages => filter (fun p => (0 <=? p) && (p <? n)) pages
  | Py.Raise _ => []
  end.
Proof.
  unfold Main.resolve. rewrite update_preview_range_pages.
  destruct spec; reflexivity.
Qed.

Lemma generated_all w d :
  all_pages_radio d = true \/ page_range_edit d = "" ->
  Main.generated_pages w d = Py.Returns (Py.range 0 (total_pages d)).
Proof.
  unfold Main.generated_pages. intros [H|H]; rewrite H; [reflexivity|].
  now rewrite orb_true_r.
Qed.

Lemma filter_range_all n :
  filter (fun p => (0 <=? p) && (p <? n)) (Py.range 0 n) = Py.range 0 n.
Proof.
  apply PyFacts.filter_all. intros a Ha. apply PyFacts.range_In in Ha.
  apply andb_true_iff. rewrite Z.leb_le, Z.ltb_lt. lia.
Qed.

(** C1. For every page count [pageCount >= 0], the specification [All], and
    the specification [Explicit ""], resolve to exactly the indices
    [0; 1; ...; pageCount - 1], in order (the empty list for 0 pages). *)
Theorem C1_all_pages_resolve_to_every_index :
  forall (w : Collaborators) (d : PrintDialog) (pageCount : nat),
    Main.resolve w d All (Z.of_nat pageCount) = map Z.of_nat (seq 0 pageCount) /\
    Main.resolve w d (Explicit "") (Z.of_nat pageCount)
    = map Z.of_nat (seq 0 pageCount).
Proof.
  intros w d n. rewrite !resolve_unfold.
  rewrite !generated_all by (simpl; auto). cbn [total_pages apply_spec
    set_all_pages_radio set_page_range_edit set_total_pages].
  rewrite filter_range_all, PyFacts.range_0_nat. split; reflexivity.
Qed.

Example resolve_all_4 :
  Main.resolve sample_world sample_dialog All 4 = [0; 1; 2; 3].
Proof. reflexivity. Qed.

Example resolve_all_0 : Main.resolve sample_world sample_dialog All 0 = [].
Proof. reflexivity. Qed.

Example resolve_3_5 :
  Main.resolve sample_world sample_dialog (Explicit "3-5") 10 = [2; 3; 4].
Proof. reflexivity. Qed.

Example resolve_single :
  Main.resolve sample_world sample_dialog (Explicit "5") 10 = [4].
Proof. reflexivity. Qed.

(** A text with two tokens has a dash and is not empty. *)
Lemma two_tokens text ta tb :
  tokens text = [ta; tb] ->
  Py.truthy text = true /\
  Py.contains "-" (Py.strip text) = true /\
  Py.split "-" (Py.strip text) = [ta; tb].
Proof.
  unfold tokens. intros H. split; [|split; [|exact H]].
  - destruct text; [discriminate H|reflexivity].
  - destruct (Py.contains "-" (Py.strip text)) eqn:E; [reflexivity|].
    rewrite (PyFacts.split_no_sep _ _ E) in H. discriminate H.
Qed.

(** What the [try] block generates for a text of two tokens that both
    parse: the list of the run, when it can be built. *)
Lemma generated_two_tokens w d ta tb start end_ :
  all_pages_radio d = false ->
  tokens (page_range_edit d) = [ta; tb] ->
  Py.int ta = Some start -> Py.int tb = Some end_ ->
  Main.generated_pages w d
  = Py.list_range (list_capacity w) (start - 1) end_.
Proof.
  intros Hradio Htok Hstart Hend.
  destruct (two_tokens _ _ _ Htok) as (Ht & Hdash & Hsplit).
  unfold Main.generated_pages. rewrite Hradio, Ht. cbn [orb negb].
  rewrite Hdash, Hsplit. cbn [map]. now rewrite Hstart, Hend.
Qed.

(** C2, as the code has it.  For a custom range text of two tokens
    "<start>-<end>" that both parse as integers, whose run is short enough
    to be built as a list, the sequence generated before filtering is the
    inclusive run [start-1; start; ...; end-1]; when [start > end] it is
    empty, and the resolver returns the empty selection without signalling
    anything. *)
Theorem C2_dash_range_is_inclusive_run :
  forall (w : Collaborators) (d : PrintDialog) (ta tb : string)
         (start end_ : Z),
    all_pages_radio d = false ->
    tokens (page_range_edit d) = [ta; tb] ->
    Py.int ta = Some start ->
    Py.int tb = Some end_ ->
    run_fits w start end_ ->
    let pages := Py.range (start - 1) end_ in
    Main.generated_pages w d = Py.Returns pages /\
    List.length pages = Z.to_nat (end_ - start + 1) /\
    (forall k, (k < List.length pages)%nat ->
               nth k pages 0 = start - 1 + Z.of_nat k) /\
    (forall i, In i pages <-> start - 1 <= i <= end_ - 1) /\
    (start > end_ ->
     pages = [] /\
     preview_pages (fst (Main.update_preview_range w d)) = [] /\
     snd (Main.update_preview_range w d) = []).
Proof.
  intros w d ta tb start end_ Hradio Htok Hstart Hend Hfits pages.
  assert (Hgen : Main.generated_pages w d = Py.Returns pages).
  { rewrite (generated_two_tokens w d ta tb start end_) by assumption.
    now apply list_range_fits. }
  split; [exact Hgen|].
  split; [unfold pages; rewrite PyFacts.range_length; f_equal; lia|].
  split; [intros k Hk; now apply PyFacts.range_nth|].
  split; [intros i; unfold pages; rewrite PyFacts.range_In; lia|].
  intros Hgt.
  assert (Hnil : pages = []) by (apply PyFacts.range_empty; lia).
  split; [exact Hnil|].
  assert (Hpages : preview_pages (fst (Main.update_preview_range w d)) = []).
  { rewrite update_preview_range_pages, Hgen, Hnil. reflexivity. }
  split; [exact Hpages|].
  unfold Main.update_preview_range.
  change (Main.generated_pages w (set_preview_pages d []))
    with (Main.generated_pages w d).
  rewrite Hgen, Hnil. reflexivity.
Qed.

Lemma C2_inverted_range_witness :
  Main.generated_pages sample_world (dialog_with (Explicit "2-1") 5)
  = Py.Returns (Py.range (2 - 1) 1)
  /\ preview_pages
       (fst (Main.update_preview_range sample_world
               (dialog_with (Explicit "2-1") 5))) = [].
Proof.
  assert (Hfits : run_fits sample_world 2 1) by (vm_compute; discriminate).
  pose proof (C2_dash_range_is_inclusive_run sample_world
                (dialog_with (Explicit "2-1") 5) "2" "1" 2 1
                eq_refl eq_refl eq_refl eq_refl Hfits) as H.
  split; [exact (proj1 H)|].
  destruct H as (_ & _ & _ & _ & H). apply H. lia.
Defined.

(** C2 as stated fails on a run that cannot be built.  For the text
    "1-99999999999999999999" both tokens parse as integers, yet no sequence
    is generated: [list(range(0, 10**20))] raises [OverflowError], which
    [except ValueError] does not catch, so the exception leaves
    [update_preview_range] with the selection empty. *)
Lemma C2_huge_run_is_not_generated :
  tokens huge_range = ["1"; "99999999999999999999"] /\
  Py.int "1" = Some 1 /\
  Py.int "99999999999999999999" = Some 99999999999999999999 /\
  Main.generated_pages sample_world (dialog_with (Explicit huge_range) 5)
  = Py.Raise Py.OverflowError /\
  Main.update_preview_range sample_world (dialog_with (Explicit huge_range) 5)
  = (dialog_with (Explicit huge_range) 5, [uncaught "OverflowError"]).
Proof. repeat split; vm_compute; reflexivity. Qed.

Example resolve_inverted :
  Main.resolve sample_world sample_dialog (Explicit "2-1") 5 = [].
Proof. reflexivity. Qed.

Example resolve_spaced :
  Main.resolve sample_world sample_dialog (Explicit " 2 - 4 ") 5 = [1; 2; 3].
Proof. reflexivity. Qed.

(** A leading sign makes a third, empty token: the text is refused. *)
Example resolve_signed_start :
  Main.generated_pages sample_world (dialog_with (Explicit "-3-5") 10)
  = Py.Raise Py.ValueError.
Proof. reflexivity. Qed.

(** [int] does not skip the separators FS..US that [strip] removes: a
    token that keeps one inside the text is refused, while the same
    character at an end of the text is stripped before the parse. *)
Example resolve_separator_inside :
  Main.resolve sample_world sample_dialog
    (Explicit (String "1" (String "-" (String (ascii_of_nat 31) "3")))) 5 = [] /\
  Main.resolve sample_world sample_dialog
    (Explicit (String (ascii_of_nat 31) "1-3")) 5 = [0; 1; 2].
Proof. split; reflexivity. Qed.

(* ================================================================== *)
(** ** The preview renders quietly while the cursor is in bounds *)
(* ================================================================== *)

Lemma quiet_nil : quiet [].
Proof. intros e []. Qed.

Lemma quiet_app t1 t2 : quiet t1 -> quiet t2 -> quiet (t1 ++ t2).
Proof.
  intros H1 H2 e He. apply in_app_or in He as [He|He]; [now apply H1 | now apply H2].
Qed.

Ltac quiet_events :=
  let e := fresh "e" in
  let He := fresh "He" in
  intros e He; simpl in He;
  repeat (destruct He as [He|He]; [subst e; split; reflexivity|]);
  contradiction.

Lemma cursor_getitem d :
  cursor_in_bounds d -> preview_pages d <> [] ->
  exists p, Py.getitem (preview_pages d) (current_preview_index d) = Some p.
Proof.
  intros [H0 H] Hne. apply PyFacts.getitem_in_range. split; auto.
Qed.

Lemma render_quiet_main w d :
  cursor_in_bounds d -> quiet (Main.render_current_preview_page w d).
Proof.
  intros Hc. unfold Main.render_current_preview_page.
  destruct (preview_pages d) as [|p0 l] eqn:Hp; [apply quiet_nil|].
  destruct (scroll_area d); [|apply quiet_nil].
  destruct (cursor_getitem d Hc) as [p Hget]; [rewrite Hp; discriminate|].
  rewrite Hp in Hget. rewrite Hget.
  destruct (get_pixmap w p None false); quiet_events.
Qed.

Lemma render_quiet_main_2 w d :
  cursor_in_bounds d -> quiet (Main_2.render_current_preview_page w d).
Proof.
  intros Hc. unfold Main_2.render_current_preview_page.
  destruct (preview_pages d) as [|p0 l] eqn:Hp; [quiet_events|].
  destruct (cursor_getitem d Hc) as [p Hget]; [rewrite Hp; discriminate|].
  rewrite Hp in Hget. rewrite Hget.
  destruct (get_pixmap w p None false); quiet_events.
Qed.

Lemma render_quiet_main_3 w d :
  cursor_in_bounds d -> quiet (Main_3.render_current_preview_page w d).
Proof.
  intros Hc. unfold Main_3.render_current_preview_page.
  destruct (preview_pages d) as [|p0 l] eqn:Hp; [quiet_events|].
  destruct (cursor_getitem d Hc) as [p Hget]; [rewrite Hp; discriminate|].
  rewrite Hp in Hget. rewrite Hget.
  destruct (get_pixmap w p None false); [quiet_events|].
  destruct (scroll_area d); quiet_events.
Qed.

Lemma cursor_reset d pages :
  cursor_in_bounds (set_current_preview_index (set_preview_pages d pages) 0).
Proof.
  split; cbn; [lia|]. destruct pages; [congruence|]. intros _. cbn. lia.
Qed.

Lemma quiet_calm t : quiet t -> calm t.
Proof.
  intros H e He. destruct (H e He) as [Hm Hu]. split; [exact Hm|].
  rewrite Hu. discriminate.
Qed.

Lemma calm_app t1 t2 : calm t1 -> calm t2 -> calm (t1 ++ t2).
Proof.
  intros H1 H2 e He. apply in_app_or in He as [He|He]; [now apply H1 | now apply H2].
Qed.

Lemma list_failure_calm e :
  cut_short (Py.Raise (A := list Z) e) = true ->
  calm [uncaught (Py.exception_name e)].
Proof.
  intros H e0 [<-|[]]. split; [reflexivity|]. intros _.
  destruct e; [discriminate H|reflexivity..].
Qed.

(** [update_preview_range] reports and raises nothing when it is not cut
    short; when it is, the exception of the run is all there is. *)
Lemma update_preview_range_quiet w d :
  cut_short (Main.generated_pages w d) = false ->
  quiet (snd (Main.update_preview_range w d)).
Proof.
  unfold Main.update_preview_range.
  change (Main.generated_pages w (set_preview_pages d []))
    with (Main.generated_pages w d).
  destruct (Main.generated_pages w d) as [pages|[| |]]; try discriminate;
    intros _; apply render_quiet_main, cursor_reset.
Qed.

Lemma update_preview_range_quiet_2 w d :
  cut_short (Main.generated_pages w d) = false ->
  quiet (snd (Main_2.update_preview_range w d)).
Proof.
  unfold Main_2.update_preview_range.
  change (Main_2.generated_pages w (set_preview_pages d []))
    with (Main.generated_pages w d).
  destruct (Main.generated_pages w d) as [pages|[| |]]; try discriminate;
    intros _; apply render_quiet_main_2, cursor_reset.
Qed.

Lemma update_preview_range_quiet_3 w d :
  cut_short (Main.generated_pages w d) = false ->
  quiet (snd (Main_3.update_preview_range w d)).
Proof.
  unfold Main_3.update_preview_range.
  change (Main_3.generated_pages w (set_preview_pages d []))
    with (Main.generated_pages w d).
  destruct (Main.generated_pages w d) as [pages|[| |]]; try discriminate;
    intros _; apply render_quiet_main_3, cursor_reset.
Qed.

(** What a cut-short [update_preview_range] leaves: the selection emptied
    by its first line, the cursor where it was, and the exception. *)
Lemma update_preview_range_cut_short w d :
  cut_short (Main.generated_pages w d) = true ->
  exists e,
    Main.generated_pages w d = Py.Raise e /\
    Main.update_preview_range w d
    = (set_preview_pages d [], [uncaught (Py.exception_name e)]) /\
    Main_2.update_preview_range w d
    = (set_preview_pages d [], [uncaught (Py.exception_name e)]) /\
    Main_3.update_preview_range w d
    = (set_preview_pages d [], [uncaught (Py.exception_name e)]).
Proof.
  unfold Main.update_preview_range, Main_2.update_preview_range,
    Main_3.update_preview_range.
  change (Main_2.generated_pages w (set_preview_pages d []))
    with (Main.generated_pages w d).
  change (Main_3.generated_pages w (set_preview_pages d []))
    with (Main.generated_pages w d).
  change (Main.generated_pages w (set_preview_pages d []))
    with (Main.generated_pages w d).
  destruct (Main.generated_pages w d) as [pages|[| |]]; try discriminate;
    intros _; eexists; repeat split.
Qed.

Lemma update_preview_range_calm w d :
  calm (snd (Main.update_preview_range w d)) /\
  calm (snd (Main_2.update_preview_range w d)) /\
  calm (snd (Main_3.update_preview_range w d)).
Proof.
  destruct (cut_short (Main.generated_pages w d)) eqn:E.
  - destruct (update_preview_range_cut_short w d E) as (e & He & -> & -> & ->).
    rewrite He in E. cbn [snd]. auto using list_failure_calm.
  - auto using quiet_calm, update_preview_range_quiet,
      update_preview_range_quiet_2, update_preview_range_quiet_3.
Qed.

(* ================================================================== *)
(** ** The page loop *)
(* ================================================================== *)

Lemma drawn_pages_app t1 t2 : drawn_pages (t1 ++ t2) = drawn_pages t1 ++ drawn_pages t2.
Proof.
  induction t1 as [|e t1 IH]; [reflexivity|].
  destruct e; simpl; rewrite IH; reflexivity.
Qed.

Lemma loaded_pages_app t1 t2 :
  loaded_pages (t1 ++ t2) = loaded_pages t1 ++ loaded_pages t2.
Proof.
  induction t1 as [|e t1 IH]; [reflexivity|].
  destruct e; simpl; rewrite IH; reflexivity.
Qed.

Lemma skip_reports_draw_nothing t :
  (forall e, In e t -> is_skip_report e = true) ->
  drawn_pages t = [] /\ loaded_pages t = [].
Proof.
  induction t as [|e t IH]; [now split|].
  intros H. destruct IH as [IHd IHl]; [intros; apply H; now right|].
  specialize (H e (or_introl eq_refl)).
  destruct e; try discriminate; now split.
Qed.

Section PrintLoopFacts.

Variable page_rect : QSize.
Variable in_document : Z -> bool.
Variable render : Z -> pixmap_result.
Variable report_null : Z -> list event.
Hypothesis report_null_reports :
  forall p e, In e (report_null p) -> is_skip_report e = true.

Local Abbreviation loop := (print_loop page_rect in_document render report_null).

(** The iteration of a page outside the document (main_1's range check):
    nothing happens, the loop goes on. *)
Lemma print_loop_out_of_document n i p rest :
  in_document p = false -> loop n i (p :: rest) = loop n (i + 1) rest.
Proof. intros H. simpl. now rewrite H. Qed.

(** The iteration of a page whose raster is null: the page is requested,
    reported as the variant reports it, nothing is drawn and no sheet is
    started; the loop goes on with the remaining pages. *)
Lemma print_loop_null_page n i p rest :
  in_document p = true -> renders_null render p = true ->
  loop n i (p :: rest) =
  (load_page p :: report_null p ++ fst (loop n (i + 1) rest),
   snd (loop n (i + 1) rest)).
Proof.
  intros Hin Hnull. unfold renders_null in *. simpl. rewrite Hin. simpl.
  destruct (render p) as [e|q]; [discriminate|]. rewrite Hnull.
  destruct (print_loop _ _ _ _ n (i + 1) rest). reflexivity.
Qed.

(** The iteration of a page with a valid raster. *)
Lemma print_loop_valid_page n i p q rest :
  in_document p = true -> render p = Image q -> isNull q = false ->
  loop n i (p :: rest) =
  (load_page p
   :: painter_drawImage (target_rect (image_size q) page_rect) p
   :: (if i <? n - 1 then [printer_newPage] else [])
   ++ fst (loop n (i + 1) rest),
   snd (loop n (i + 1) rest)).
Proof.
  intros Hin Hq Hnull. simpl. rewrite Hin, Hq, Hnull. simpl.
  destruct (print_loop _ _ _ _ n (i + 1) rest). reflexivity.
Qed.

(** The iteration of a page whose rendering raises: the loop is left. *)
Lemma print_loop_raises n i p e rest :
  in_document p = true -> render p = Raises e ->
  loop n i (p :: rest) = ([load_page p], Raised e).
Proof. intros Hin Hq. simpl. now rewrite Hin, Hq. Qed.

(** Every page the loop requests or draws passed the range check, and
    every drawing is the fitted rectangle of that page's valid raster. *)
Lemma print_loop_sound n i pages :
  Forall (fun p => In p pages /\ in_document p = true)
         (loaded_pages (fst (loop n i pages))) /\
  Forall (fun p => In p pages /\ in_document p = true)
         (drawn_pages (fst (loop n i pages))) /\
  (forall r p, In (painter_drawImage r p) (fst (loop n i pages)) ->
     exists q, render p = Image q /\ isNull q = false /\
               r = target_rect (image_size q) page_rect).
Proof.
  revert i. induction pages as [|p rest IH]; intros i.
  - repeat split; try constructor. intros r p [].
  - destruct (IH (i + 1)) as (IHl & IHd & IHr).
    assert (Hweak : forall l,
      Forall (fun p0 => In p0 rest /\ in_document p0 = true) l ->
      Forall (fun p0 => In p0 (p :: rest) /\ in_document p0 = true) l).
    { intros l. apply Forall_impl. intros a [Ha Hb]. split; [now right|assumption]. }
    destruct (in_document p) eqn:Hin.
    2:{ rewrite print_loop_out_of_document by assumption. auto. }
    destruct (render p) as [e|q] eqn:Hq.
    { rewrite (print_loop_raises n i p e rest) by assumption. cbn.
      repeat split; repeat constructor; auto.
      intros r p0 [H|[]]. discriminate. }
    destruct (isNull q) eqn:Hnull.
    + rewrite print_loop_null_page
        by (auto; unfold renders_null; now rewrite Hq).
      cbn [fst]. destruct (skip_reports_draw_nothing (report_null p)) as [Hd Hl];
        [apply report_null_reports|].
      cbn [loaded_pages drawn_pages].
      rewrite loaded_pages_app, drawn_pages_app, Hd, Hl. cbn [app].
      repeat split; auto.
      * constructor; auto. split; [now left|assumption].
      * intros r p0 [H|H]; [discriminate|].
        apply in_app_or in H as [H|H]; [|eauto].
        apply report_null_reports in H. discriminate.
    + rewrite (print_loop_valid_page n i p q rest) by assumption.
      cbn [fst loaded_pages drawn_pages].
      rewrite loaded_pages_app, drawn_pages_app.
      replace (loaded_pages (if i <? n - 1 then [printer_newPage] else []))
        with (@nil Z) by (destruct (i <? n - 1); reflexivity).
      replace (drawn_pages (if i <? n - 1 then [printer_newPage] else []))
        with (@nil Z) by (destruct (i <? n - 1); reflexivity).
      cbn [app]. repeat split.
      * constructor; auto. split; [now left|assumption].
      * constructor; auto. split; [now left|assumption].
      * intros r p0 [H|[H|H]]; [discriminate| |].
        -- injection H as <- <-. eauto.
        -- apply in_app_or in H as [H|H]; [|eauto].
           destruct (i <? n - 1); simpl in H; intuition discriminate.
Qed.

(** When no selected page raises, the loop runs to its end: it requests
    the pages that pass the range check and draws those among them whose
    raster is valid, in the order of the selection. *)
Lemma print_loop_completes n i pages :
  (forall p, In p pages -> in_document p = true -> exists q, render p = Image q) ->
  snd (loop n i pages) = Completed /\
  loaded_pages (fst (loop n i pages)) = filter in_document pages /\
  drawn_pages (fst (loop n i pages))
  = filter (fun p => in_document p && negb (renders_null render p)) pages.
Proof.
  revert i. induction pages as [|p rest IH]; intros i Hr; [now repeat split|].
  destruct (IH (i + 1)) as (IHs & IHl & IHd);
    [intros; apply Hr; [now right|assumption]|].
  cbn [filter]. destruct (in_document p) eqn:Hin.
  2:{ rewrite print_loop_out_of_document by assumption. auto. }
  destruct (Hr p (or_introl eq_refl) Hin) as [q Hq].
  destruct (isNull q) eqn:Hnull.
  - assert (Hn : renders_null render p = true) by (unfold renders_null; now rewrite Hq).
    rewrite print_loop_null_page by assumption. rewrite Hn. cbn [fst snd andb negb].
    destruct (skip_reports_draw_nothing (report_null p)) as [Hd Hl];
      [apply report_null_reports|].
    cbn [loaded_pages drawn_pages].
    rewrite loaded_pages_app, drawn_pages_app, Hd, Hl, IHl, IHd. auto.
  - assert (Hn : renders_null render p = false) by (unfold renders_null; now rewrite Hq).
    rewrite (print_loop_valid_page n i p q rest) by assumption.
    rewrite Hn. cbn [fst snd andb negb loaded_pages drawn_pages].
    rewrite loaded_pages_app, drawn_pages_app, IHl, IHd.
    destruct (i <? n - 1); auto.
Qed.

End PrintLoopFacts.

(* ================================================================== *)
(** ** Out-of-range pages *)
(* ================================================================== *)

Lemma resolve_in_bounds w d spec n :
  Forall (fun i => 0 <= i < n) (Main.resolve w d spec n).
Proof.
  rewrite resolve_unfold. destruct (Main.generated_pages _); [|constructor].
  apply Forall_forall. intros i Hi. apply filter_In in Hi as [_ Hi].
  apply andb_true_iff in Hi. rewrite Z.leb_le, Z.ltb_lt in Hi. exact Hi.
Qed.

Lemma main_reports p e :
  In e (Main.null_raster_report p) -> is_skip_report e = true.
Proof. intros []. Qed.

Lemma main_1_reports p e :
  In e (Main_1.null_raster_report p) -> is_skip_report e = true.
Proof. intros [<-|[]]. reflexivity. Qed.

Lemma main_2_reports p e :
  In e (Main_2.null_raster_report p) -> is_skip_report e = true.
Proof. intros [<-|[]]. reflexivity. Qed.

Lemma main_3_reports p e :
  In e (Main_3.null_raster_report p) -> is_skip_report e = true.
Proof. intros [<-|[]]. reflexivity. Qed.

(** main_1.py filters inside the loop: whatever the range text, every page
    it requests from the document or draws is a page of the document. *)
Lemma main_1_draws_inside_document w d printer :
  Forall (fun i => 0 <= i < total_pages d)
         (loaded_pages (Main_1.process_and_print w d printer)) /\
  Forall (fun i => 0 <= i < total_pages d)
         (drawn_pages (Main_1.process_and_print w d printer)).
Proof.
  unfold Main_1.process_and_print.
  destruct (negb _); [split; constructor|].
  destruct (Main_1.pages_to_print w d) as [pages|[| |]];
    [|split; constructor..].
  destruct (negb _); [split; constructor|].
  match goal with
  | |- context [print_loop ?r ?f ?g ?h ?n ?i ?l] =>
      destruct (print_loop_sound r f g h (main_1_reports) n i l) as (Hl & Hd & _);
      destruct (print_loop r f g h n i l) as [t ex]
  end.
  cbn [fst] in Hl, Hd.
  assert (Hb : forall l,
    Forall (fun p => In p pages /\ Main_1.in_bounds d p = true) l ->
    Forall (fun i => 0 <= i < total_pages d) l).
  { intros l. apply Forall_impl. intros a [_ Ha]. unfold Main_1.in_bounds in Ha.
    apply andb_true_iff in Ha. now rewrite Z.leb_le, Z.ltb_lt in Ha. }
  destruct ex as [|[m|m]]; cbn [loaded_pages drawn_pages];
    rewrite loaded_pages_app, drawn_pages_app; cbn [loaded_pages drawn_pages];
    rewrite !app_nil_r; auto.
Qed.

(** [update_preview_range] is cut short exactly when the dialog holds a
    range that cannot be built. *)
Lemma cut_short_not_buildable w d :
  cut_short (Main.generated_pages w d) = true ->
  exists ta tb start end_,
    all_pages_radio d = false /\
    tokens (page_range_edit d) = [ta; tb] /\
    Py.int ta = Some start /\ Py.int tb = Some end_ /\
    ~ run_fits w start end_.
Proof.
  unfold Main.generated_pages, tokens.
  destruct (all_pages_radio d); [discriminate|].
  destruct (Py.truthy (page_range_edit d)); [|discriminate]. cbn [orb negb].
  destruct (Py.contains "-" (Py.strip (page_range_edit d))).
  2:{ destruct (Py.int _); discriminate. }
  destruct (Py.split "-" (Py.strip (page_range_edit d)))
    as [|ta [|tb [|tc rest]]]; cbn [map Py.unpack2]; try discriminate.
  - destruct (Py.int ta); discriminate.
  - destruct (Py.int ta) as [start|] eqn:Ha; [|discriminate].
    destruct (Py.int tb) as [end_|] eqn:Hb; [|discriminate].
    intros H. exists ta, tb, start, end_. repeat split; auto.
    intros Hfits. rewrite (list_range_fits w start end_ Hfits) in H.
    discriminate H.
  - destruct (Py.int ta); [|discriminate].
    destruct (Py.int tb); discriminate.
Qed.

Lemma buildable_completes w d :
  buildable w d -> cut_short (Main.generated_pages w d) = false.
Proof.
  intros Hb. destruct (cut_short _) eqn:E; [|reflexivity].
  destruct (cut_short_not_buildable w d E)
    as (ta & tb & start & end_ & Hr & Ht & Ha & Hbb & Hn).
  elim Hn. exact (Hb ta tb start end_ Hr Ht Ha Hbb).
Qed.

(** C3, as the code has it.  Whatever the range specification and the
    page count, the resolved selection holds only indices [i] with
    [0 <= i < pageCount], and it holds every such index of the generated
    sequence, in the order of that sequence; when the range the dialog holds
    can be built as a list, endpoints outside the document are dropped
    without any error being shown or raised.  In particular "5" on 3 pages
    and "0-0" on 1 page (which generates [-1]) resolve to the empty
    selection.  In main_1.py, which filters inside its print loop, every
    page drawn is inside the document as well. *)
Theorem C3_selection_stays_inside_document :
  forall (w : Collaborators) (d : PrintDialog) (spec : RangeSpec)
         (pageCount : Z) (printer : QPrinter),
    Forall (fun i => 0 <= i < pageCount) (Main.resolve w d spec pageCount) /\
    Main.resolve w d spec pageCount
    = match Main.generated_pages w
              (apply_spec spec (set_total_pages d pageCount)) with
      | Py.Returns pages =>
          filter (fun i => (0 <=? i) && (i <? pageCount)) pages
      | Py.Raise _ => []
      end /\
    (buildable w (apply_spec spec (set_total_pages d pageCount)) ->
     quiet (Main.resolve_events w d spec pageCount)) /\
    Main.resolve w d (Explicit "5") 3 = [] /\
    Main.generated_pages w (apply_spec (Explicit "0-0") (set_total_pages d 1))
    = Py.list_range (list_capacity w) (-1) 0 /\
    (1 <= list_capacity w ->
     Main.generated_pages w (apply_spec (Explicit "0-0") (set_total_pages d 1))
     = Py.Returns [-1]) /\
    Main.resolve w d (Explicit "0-0") 1 = [] /\
    Forall (fun i => 0 <= i < pageCount)
      (drawn_pages
         (Main_1.process_and_print w
            (apply_spec spec (set_total_pages d pageCount)) printer)).
Proof.
  intros w d spec n printer.
  split; [apply resolve_in_bounds|].
  split; [apply resolve_unfold|].
  split; [intros Hb; apply update_preview_range_quiet, buildable_completes, Hb|].
  split; [now rewrite resolve_unfold|].
  split; [reflexivity|].
  split.
  { intros Hcap. unfold Main.generated_pages, Py.list_range.
    cbn -[Z.ltb Py.maxsize list_capacity].
    replace (list_capacity w <? 1) with false
      by (symmetry; apply Z.ltb_ge; lia). reflexivity. }
  split.
  { rewrite resolve_unfold.
    change (Main.generated_pages w
              (apply_spec (Explicit "0-0") (set_total_pages d 1)))
      with (Py.list_range (list_capacity w) (-1) 0).
    unfold Py.list_range. cbn -[Z.ltb Py.maxsize list_capacity].
    destruct (list_capacity w <? 1); reflexivity. }
  pose proof (proj2 (main_1_draws_inside_document w
                       (apply_spec spec (set_total_pages d n)) printer)) as H.
  destruct spec; exact H.
Qed.

(** Pages 2-9 of a 4-page document: the endpoint 9 is dropped quietly. *)
Lemma C3_beyond_end_witness :
  quiet (Main.resolve_events sample_world sample_dialog (Explicit "2-9") 4).
Proof.
  refine (proj1 (proj2 (proj2 (C3_selection_stays_inside_document sample_world
                   sample_dialog (Explicit "2-9") 4
                   (Main.configured_printer sample_dialog)))) _).
  intros ta tb start end_ _ Htok Ha Hb.
  assert (Hta : ta = "2" /\ tb = "9") by (vm_compute in Htok; split; congruence).
  destruct Hta as [-> ->].
  assert (start = 2 /\ end_ = 9) as [-> ->]
    by (vm_compute in Ha, Hb; split; congruence).
  vm_compute. discriminate.
Defined.

(** C3 as stated fails on an endpoint so far out of range that the run
    cannot be built.  On a 5-page document the text
    "1-99999999999999999999" is not resolved to pages 1-5 with the endpoint
    dropped: [list(range(0, 10**20))] raises [OverflowError], the exception
    leaves [update_preview_range] uncaught, and the selection is empty. *)
Lemma C3_huge_endpoint_raises :
  Main.resolve_events sample_world sample_dialog (Explicit huge_range) 5
  = [uncaught "OverflowError"] /\
  Main.resolve sample_world sample_dialog (Explicit huge_range) 5 = [] /\
  Main_2.resolve_events sample_world sample_dialog (Explicit huge_range) 5
  = [uncaught "OverflowError"] /\
  Main_3.resolve_events sample_world sample_dialog (Explicit huge_range) 5
  = [uncaught "OverflowError"].
Proof. repeat split; vm_compute; reflexivity. Qed.

Example resolve_beyond_end :
  Main.resolve sample_world sample_dialog (Explicit "2-9") 4 = [1; 2; 3].
Proof. reflexivity. Qed.

Example main_1_skips_outside :
  Main_1.execute_print sample_world (dialog_with (Explicit "2-9") 3)
  = [painter_begin_called true;
     load_page 1;
     painter_drawImage (mkRect 0 0 2480 3508) 1;
     printer_newPage;
     load_page 2;
     painter_drawImage (mkRect 0 0 2480 3508) 2;
     printer_newPage;
     painter_end;
     QMessageBox_information "Success" "Document sent to printer.";
     accept].
Proof. reflexivity. Qed.

(* ================================================================== *)
(** ** Range text that is not a number *)
(* ================================================================== *)

Lemma truthy_nonempty text : text <> "" -> Py.truthy text = true.
Proof. destruct text; [congruence|reflexivity]. Qed.

(** The parse shared by the four variants fails on a bad token, before
    any list is built. *)
Lemma bad_token_parse (capacity : Z) text :
  has_bad_token text ->
  (let range_text := Py.strip text in
   if Py.contains "-" range_text then
     match Py.unpack2 (map Py.int (Py.split "-" range_text)) with
     | Some (start, end_) => Py.list_range capacity (start - 1) end_
     | None => Py.Raise Py.ValueError
     end
   else
     match Py.int range_text with
     | Some n => Py.Returns [n - 1]
     | None => Py.Raise Py.ValueError
     end) = Py.Raise Py.ValueError.
Proof.
  intros (tok & Hin & Hbad). unfold tokens in Hin. cbv zeta.
  destruct (Py.contains "-" (Py.strip text)) eqn:Hdash.
  - rewrite unpack2_None_in; [reflexivity|].
    rewrite <- Hbad. now apply in_map.
  - rewrite PyFacts.split_no_sep in Hin by assumption.
    destruct Hin as [<-|[]]. now rewrite Hbad.
Qed.

Lemma bad_token_generates_nothing w d :
  all_pages_radio d = false -> page_range_edit d <> "" ->
  has_bad_token (page_range_edit d) ->
  Main.generated_pages w d = Py.Raise Py.ValueError.
Proof.
  intros Hradio Htext Hbad. unfold Main.generated_pages.
  rewrite Hradio, truthy_nonempty by assumption. cbn [orb negb].
  now apply bad_token_parse.
Qed.

Lemma bad_token_main_1 w d :
  all_pages_radio d = false -> has_bad_token (page_range_edit d) ->
  Main_1.pages_to_print w d = Py.Raise Py.ValueError.
Proof.
  intros Hradio Hbad. unfold Main_1.pages_to_print. rewrite Hradio.
  now apply bad_token_parse.
Qed.

(** C4, as the code has it.  For every non-empty custom range text one of
    whose tokens is not an integer literal: in main.py, main_2.py and
    main_3.py the selection becomes empty and nothing is reported (main.py
    leaves the preview as it was; main_2.py and main_3.py show their "No
    valid pages selected." placeholder); in main_1.py, which parses the
    text when the user prints, the job is not started and the user is shown
    the "Invalid Page Range" error box. *)
Theorem C4_invalid_text_quiet_with_preview_reported_by_main_1 :
  forall (w : Collaborators) (d : PrintDialog) (text : string)
         (pageCount : Z) (printer : QPrinter),
    text <> "" ->
    has_bad_token text ->
    (Main.resolve w d (Explicit text) pageCount = [] /\
     Main.resolve_events w d (Explicit text) pageCount = []) /\
    (Main_2.resolve w d (Explicit text) pageCount = [] /\
     Main_2.resolve_events w d (Explicit text) pageCount = Main_2.no_valid_pages) /\
    (Main_3.resolve w d (Explicit text) pageCount = [] /\
     Main_3.resolve_events w d (Explicit text) pageCount = Main_2.no_valid_pages) /\
    (Py.endswith (Py.lower (file_path d)) ".pdf" = true ->
     Main_1.process_and_print w
       (apply_spec (Explicit text) (set_total_pages d pageCount)) printer
     = [Main_1.invalid_page_range]).
Proof.
  intros w d text n printer Htext Hbad.
  set (d' := apply_spec (Explicit text) (set_total_pages d n)).
  assert (Hgen : Main.generated_pages w d' = Py.Raise Py.ValueError)
    by (apply bad_token_generates_nothing; auto).
  assert (Hres : Main.resolve w d (Explicit text) n = [])
    by (rewrite resolve_unfold; fold d'; now rewrite Hgen).
  repeat split.
  - exact Hres.
  - unfold Main.resolve_events, Main.update_preview_range. fold d'.
    change (Main.generated_pages w (set_preview_pages d' [])) with
      (Main.generated_pages w d'). rewrite Hgen. reflexivity.
  - now rewrite resolve_main_2.
  - unfold Main_2.resolve_events, Main_2.update_preview_range. fold d'.
    change (Main_2.generated_pages w (set_preview_pages d' [])) with
      (Main.generated_pages w d'). rewrite Hgen. reflexivity.
  - now rewrite resolve_main_3.
  - unfold Main_3.resolve_events, Main_3.update_preview_range. fold d'.
    change (Main_3.generated_pages w (set_preview_pages d' [])) with
      (Main.generated_pages w d'). rewrite Hgen. reflexivity.
  - intros Hpdf. unfold Main_1.process_and_print.
    change (file_path d') with (file_path d). rewrite Hpdf. cbn [negb].
    now rewrite bad_token_main_1.
Qed.

Lemma abc_has_bad_token : has_bad_token "abc".
Proof. exists "abc". split; [now left|reflexivity]. Qed.

Lemma C4_abc_witness :
  Main.resolve sample_world sample_dialog (Explicit "abc") 5 = [] /\
  Main.resolve_events sample_world sample_dialog (Explicit "abc") 5 = [].
Proof.
  refine (proj1 (C4_invalid_text_quiet_with_preview_reported_by_main_1
                   sample_world sample_dialog "abc" 5
                   (Main_1.configured_printer sample_dialog) _ abc_has_bad_token)).
  discriminate.
Defined.

(** C4 as stated fails in main_1.py: the text "abc" is answered with an
    error box. *)
Lemma C4_main_1_reports_invalid_text :
  In "abc" (tokens "abc") /\
  Py.int "abc" = None /\
  Main_1.execute_print sample_world (dialog_with (Explicit "abc") 5)
  = [QMessageBox_critical "Invalid Page Range"
       "Please enter a valid page or page range (e.g., '5' or '5-10')."] /\
  existsb is_message_box
    (Main_1.execute_print sample_world (dialog_with (Explicit "abc") 5)) = true.
Proof. repeat split; try reflexivity. now left. Qed.

(** main_1.py has no "empty text means all pages" rule. *)
Example main_1_empty_text_is_invalid :
  Main_1.execute_print sample_world (dialog_with (Explicit "") 5)
  = [Main_1.invalid_page_range].
Proof. reflexivity. Qed.

Example blank_text_is_invalid :
  Main.resolve sample_world sample_dialog (Explicit "   ") 5 = [].
Proof. reflexivity. Qed.

Example three_tokens_are_invalid :
  Main.resolve sample_world sample_dialog (Explicit "1-2-3") 5 = [].
Proof. reflexivity. Qed.

(* ================================================================== *)
(** ** Printing: refusal, surface failure, null rasters *)
(* ================================================================== *)

(** With an empty selection, main.py, main_2.py and main_3.py refuse the
    job: one warning, the painter is never started. *)
Lemma empty_selection_refused w d printer :
  preview_pages d = [] ->
  Main.process_and_print w d printer = [Main.no_pages_selected] /\
  Main_2.process_and_print w d printer = [Main_2.no_pages_selected] /\
  Main_3.process_and_print w d printer = [Main_3.no_pages_selected].
Proof.
  intros H. unfold Main.process_and_print, Main_2.process_and_print,
    Main_3.process_and_print. rewrite H. auto.
Qed.

(** C5 at its failing input.  main_1.py has no check for an empty
    selection: on a 5-page PDF with the custom range "2-1" the list of pages
    is empty, yet the painter is started on the printer, nothing is drawn,
    the painter is ended and success is announced. *)
Theorem C5_main_1_starts_printer_on_empty_selection :
  Main_1.pages_to_print sample_world (dialog_with (Explicit "2-1") 5)
  = Py.Returns [] /\
  Main_1.execute_print sample_world (dialog_with (Explicit "2-1") 5)
  = [painter_begin_called true; painter_end; Main_1.success; accept] /\
  existsb is_painter_begin
    (Main_1.execute_print sample_world (dialog_with (Explicit "2-1") 5)) = true.
Proof. repeat split; reflexivity. Qed.

Example main_1_single_page_outside :
  Main_1.execute_print sample_world (dialog_with (Explicit "5") 3)
  = [painter_begin_called true; painter_end; Main_1.success; accept].
Proof. reflexivity. Qed.

Section NothingDrawn.

Variable page_rect : QSize.
Variable render : Z -> pixmap_result.
Variable report_null : Z -> list event.
Hypothesis report_null_reports :
  forall p e, In e (report_null p) -> is_skip_report e = true.

(** The loop of a variant without range check draws nothing exactly when
    rendering raises at a page before which every raster is null, or every
    raster is null. *)
Lemma print_loop_draws_nothing n i pages :
  drawn_pages (fst (print_loop page_rect (fun _ => true) render report_null
                      n i pages)) = [] <->
  (exists pre p post e,
     pages = pre ++ p :: post /\
     (forall p0, In p0 pre -> renders_null render p0 = true) /\
     render p = Raises e) \/
  (forall p, In p pages -> renders_null render p = true).
Proof.
  revert i. induction pages as [|p rest IH]; intros i.
  - split; [right; intros p []|reflexivity].
  - specialize (IH (i + 1)). cbn [print_loop negb].
    destruct (render p) as [e|q] eqn:Hp.
    + split; [intros _|reflexivity]. left. exists [], p, rest, e.
      repeat split; auto; intros p0 [].
    + destruct (print_loop page_rect (fun _ => true) render report_null n
                  (i + 1) rest) as [t r] eqn:Hloop.
      cbn [fst] in *. cbn [drawn_pages]. rewrite drawn_pages_app.
      destruct (isNull q) eqn:Hnull.
      * assert (Hp' : renders_null render p = true)
          by (unfold renders_null; now rewrite Hp).
        rewrite (proj1 (skip_reports_draw_nothing (report_null p)
                          (report_null_reports p))).
        cbn [app]. rewrite IH. split.
        -- intros [(pre & p1 & post & e & -> & Hpre & He)|Hall].
           ++ left. exists (p :: pre), p1, post, e. repeat split; auto.
              intros p0 [<-|H0]; auto.
           ++ right. intros p0 [<-|H0]; auto.
        -- intros [(pre & p1 & post & e & Heq & Hpre & He)|Hall].
           ++ destruct pre as [|p2 pre]; cbn [app] in Heq;
                injection Heq as <- ->; [congruence|].
              left. exists pre, p1, post, e. repeat split; auto.
              intros p0 H0. apply Hpre. now right.
           ++ right. intros p0 H0. apply Hall. now right.
      * assert (Hp' : renders_null render p = false)
          by (unfold renders_null; now rewrite Hp).
        cbn [drawn_pages app]. split; [discriminate|].
        intros [(pre & p1 & post & e & Heq & Hpre & He)|Hall].
        -- destruct pre as [|p2 pre]; cbn [app] in Heq;
             injection Heq as <- ->; [congruence|].
           rewrite (Hpre p (or_introl eq_refl)) in Hp'. discriminate.
        -- rewrite (Hall p (or_introl eq_refl)) in Hp'. discriminate.
Qed.

End NothingDrawn.

(** C8, as the code has it.  In main.py, when the selection is not empty
    and the painter cannot be started on the printer, the job ends there:
    the trace is the failed [painter.begin] and the "Print Error" box, so no
    page is requested or drawn.  It is the only condition that ends the job
    before any page is requested: when the painter starts, the first
    selected page is requested.  It is not the only one that ends it before
    any page is drawn: a started job draws nothing exactly when rendering
    raises at a page before which every raster is null, or when every raster
    is null. *)
Theorem C8_surface_failure_aborts_before_any_page :
  forall (w : Collaborators) (d : PrintDialog) (printer : QPrinter),
    preview_pages d <> [] ->
    (painter_begin w printer = false ->
     Main.process_and_print w d printer
     = [painter_begin_called false; Main.print_error] /\
     loaded_pages (Main.process_and_print w d printer) = [] /\
     drawn_pages (Main.process_and_print w d printer) = []) /\
    (painter_begin w printer = true ->
     exists p rest t,
       preview_pages d = p :: rest /\
       Main.process_and_print w d printer
       = painter_begin_called true :: load_page p :: t) /\
    (loaded_pages (Main.process_and_print w d printer) = [] <->
     painter_begin w printer = false) /\
    (painter_begin w printer = true ->
     (drawn_pages (Main.process_and_print w d printer) = [] <->
      (exists pre p post e,
         preview_pages d = pre ++ p :: post /\
         (forall p0, In p0 pre ->
            renders_null (Main.print_raster w d printer) p0 = true) /\
         Main.print_raster w d printer p = Raises e) \/
      (forall p, In p (preview_pages d) ->
         renders_null (Main.print_raster w d printer) p = true))).
Proof.
  intros w d printer Hne.
  assert (Hfail : painter_begin w printer = false ->
            Main.process_and_print w d printer
            = [painter_begin_called false; Main.print_error]).
  { intros Hb. unfold Main.process_and_print.
    destruct (preview_pages d); [congruence|]. now rewrite Hb. }
  assert (Hstart : painter_begin w printer = true ->
            exists p rest t,
              preview_pages d = p :: rest /\
              Main.process_and_print w d printer
              = painter_begin_called true :: load_page p :: t).
  { intros Hb. unfold Main.process_and_print.
    destruct (preview_pages d) as [|p rest] eqn:Hp; [congruence|].
    rewrite Hb. cbn [negb]. exists p, rest. cbn [print_loop negb].
    destruct (Main.print_raster w d printer p) as [e|q].
    - eexists. split; [reflexivity|]. cbn. reflexivity.
    - destruct (print_loop _ _ _ _ _ _ rest) as [t [|e]];
        eexists; (split; [reflexivity|]); cbn; reflexivity. }
  split; [|split; [exact Hstart|split]].
  - intros Hb. rewrite (Hfail Hb). auto.
  - split.
    + intros Hl. destruct (painter_begin w printer) eqn:Hb; [|reflexivity].
      destruct (Hstart eq_refl) as (p & rest & t & _ & Ht).
      rewrite Ht in Hl. discriminate Hl.
    + intros Hb. now rewrite (Hfail Hb).
  - intros Hb.
    rewrite <- (print_loop_draws_nothing (pageRect w printer)
                  (Main.print_raster w d printer) Main.null_raster_report
                  main_reports (Z.of_nat (List.length (preview_pages d))) 0
                  (preview_pages d)).
    unfold Main.process_and_print.
    destruct (preview_pages d) as [|p rest] eqn:Hp; [congruence|].
    rewrite Hb. cbn [negb].
    destruct (print_loop _ _ _ _ _ _ (p :: rest)) as [t [|e]];
      cbn [fst drawn_pages]; rewrite drawn_pages_app; cbn [drawn_pages];
      now rewrite app_nil_r.
Qed.

(** The same in main_2.py and main_3.py. *)
Lemma surface_failure_main_2_main_3 w d printer :
  preview_pages d <> [] -> painter_begin w printer = false ->
  Main_2.process_and_print w d printer
  = [painter_begin_called false; Main_2.print_error] /\
  Main_3.process_and_print w d printer
  = [painter_begin_called false; Main_3.print_error].
Proof.
  intros Hne Hb. unfold Main_2.process_and_print, Main_3.process_and_print.
  destruct (preview_pages d); [congruence|]. rewrite Hb. auto.
Qed.

Lemma C8_offline_printer_witness :
  Main.process_and_print offline_world
    (fst (Main.update_preview_range offline_world (dialog_with All 3)))
    (Main.configured_printer sample_dialog)
  = [painter_begin_called false; Main.print_error].
Proof.
  refine (proj1 (proj1 (C8_surface_failure_aborts_before_any_page offline_world
            (fst (Main.update_preview_range offline_world (dialog_with All 3)))
            (Main.configured_printer sample_dialog) _) eq_refl)).
  discriminate.
Defined.

(** C8 as stated fails: the failed [painter.begin] is not the only
    condition that ends the job before anything is drawn.  On a two-page
    selection whose first page cannot be rendered, the painter starts, page
    0 is requested, and the job ends with "Printing Failed": no page is
    drawn and page 1 is never requested. *)
Lemma C8_raising_first_page_ends_job_undrawn :
  preview_pages two_page_dialog = [0; 1] /\
  painter_begin raising_first_page_world
    (Main.configured_printer two_page_dialog) = true /\
  Main.process_and_print raising_first_page_world two_page_dialog
    (Main.configured_printer two_page_dialog)
  = [painter_begin_called true;
     load_page 0;
     QMessageBox_critical "Printing Failed"
       "An unexpected error occurred: cannot render page";
     painter_end] /\
  drawn_pages
    (Main.process_and_print raising_first_page_world two_page_dialog
       (Main.configured_printer two_page_dialog)) = [].
Proof. repeat split; reflexivity. Qed.

Section PrintLoopReports.

Variable page_rect : QSize.
Variable in_document : Z -> bool.
Variable render : Z -> pixmap_result.
Variable report_null : Z -> list event.
Hypothesis report_null_reports :
  forall p e, In e (report_null p) -> is_skip_report e = true.

(** What a completed loop says about the pages it skipped: the report of
    each null page, in order, and nothing else. *)
Lemma print_loop_reports n i pages :
  (forall p, In p pages -> in_document p = true -> exists q, render p = Image q) ->
  filter is_skip_report
    (fst (print_loop page_rect in_document render report_null n i pages))
  = flat_map report_null
      (filter (fun p => in_document p && renders_null render p) pages).
Proof.
  revert i. induction pages as [|p rest IH]; intros i Hr; [reflexivity|].
  specialize (IH (i + 1)).
  assert (IH' := IH (fun p0 H => Hr p0 (or_intror H))). clear IH.
  cbn [filter]. destruct (in_document p) eqn:Hin.
  2:{ rewrite (print_loop_out_of_document page_rect in_document render
                 report_null n i p rest Hin). exact IH'. }
  destruct (Hr p (or_introl eq_refl) Hin) as [q Hq].
  destruct (isNull q) eqn:Hnull.
  - assert (Hn : renders_null render p = true)
      by (unfold renders_null; now rewrite Hq).
    rewrite (print_loop_null_page page_rect in_document render report_null
               n i p rest Hin Hn).
    rewrite Hn. cbn [fst andb flat_map filter is_skip_report].
    rewrite filter_app, IH'. f_equal.
    apply PyFacts.filter_all. apply report_null_reports.
  - assert (Hn : renders_null render p = false)
      by (unfold renders_null; now rewrite Hq).
    rewrite (print_loop_valid_page page_rect in_document render report_null
               n i p q rest Hin Hq Hnull).
    rewrite Hn. cbn [fst andb filter is_skip_report].
    rewrite filter_app, IH'.
    destruct (i <? n - 1); reflexivity.
Qed.

(** A job whose loop meets no exception ran skipping its null pages. *)
Lemma completed_job n pages closing :
  (forall p, In p pages -> in_document p = true -> exists q, render p = Image q) ->
  (forall e, In e closing -> is_skip_report e = false) ->
  exists t,
    print_loop page_rect in_document render report_null n 0 pages = (t, Completed) /\
    ran_skipping_null_pages (painter_begin_called true :: t ++ closing)
      (filter in_document pages) render report_null closing.
Proof.
  intros Hr Hclosing.
  destruct (print_loop_completes page_rect in_document render report_null
              report_null_reports n 0 pages Hr) as (Hs & Hl & Hd).
  pose proof (print_loop_reports n 0 pages Hr) as Hrep.
  destruct (print_loop page_rect in_document render report_null n 0 pages)
    as [t ex]. cbn [fst snd] in *. subst ex.
  exists t. split; [reflexivity|]. exists t. split; [reflexivity|].
  split; [exact Hl|]. split.
  - rewrite Hd. clear. induction pages as [|p l IH]; [reflexivity|].
    cbn [filter]. destruct (in_document p); cbn [andb filter]; now rewrite IH.
  - rewrite Hrep. f_equal. clear. induction pages as [|p l IH]; [reflexivity|].
    cbn [filter]. destruct (in_document p); cbn [andb filter]; now rewrite IH.
Qed.

End PrintLoopReports.

Lemma filter_true {A} (l : list A) : filter (fun _ => true) l = l.
Proof. induction l; simpl; congruence. Qed.

(** C9, as the code has it.  In every variant, when the painter has
    started and no selected page makes the document library raise, the job
    runs to its end whatever rasters are null: every selected page of the
    document is requested, those with a valid raster are drawn in order, and
    a page with a null raster is only skipped, leaving in the trace what the
    variant's [null_raster_report] says: a warning box in main_1.py, a line
    on standard output in main_2.py and main_3.py. *)
Theorem C9_null_raster_skips_one_page :
  forall (w : Collaborators) (d : PrintDialog) (printer : QPrinter),
    painter_begin w printer = true ->
    (preview_pages d <> [] ->
     (forall p, In p (preview_pages d) ->
                exists q, Main.print_raster w d printer p = Image q) ->
     ran_skipping_null_pages (Main.process_and_print w d printer)
       (preview_pages d) (Main.print_raster w d printer)
       Main.null_raster_report [painter_end; Main.success]) /\
    (preview_pages d <> [] ->
     (forall p, In p (preview_pages d) ->
                exists q, Main_2.print_raster w d printer p = Image q) ->
     ran_skipping_null_pages (Main_2.process_and_print w d printer)
       (preview_pages d) (Main_2.print_raster w d printer)
       Main_2.null_raster_report [painter_end; Main_2.success; accept]) /\
    (preview_pages d <> [] ->
     (forall p, In p (preview_pages d) ->
                exists q, Main_3.print_raster w d printer p = Image q) ->
     ran_skipping_null_pages (Main_3.process_and_print w d printer)
       (preview_pages d) (Main_3.print_raster w d printer)
       Main_3.null_raster_report [painter_end; Main_3.success]) /\
    (forall pages,
       Py.endswith (Py.lower (file_path d)) ".pdf" = true ->
       Main_1.pages_to_print w d = Py.Returns pages ->
       (forall p, In p pages -> Main_1.in_bounds d p = true ->
                  exists q, Main_1.print_raster w d p = Image q) ->
       ran_skipping_null_pages (Main_1.process_and_print w d printer)
         (filter (Main_1.in_bounds d) pages) (Main_1.print_raster w d)
         Main_1.null_raster_report [painter_end; Main_1.success; accept]).
Proof.
  intros w d printer Hbegin. repeat split.
  - intros Hne Hr. unfold Main.process_and_print.
    destruct (preview_pages d) as [|p0 l] eqn:Hp; [congruence|].
    rewrite Hbegin. cbn [negb].
    destruct (completed_job (pageRect w printer) (fun _ => true)
                (Main.print_raster w d printer) Main.null_raster_report
                main_reports (Z.of_nat (List.length (p0 :: l))) (p0 :: l)
                [painter_end; Main.success]) as (t & Ht & Hran).
    { intros p Hin _. now apply Hr. }
    { intros e [<-|[<-|[]]]; reflexivity. }
    rewrite Ht. now rewrite filter_true in Hran.
  - intros Hne Hr. unfold Main_2.process_and_print.
    destruct (preview_pages d) as [|p0 l] eqn:Hp; [congruence|].
    rewrite Hbegin. cbn [negb].
    destruct (completed_job (pageRect w printer) (fun _ => true)
                (Main_2.print_raster w d printer) Main_2.null_raster_report
                main_2_reports (Z.of_nat (List.length (p0 :: l))) (p0 :: l)
                [painter_end; Main_2.success; accept]) as (t & Ht & Hran).
    { intros p Hin _. now apply Hr. }
    { intros e [<-|[<-|[<-|[]]]]; reflexivity. }
    rewrite Ht. now rewrite filter_true in Hran.
  - intros Hne Hr. unfold Main_3.process_and_print.
    destruct (preview_pages d) as [|p0 l] eqn:Hp; [congruence|].
    rewrite Hbegin. cbn [negb].
    destruct (completed_job (pageRect w printer) (fun _ => true)
                (Main_3.print_raster w d printer) Main_3.null_raster_report
                main_3_reports (Z.of_nat (List.length (p0 :: l))) (p0 :: l)
                [painter_end; Main_3.success]) as (t & Ht & Hran).
    { intros p Hin _. now apply Hr. }
    { intros e [<-|[<-|[]]]; reflexivity. }
    rewrite Ht. now rewrite filter_true in Hran.
  - intros pages Hpdf Hpages Hr. unfold Main_1.process_and_print.
    rewrite Hpdf, Hpages, Hbegin. cbn [negb].
    destruct (completed_job (pageRect w printer) (Main_1.in_bounds d)
                (Main_1.print_raster w d) Main_1.null_raster_report
                main_1_reports (Z.of_nat (List.length pages)) pages
                [painter_end; Main_1.success; accept]) as (t & Ht & Hran).
    { exact Hr. }
    { intros e [<-|[<-|[<-|[]]]]; reflexivity. }
    rewrite Ht. exact Hran.
Qed.

Lemma C9_null_first_page_witness :
  ran_skipping_null_pages
    (Main_2.process_and_print null_first_page_world two_page_dialog
       (Main_2.configured_printer two_page_dialog))
    [0; 1]
    (Main_2.print_raster null_first_page_world two_page_dialog
       (Main_2.configured_printer two_page_dialog))
    Main_2.null_raster_report [painter_end; Main_2.success; accept].
Proof.
  refine (proj1 (proj2 (C9_null_raster_skips_one_page null_first_page_world
            two_page_dialog (Main_2.configured_printer two_page_dialog)
            eq_refl)) _ _).
  - discriminate.
  - intros p _. unfold Main_2.print_raster. cbn.
    destruct (p =? 0); eexists; reflexivity.
Defined.

(** C9 as stated fails twice in main.py.  When page 0 has a null raster
    the job goes on and draws page 1, but nothing in the trace mentions
    page 0.  When rendering page 0 raises, the failure of that one page ends
    the whole job: page 1 is never requested. *)
Lemma C9_main_silent_skip_and_raising_page :
  renders_null
    (Main.print_raster null_first_page_world two_page_dialog
       (Main.configured_printer two_page_dialog)) 0 = true /\
  Main.execute_print null_first_page_world two_page_dialog
  = [painter_begin_called true;
     load_page 0;
     load_page 1;
     painter_drawImage (mkRect 0 0 2480 3508) 1;
     painter_end;
     Main.success] /\
  filter is_skip_report
    (Main.execute_print null_first_page_world two_page_dialog) = [] /\
  Main.execute_print raising_first_page_world two_page_dialog
  = [painter_begin_called true;
     load_page 0;
     QMessageBox_critical "Printing Failed"
       "An unexpected error occurred: cannot render page";
     painter_end].
Proof. repeat split; reflexivity. Qed.

(** The same document in main_2.py and main_1.py: the skipped page is
    reported. *)
Example main_2_logs_null_page :
  Main_2.execute_print null_first_page_world two_page_dialog
  = [painter_begin_called true;
     load_page 0;
     print "Warning: Could not create a valid image for page 1.";
     load_page 1;
     painter_drawImage (mkRect 0 0 2480 3508) 1;
     painter_end;
     Main_2.success;
     accept].
Proof. reflexivity. Qed.

Example main_1_warns_null_page :
  Main_1.execute_print null_first_page_world (dialog_with All 2)
  = [painter_begin_called true;
     load_page 0;
     QMessageBox_warning "Conversion Error"
       "Could not create a valid image for page 1.";
     load_page 1;
     painter_drawImage (mkRect 0 0 2480 3508) 1;
     painter_end;
     Main_1.success;
     accept].
Proof. reflexivity. Qed.

(* ================================================================== *)
(** ** Fit-to-page placement *)
(* ================================================================== *)

Lemma Qtruncate_scaled (a n d : Z) :
  0 < d ->
  Qtruncate (inject_Z a * (n # Z.to_pos d)) = Z.quot (a * n) d.
Proof.
  intros Hd. unfold Qtruncate, Qmult, inject_Z. cbn [Qnum Qden].
  rewrite Pos.mul_1_l, Z2Pos.id by assumption. reflexivity.
Qed.

(** The specification's scaling in integer arithmetic. *)
Lemma uniformly_scaled_cases sw sh tw th :
  0 < sw -> 0 < sh ->
  uniformly_scaled sw sh tw th =
  if tw * sh <=? th * sw
  then mkSize tw (Z.quot (sh * tw) sw)
  else mkSize (Z.quot (sw * th) sh) th.
Proof.
  intros Hsw Hsh. unfold uniformly_scaled, min_scale.
  assert (Hmin : Qmin (tw # Z.to_pos sw) (th # Z.to_pos sh) =
                 if tw * sh <=? th * sw then tw # Z.to_pos sw
                 else th # Z.to_pos sh).
  { unfold Qmin, GenericMinMax.gmin, Qcompare. cbn [Qnum Qden].
    rewrite !Z2Pos.id by assumption. unfold Z.leb.
    destruct (tw * sh ?= th * sw); reflexivity. }
  rewrite Hmin. destruct (tw * sh <=? th * sw).
  - rewrite !Qtruncate_scaled by assumption. f_equal.
    rewrite Z.mul_comm. apply Z.quot_mul. lia.
  - rewrite !Qtruncate_scaled by assumption. f_equal.
    rewrite Z.mul_comm. apply Z.quot_mul. lia.
Qed.

(** [QSize.scaled] on positive sizes, with its three cases spelled out. *)
Lemma scaled_cases sw sh tw th :
  0 < sw -> 0 < sh -> 0 < tw -> 0 < th ->
  let s := scaled (mkSize sw sh) (mkSize tw th) in
  (th * sw <= tw * sh -> s = mkSize (th * sw / sh) th) /\
  (in_rounding_band sw sh tw th -> s = mkSize tw th) /\
  ((tw + 1) * sh <= th * sw -> s = mkSize tw (tw * sh / sw)).
Proof.
  intros Hsw Hsh Htw Hth. unfold scaled, in_rounding_band. cbn [width height].
  replace (sw =? 0) with false by (symmetry; apply Z.eqb_neq; lia).
  replace (sh =? 0) with false by (symmetry; apply Z.eqb_neq; lia).
  cbn [orb]. rewrite !Z.quot_div_nonneg by nia.
  repeat split.
  - intros H. replace (th * sw / sh <=? tw) with true; [reflexivity|].
    symmetry. apply Z.leb_le.
    apply Z.le_trans with (tw * sh / sh);
      [apply Z.div_le_mono; lia | rewrite Z.div_mul by lia; lia].
  - intros [H1 H2].
    assert (Hq : th * sw / sh = tw).
    { symmetry. apply Z.div_unique with (th * sw - sh * tw); lia. }
    rewrite Hq, Z.leb_refl. reflexivity.
  - intros H. replace (th * sw / sh <=? tw) with false; [reflexivity|].
    symmetry. apply Z.leb_gt.
    apply Z.lt_le_trans with ((tw + 1) * sh / sh);
      [rewrite Z.div_mul by lia; lia | apply Z.div_le_mono; lia].
Qed.

Lemma place_unfold sw sh tw th :
  place sw sh tw th =
  let s := scaled (mkSize sw sh) (mkSize tw th) in
  mkRect (Z.quot (tw - width s) 2) (Z.quot (th - height s) 2) (width s) (height s).
Proof. reflexivity. Qed.

(** C6, as the code has it.  For positive source and target sizes the
    rectangle has the dimensions [QSize.scaled] returns under
    [KeepAspectRatio]: the source scaled uniformly by
    [min(tw/sw, th/sh)], in whole pixels and without a cap at 1.0 -- except
    in the rounding band [tw/sw < th/sh < (tw+1)/sw], where it is the whole
    target although the uniformly scaled height is smaller.  It always fits
    the target and touches it on one axis.  The offsets are
    [(tw - width)/2] and [(th - height)/2] truncated toward zero, and are
    never negative.  [place(200,100,100,100)] is 100 x 50 at (0, 25); a
    100 x 50 source in a 200 x 200 target is enlarged to 200 x 100. *)
Theorem C6_placement_is_scaled_fit_centred :
  forall sw sh tw th : Z,
    0 < sw -> 0 < sh -> 0 < tw -> 0 < th ->
    let r := place sw sh tw th in
    let fitted := mkSize (rect_width r) (rect_height r) in
    (~ in_rounding_band sw sh tw th ->
     fitted = uniformly_scaled sw sh tw th) /\
    (in_rounding_band sw sh tw th ->
     fitted = mkSize tw th /\ height (uniformly_scaled sw sh tw th) < th) /\
    rect_width r <= tw /\
    rect_height r <= th /\
    (rect_width r = tw \/ rect_height r = th) /\
    x r = Z.quot (tw - rect_width r) 2 /\
    y r = Z.quot (th - rect_height r) 2 /\
    0 <= x r /\
    0 <= y r /\
    place 200 100 100 100 = mkRect 0 25 100 50 /\
    place 100 50 200 200 = mkRect 0 50 200 100.
Proof.
  intros sw sh tw th Hsw Hsh Htw Hth r fitted.
  destruct (scaled_cases sw sh tw th Hsw Hsh Htw Hth) as (HA & HB & HC).
  pose proof (uniformly_scaled_cases sw sh tw th Hsw Hsh) as HU.
  subst fitted r. rewrite place_unfold. cbv zeta. cbn [rect_width rect_height x y].
  set (s := scaled (mkSize sw sh) (mkSize tw th)) in *.
  assert (Hfit : width s <= tw /\ height s <= th /\
                 (width s = tw \/ height s = th) /\
                 (~ in_rounding_band sw sh tw th ->
                  mkSize (width s) (height s) = uniformly_scaled sw sh tw th) /\
                 (in_rounding_band sw sh tw th ->
                  mkSize (width s) (height s) = mkSize tw th /\
                  height (uniformly_scaled sw sh tw th) < th)).
  { destruct (Z_le_gt_dec (th * sw) (tw * sh)) as [Hle|Hgt].
    - (* the height ratio is the smaller one *)
      rewrite (HA Hle). cbn [width height].
      assert (Hw : th * sw / sh <= tw).
      { apply Z.le_trans with (tw * sh / sh);
          [apply Z.div_le_mono; lia | rewrite Z.div_mul by lia; lia]. }
      repeat split; auto; try lia.
      + intros _. rewrite HU. destruct (tw * sh <=? th * sw) eqn:E.
        * apply Z.leb_le in E. assert (Heq : tw * sh = th * sw) by lia.
          rewrite <- Heq, Z.div_mul by lia.
          rewrite (Z.mul_comm sh tw), Heq, Z.quot_mul by lia. reflexivity.
        * rewrite Z.quot_div_nonneg by nia. now rewrite (Z.mul_comm sw th).
      + unfold in_rounding_band in H. lia.
      + unfold in_rounding_band in H. lia.
    - destruct (Z_lt_le_dec (th * sw) ((tw + 1) * sh)) as [Hlt|Hge].
      + (* the rounding band *)
        assert (Hband : in_rounding_band sw sh tw th)
          by (unfold in_rounding_band; lia).
        rewrite (HB Hband). cbn [width height].
        repeat split; auto; try lia; try tauto.
        rewrite HU. replace (tw * sh <=? th * sw) with true
          by (symmetry; apply Z.leb_le; lia).
        cbn [height]. rewrite Z.quot_div_nonneg by nia.
        apply Z.div_lt_upper_bound; lia.
      + (* the width ratio is the smaller one, clear of the band *)
        rewrite (HC Hge). cbn [width height].
        assert (Hh : tw * sh / sw <= th).
        { apply Z.lt_le_incl, Z.div_lt_upper_bound; lia. }
        repeat split; auto; try lia.
        * intros _. rewrite HU. replace (tw * sh <=? th * sw) with true
            by (symmetry; apply Z.leb_le; lia).
          rewrite Z.quot_div_nonneg by nia. now rewrite (Z.mul_comm sh tw).
        * unfold in_rounding_band in H. lia.
        * unfold in_rounding_band in H. lia. }
  destruct Hfit as (Hw & Hh & Htouch & Hout & Hin).
  repeat split; auto; try reflexivity.
  - now apply Hin.
  - now apply Hin.
  - apply Z.quot_pos; lia.
  - apply Z.quot_pos; lia.
Qed.

Lemma C6_half_size_witness :
  mkSize (rect_width (place 200 100 100 100)) (rect_height (place 200 100 100 100))
  = uniformly_scaled 200 100 100 100.
Proof.
  pose proof (C6_placement_is_scaled_fit_centred 200 100 100 100
                eq_refl eq_refl eq_refl eq_refl) as H.
  cbv zeta in H. destruct H as (H & _). apply H.
  unfold in_rounding_band. lia.
Defined.

(** C6 as stated fails in the rounding band: a 100 x 1000 source in a
    100 x 1005 target has [min(tw/sw, th/sh) = 1], so uniform scaling leaves
    it 100 x 1000 with [y = 2]; the code draws it 100 x 1005 at [y = 0]. *)
Lemma C6_rounding_band_stretches :
  Qeq (min_scale 100 1000 100 1005) 1 /\
  uniformly_scaled 100 1000 100 1005 = mkSize 100 1000 /\
  place 100 1000 100 1005 = mkRect 0 0 100 1005 /\
  Z.quot (1005 - height (uniformly_scaled 100 1000 100 1005)) 2 = 2.
Proof. repeat split; reflexivity. Qed.

Example place_wide_target : place 10 10 100 50 = mkRect 25 0 50 50.
Proof. reflexivity. Qed.

Example place_a4_band : place 2480 3508 2480 3509 = mkRect 0 0 2480 3509.
Proof. reflexivity. Qed.

(* ================================================================== *)
(** ** Orientation *)
(* ================================================================== *)

(** Every rectangle main.py draws is [target_rect] of the page's raster as
    rendered and the printable area: the raster is never transposed. *)
Lemma main_draws_unrotated w d printer r p :
  In (painter_drawImage r p) (Main.process_and_print w d printer) ->
  exists q,
    Main.print_raster w d printer p = Image q /\ isNull q = false /\
    r = target_rect (image_size q) (pageRect w printer).
Proof.
  unfold Main.process_and_print.
  destruct (preview_pages d) as [|p0 l]; [intros [H|[]]; discriminate|].
  destruct (negb _); [intros [H|[H|[]]]; discriminate|].
  match goal with
  | |- context [print_loop ?a ?f ?g ?h ?n ?i ?pages] =>
      destruct (print_loop_sound a f g h main_reports n i pages) as (_ & _ & Hr);
      destruct (print_loop a f g h n i pages) as [t ex]
  end.
  cbn [fst] in Hr. intros [H|H]; [discriminate|].
  destruct ex; apply in_app_or in H as [H|H]; eauto;
    simpl in H; intuition discriminate.
Qed.

(** What the preview of main.py shows when its cursor points at a page
    that renders. *)
Lemma main_preview_pixmap w d viewport p q :
  preview_pages d <> [] ->
  scroll_area d = Some viewport ->
  Py.getitem (preview_pages d) (current_preview_index d) = Some p ->
  get_pixmap w p None false = Image q ->
  In (preview_label_setPixmap p
        (pixmap_scaled
           (if String.eqb (orientation_combo d) "Landscape"
            then transposed (image_size q) else image_size q)
           (mkSize (width viewport - 5) (height viewport - 5))))
     (Main.render_current_preview_page w d).
Proof.
  intros Hne Hsa Hget Hq. unfold Main.render_current_preview_page.
  destruct (preview_pages d); [congruence|].
  rewrite Hsa, Hget, Hq. right. now left.
Qed.

(** C7, as the code has it.  Orientation exists in main.py only.  Its
    preview rotates the source: with "Landscape" selected the raster's
    width and height are swapped before it is fitted, and the target is the
    viewport less 5 pixels on each axis.  Its print path does not: the
    selected orientation is given to the printer's page layout, and every
    page is drawn in [target_rect] of its raster as rendered and the
    printable area the printer then reports.  The other variants never set
    an orientation. *)
Theorem C7_landscape_rotates_preview_source_and_printer_layout :
  forall (w : Collaborators) (d : PrintDialog),
    (forall viewport p q,
       preview_pages d <> [] ->
       scroll_area d = Some viewport ->
       Py.getitem (preview_pages d) (current_preview_index d) = Some p ->
       get_pixmap w p None false = Image q ->
       In (preview_label_setPixmap p
             (pixmap_scaled
                (if String.eqb (orientation_combo d) "Landscape"
                 then transposed (image_size q) else image_size q)
                (mkSize (width viewport - 5) (height viewport - 5))))
          (Main.render_current_preview_page w d)) /\
    layout_orientation (Main.configured_printer d)
    = Some (if String.eqb (orientation_combo d) "Landscape"
            then Landscape else Portrait) /\
    (forall r p,
       In (painter_drawImage r p) (Main.execute_print w d) ->
       exists q,
         Main.print_raster w d (Main.configured_printer d) p = Image q /\
         isNull q = false /\
         r = target_rect (image_size q) (pageRect w (Main.configured_printer d))) /\
    layout_orientation (Main_1.configured_printer d) = None /\
    layout_orientation (Main_2.configured_printer d) = None /\
    layout_orientation (Main_3.configured_printer d) = None.
Proof.
  intros w d. split; [|split; [|split]].
  - intros viewport p q. apply main_preview_pixmap.
  - reflexivity.
  - intros r p. apply main_draws_unrotated.
  - repeat split.
Qed.

Lemma C7_landscape_preview_witness :
  In (preview_label_setPixmap 0
        (pixmap_scaled (transposed (mkSize 100 200)) (mkSize 600 800)))
     (Main.render_current_preview_page landscape_world landscape_dialog).
Proof.
  refine (proj1 (C7_landscape_rotates_preview_source_and_printer_layout
                   landscape_world landscape_dialog)
                (mkSize 605 805) 0 (mkImage (mkSize 100 200) false) _ eq_refl
                eq_refl eq_refl).
  discriminate.
Defined.

(** C7 as stated fails on the print path.  With "Landscape" selected, a
    100 x 200 raster and a 300 x 200 printable area, main.py draws the
    raster unrotated, 100 x 200 at (100, 0); rotating the source first
    would give 300 x 150 at (0, 25).  The preview of the same dialog does
    rotate it, and fits it to the 605 x 805 viewport less 5 pixels. *)
Lemma C7_print_path_leaves_source_unrotated :
  orientation_combo landscape_dialog = "Landscape" /\
  layout_orientation (Main.configured_printer landscape_dialog) = Some Landscape /\
  Main.execute_print landscape_world landscape_dialog
  = [painter_begin_called true;
     load_page 0;
     painter_drawImage (mkRect 100 0 100 200) 0;
     painter_end;
     Main.success] /\
  target_rect (transposed (mkSize 100 200)) (mkSize 300 200)
  = mkRect 0 25 300 150 /\
  Main.render_current_preview_page landscape_world landscape_dialog
  = [load_page 0;
     preview_label_setPixmap 0
       (pixmap_scaled (mkSize 200 100) (mkSize 600 800));
     page_info_label_setText "Page: 1 of 1";
     prev_page_button_setEnabled false;
     next_page_button_setEnabled false].
Proof. repeat split; reflexivity. Qed.

(* ================================================================== *)
(** ** The preview cursor *)
(* ================================================================== *)

Lemma cursor_prev d :
  cursor_in_bounds d -> 0 < current_preview_index d ->
  cursor_in_bounds (set_current_preview_index d (current_preview_index d - 1)).
Proof.
  intros [H0 H] Hpos. split; cbn; [lia|]. intros Hne. specialize (H Hne). lia.
Qed.

Lemma cursor_next d :
  cursor_in_bounds d ->
  current_preview_index d < Z.of_nat (List.length (preview_pages d)) - 1 ->
  cursor_in_bounds (set_current_preview_index d (current_preview_index d + 1)).
Proof. intros [H0 H] Hlt. split; cbn; [lia|]. intros _. lia. Qed.

Lemma cursor_emptied d :
  cursor_in_bounds d -> cursor_in_bounds (set_preview_pages d []).
Proof. intros [H0 _]. split; [exact H0|]. intros H. now elim H. Qed.

Lemma update_keeps_cursor w d :
  cursor_in_bounds d ->
  cursor_in_bounds (fst (Main.update_preview_range w d)) /\
  cursor_in_bounds (fst (Main_2.update_preview_range w d)) /\
  cursor_in_bounds (fst (Main_3.update_preview_range w d)).
Proof.
  intros Hc. unfold Main.update_preview_range, Main_2.update_preview_range,
    Main_3.update_preview_range.
  change (Main_2.generated_pages w (set_preview_pages d []))
    with (Main.generated_pages w d).
  change (Main_3.generated_pages w (set_preview_pages d []))
    with (Main.generated_pages w d).
  change (Main.generated_pages w (set_preview_pages d []))
    with (Main.generated_pages w d).
  destruct (Main.generated_pages w d) as [pages|[| |]]; cbn [fst];
    auto using cursor_reset, cursor_emptied.
Qed.

Ltac keeps_cursor_by prev next render_quiet :=
  unfold keeps_cursor;
  cbn [main_slots main_2_slots main_3_slots slot_update_preview_range
       slot_show_prev_page slot_show_next_page slot_render_current_preview_page];
  split; [|split; [|split]];
  [ intros w d H; split;
    [ apply (update_keeps_cursor w d H) | apply (update_preview_range_calm w d) ]
  | intros w d H; unfold prev;
    destruct (0 <? current_preview_index d) eqn:E; cbn [fst snd];
    [ apply Z.ltb_lt in E; split;
      [ apply (cursor_prev d H E) | apply render_quiet, (cursor_prev d H E) ]
    | split; [exact H | apply quiet_nil] ]
  | intros w d H; unfold next;
    destruct (current_preview_index d
              <? Z.of_nat (List.length (preview_pages d)) - 1) eqn:E;
    cbn [fst snd];
    [ apply Z.ltb_lt in E; split;
      [ apply (cursor_next d H E) | apply render_quiet, (cursor_next d H E) ]
    | split; [exact H | apply quiet_nil] ]
  | intros w d H; now apply render_quiet ].

Lemma main_keeps_cursor : keeps_cursor main_slots.
Proof.
  keeps_cursor_by Main.show_prev_page Main.show_next_page render_quiet_main.
Qed.

Lemma main_2_keeps_cursor : keeps_cursor main_2_slots.
Proof.
  keeps_cursor_by Main_2.show_prev_page Main_2.show_next_page
    render_quiet_main_2.
Qed.

Lemma main_3_keeps_cursor : keeps_cursor main_3_slots.
Proof.
  keeps_cursor_by Main_3.show_prev_page Main_3.show_next_page
    render_quiet_main_3.
Qed.

Section CursorInvariant.

Variable m : preview_slots.
Hypothesis m_keeps : keeps_cursor m.
Variable w : Collaborators.

Lemma handle_keeps_cursor a d :
  cursor_in_bounds d ->
  cursor_in_bounds (fst (handle m w a d)) /\ calm (snd (handle m w a d)).
Proof.
  destruct m_keeps as (Hu & Hp & Hn & Hr). intros Hc.
  destruct a; cbn [handle fst snd].
  - apply Hu. exact Hc.
  - apply Hu. exact Hc.
  - destruct (Hp w d Hc). auto using quiet_calm.
  - destruct (Hn w d Hc). auto using quiet_calm.
  - split; [exact Hc|]. apply quiet_calm, Hr. exact Hc.
  - split; [exact Hc|]. apply quiet_calm, Hr. exact Hc.
Qed.

Lemma run_keeps_cursor actions st :
  cursor_in_bounds (fst st) -> calm (snd st) ->
  cursor_in_bounds (fst (run m w actions st)) /\ calm (snd (run m w actions st)).
Proof.
  revert st. induction actions as [|a rest IH]; intros [d t] Hc Hq; [now split|].
  cbn [run fst snd] in *. destruct (handle_keeps_cursor a d Hc) as [Hc' Hq'].
  destruct (handle m w a d) as [d' t']. apply IH; [exact Hc'|].
  now apply calm_app.
Qed.

Lemma session_keeps_cursor d0 actions :
  cursor_in_bounds (fst (run m w actions (opened m w d0))) /\
  calm (snd (run m w actions (opened m w d0))).
Proof.
  destruct m_keeps as (Hu & _). apply run_keeps_cursor; apply Hu, cursor_reset.
Qed.

End CursorInvariant.

(** A typed range whose run does not fit cuts [update_preview_range]
    short. *)
Lemma unbuildable_cut_short w d ta tb start end_ :
  all_pages_radio d = false ->
  tokens (page_range_edit d) = [ta; tb] ->
  Py.int ta = Some start -> Py.int tb = Some end_ ->
  ~ run_fits w start end_ ->
  cut_short (Main.generated_pages w d) = true.
Proof.
  intros Hr Ht Ha Hb Hn.
  rewrite (generated_two_tokens w d ta tb start end_ Hr Ht Ha Hb).
  destruct (list_range_raises w start end_ Hn) as [-> | ->]; reflexivity.
Qed.

(** C10, as the code has it.  In each variant with a preview, after the
    dialog is opened and after any sequence of range edits, radio toggles,
    "Previous" and "Next" clicks, orientation changes and resizes,
    [0 <= current_preview_index], and
    [current_preview_index < len(preview_pages)] whenever the selection is
    not empty.  Every [update_preview_range] that runs to its end leaves the
    cursor at 0, and it does whenever the range the dialog holds can be
    built; one that is cut short by the exception of a run too long to be
    built leaves the selection empty and the cursor where it was.  So the
    indexing [preview_pages[current_preview_index]] never raises: over a
    whole session no message box is shown by the preview and no exception
    leaves a slot but that one. *)
Theorem C10_preview_cursor_stays_in_bounds :
  forall (w : Collaborators) (d0 d : PrintDialog) (actions : list action),
    (cursor_in_bounds (fst (run main_slots w actions (opened main_slots w d0))) /\
     cursor_in_bounds (fst (run main_2_slots w actions (opened main_2_slots w d0))) /\
     cursor_in_bounds (fst (run main_3_slots w actions (opened main_3_slots w d0)))) /\
    (buildable w d ->
     (current_preview_index (fst (Main.update_preview_range w d)) = 0 /\
      current_preview_index (fst (Main_2.update_preview_range w d)) = 0 /\
      current_preview_index (fst (Main_3.update_preview_range w d)) = 0) /\
     (quiet (snd (Main.update_preview_range w d)) /\
      quiet (snd (Main_2.update_preview_range w d)) /\
      quiet (snd (Main_3.update_preview_range w d)))) /\
    (forall ta tb start end_,
       all_pages_radio d = false ->
       tokens (page_range_edit d) = [ta; tb] ->
       Py.int ta = Some start -> Py.int tb = Some end_ ->
       ~ run_fits w start end_ ->
       exists e,
         Main.update_preview_range w d
         = (set_preview_pages d [], [uncaught (Py.exception_name e)]) /\
         Main_2.update_preview_range w d
         = (set_preview_pages d [], [uncaught (Py.exception_name e)]) /\
         Main_3.update_preview_range w d
         = (set_preview_pages d [], [uncaught (Py.exception_name e)])) /\
    (calm (snd (run main_slots w actions (opened main_slots w d0))) /\
     calm (snd (run main_2_slots w actions (opened main_2_slots w d0))) /\
     calm (snd (run main_3_slots w actions (opened main_3_slots w d0)))).
Proof.
  intros w d0 d actions.
  pose proof (session_keeps_cursor main_slots main_keeps_cursor w d0 actions) as [H1 Q1].
  pose proof (session_keeps_cursor main_2_slots main_2_keeps_cursor w d0 actions) as [H2 Q2].
  pose proof (session_keeps_cursor main_3_slots main_3_keeps_cursor w d0 actions) as [H3 Q3].
  split; [auto|]. split; [|split; [|auto]].
  - intros Hb. apply buildable_completes in Hb.
    split; [|auto using update_preview_range_quiet,
               update_preview_range_quiet_2, update_preview_range_quiet_3].
    unfold Main.update_preview_range, Main_2.update_preview_range,
      Main_3.update_preview_range.
    change (Main_2.generated_pages w (set_preview_pages d []))
      with (Main.generated_pages w d).
    change (Main_3.generated_pages w (set_preview_pages d []))
      with (Main.generated_pages w d).
    change (Main.generated_pages w (set_preview_pages d []))
      with (Main.generated_pages w d).
    destruct (Main.generated_pages w d) as [pages|[| |]];
      try discriminate Hb; repeat split.
  - intros ta tb start end_ Hr Ht Ha Hbb Hn.
    pose proof (unbuildable_cut_short w d ta tb start end_ Hr Ht Ha Hbb Hn) as E.
    destruct (update_preview_range_cut_short w d E) as (e & _ & He).
    exists e. exact He.
Qed.

(** The range "2-4" on 5 pages can be built: the cursor is reset. *)
Lemma C10_reset_witness :
  current_preview_index
    (fst (Main.update_preview_range sample_world
            (set_current_preview_index (dialog_with (Explicit "2-4") 5) 3)))
  = 0.
Proof.
  refine (proj1 (proj1 (proj1 (proj2 (C10_preview_cursor_stays_in_bounds
            sample_world sample_dialog
            (set_current_preview_index (dialog_with (Explicit "2-4") 5) 3)
            [])) _))).
  intros ta tb start end_ _ Htok Ha Hb.
  assert (ta = "2" /\ tb = "4") as [-> ->]
    by (vm_compute in Htok; split; congruence).
  assert (start = 2 /\ end_ = 4) as [-> ->]
    by (vm_compute in Ha, Hb; split; congruence).
  vm_compute. discriminate.
Defined.

(** C10 as stated fails on a recomputation that is cut short.  On a 5-page
    document, after three clicks on "Next" the cursor is 3; the range text
    "1-99999999999999999999" then makes [update_preview_range] raise
    [OverflowError] before its line [self.current_preview_index = 0]: the
    selection is recomputed to the empty list and the cursor is still 3. *)
Lemma C10_cut_short_recomputation_keeps_cursor :
  current_preview_index
    (fst (run main_slots sample_world
            [toggle_all_pages false; click_next; click_next; click_next]
            (opened main_slots sample_world (set_total_pages sample_dialog 5))))
  = 3 /\
  current_preview_index
    (fst (run main_slots sample_world overflowing_session
            (opened main_slots sample_world (set_total_pages sample_dialog 5))))
  = 3 /\
  preview_pages
    (fst (run main_slots sample_world overflowing_session
            (opened main_slots sample_world (set_total_pages sample_dialog 5))))
  = [] /\
  last (snd (run main_slots sample_world overflowing_session
               (opened main_slots sample_world (set_total_pages sample_dialog 5))))
       accept
  = uncaught "OverflowError".
Proof. repeat split; vm_compute; reflexivity. Qed.

(** The steps of the invariant, one slot at a time (main.py). *)
Lemma cursor_steps w d :
  cursor_in_bounds d ->
  cursor_in_bounds (fst (Main.show_prev_page w d)) /\
  cursor_in_bounds (fst (Main.show_next_page w d)) /\
  cursor_in_bounds (fst (Main.update_preview_range w d)).
Proof.
  destruct main_keeps_cursor as (Hu & Hp & Hn & _). intros H.
  split; [apply (Hp w d H)|]. split; [apply (Hn w d H)|]. apply (Hu w d H).
Qed.

Example session_cursor :
  let d := fst (run main_slots sample_world sample_session
                  (opened main_slots sample_world (set_total_pages sample_dialog 5))) in
  preview_pages d = [1; 2; 3] /\ current_preview_index d = 1.
Proof. split; reflexivity. Qed.

Example session_trace_tail :
  snd (Main.show_next_page sample_world
         (fst (run main_slots sample_world
                 [toggle_all_pages false; edit_page_range "2-4"; click_next; click_next]
                 (opened main_slots sample_world (set_total_pages sample_dialog 5)))))
  = [].
Proof. reflexivity. Qed.

(* ================================================================== *)
(** ** [int(str(n))] *)
(* ================================================================== *)

Lemma scan_string_of_uint d acc k :
  Py.scan_digits (NilEmpty.string_of_uint d) false acc k
  = Some (uint_value d acc, (k + N.of_nat (Decimal.nb_digits d))%N).
Proof.
  revert acc k. induction d; intros acc k;
    cbn [NilEmpty.string_of_uint Decimal.nb_digits uint_value];
    [ cbn; f_equal; f_equal; lia | .. ];
    (cbn [Py.scan_digits];
     match goal with
     | |- context [Ascii.eqb ?c "_"] =>
         change (Ascii.eqb c "_") with false;
         let v := eval vm_compute in (Py.digit_value c) in
         change (Py.digit_value c) with v
     end;
     cbv iota; rewrite IHd; f_equal; f_equal; lia).
Qed.

Lemma of_uint_acc_value d acc :
  Zpos (Pos.of_uint_acc d acc) = uint_value d (Zpos acc).
Proof.
  revert acc. induction d; intros acc; cbn [Pos.of_uint_acc uint_value];
    [reflexivity | rewrite IHd; f_equal; lia ..].
Qed.

Lemma of_uint_value d : Z.of_N (Pos.of_uint d) = uint_value d 0.
Proof.
  induction d; cbn [Pos.of_uint uint_value];
    [reflexivity | exact IHd | cbn [Z.of_N]; rewrite of_uint_acc_value; reflexivity ..].
Qed.

Lemma length_string_of_uint d :
  String.length (NilEmpty.string_of_uint d) = Decimal.nb_digits d.
Proof. induction d; cbn; congruence. Qed.

Lemma lstrip_string_of_uint d :
  Py.lstrip (NilEmpty.string_of_uint d) = NilEmpty.string_of_uint d.
Proof. destruct d; reflexivity. Qed.

Lemma rstrip_string_of_uint d :
  Py.rstrip (NilEmpty.string_of_uint d) = NilEmpty.string_of_uint d.
Proof.
  induction d; cbn [NilEmpty.string_of_uint Py.rstrip]; [reflexivity | ..];
    rewrite IHd; destruct (NilEmpty.string_of_uint d); reflexivity.
Qed.

Lemma strip_string_of_uint d :
  Py.strip (NilEmpty.string_of_uint d) = NilEmpty.string_of_uint d.
Proof. unfold Py.strip. now rewrite lstrip_string_of_uint, rstrip_string_of_uint. Qed.

Lemma starts_with_digit_uint d :
  d <> Decimal.Nil -> starts_with_digit (NilEmpty.string_of_uint d) = true.
Proof. destruct d; [congruence | reflexivity ..]. Qed.

Lemma lskip_string_of_uint d :
  Py.lskip (NilEmpty.string_of_uint d) = NilEmpty.string_of_uint d.
Proof. destruct d; reflexivity. Qed.

Lemma rskip_string_of_uint d :
  Py.rskip (NilEmpty.string_of_uint d) = NilEmpty.string_of_uint d.
Proof. apply PyFacts.rskip_fixed, rstrip_string_of_uint. Qed.

(** [int] of a text without white space around it that starts with a
    digit is the digit scan. *)
Lemma int_unsigned s :
  starts_with_digit s = true -> Py.rskip (Py.lskip s) = s ->
  Py.int s =
  match Py.scan_digits s false 0 0 with
  | Some (v, n) => if (Py.max_str_digits <? n)%N then None else Some (1 * v)
  | None => None
  end.
Proof.
  intros Hd Hs. unfold Py.int, Py.literal. rewrite Hs.
  destruct s as [|c s]; [discriminate|]. cbn [starts_with_digit] in Hd.
  destruct c as [[] [] [] [] [] [] [] []]; try discriminate Hd; reflexivity.
Qed.

(** [int] of a minus sign followed by such a text. *)
Lemma int_negative s :
  starts_with_digit s = true -> Py.rskip (Py.lskip s) = s ->
  Py.int (String "-" s) =
  match Py.scan_digits s false 0 0 with
  | Some (v, n) => if (Py.max_str_digits <? n)%N then None else Some (-1 * v)
  | None => None
  end.
Proof.
  intros Hd Hs.
  assert (Hskip : Py.rskip (Py.lskip (String "-" s)) = String "-" s).
  { cbn [Py.lskip]. change (Py.int_isspace "-") with false.
    cbv iota. cbn [Py.rskip].
    assert (Hl : Py.lskip s = s).
    { destruct s as [|c s]; [reflexivity|]. cbn [starts_with_digit] in Hd.
      cbn [Py.lskip].
      destruct c as [[] [] [] [] [] [] [] []]; try discriminate Hd; reflexivity. }
    rewrite Hl in Hs. rewrite Hs. destruct s; [discriminate|reflexivity]. }
  unfold Py.int, Py.literal. rewrite Hskip. cbv iota beta.
  destruct s as [|c s]; [discriminate|]. cbn [starts_with_digit] in Hd.
  destruct c as [[] [] [] [] [] [] [] []]; try discriminate Hd; reflexivity.
Qed.

Lemma int_string_of_uint p :
  (Decimal.nb_digits (Pos.to_uint p) <= 4300)%nat ->
  Py.int (NilEmpty.string_of_uint (Pos.to_uint p)) = Some (Zpos p) /\
  Py.int (String "-" (NilEmpty.string_of_uint (Pos.to_uint p))) = Some (Zneg p).
Proof.
  intros Hlen.
  pose proof (Unsigned.to_uint_nonnil p) as Hnn.
  pose proof (starts_with_digit_uint _ Hnn) as Hd.
  assert (Hs : Py.rskip (Py.lskip (NilEmpty.string_of_uint (Pos.to_uint p)))
               = NilEmpty.string_of_uint (Pos.to_uint p))
    by (now rewrite lskip_string_of_uint, rskip_string_of_uint).
  assert (Hv : uint_value (Pos.to_uint p) 0 = Zpos p).
  { rewrite <- of_uint_value, Unsigned.of_to. reflexivity. }
  assert (Hlim : (Py.max_str_digits
                  <? 0 + N.of_nat (Decimal.nb_digits (Pos.to_uint p)))%N = false).
  { apply N.ltb_ge. unfold Py.max_str_digits. lia. }
  rewrite (int_unsigned _ Hd Hs), (int_negative _ Hd Hs).
  rewrite scan_string_of_uint, Hlim, Hv. split; f_equal; lia.
Qed.

Lemma str_positive p :
  Py.str (Zpos p) = NilEmpty.string_of_uint (Pos.to_uint p).
Proof.
  unfold Py.str. cbn [Z.to_int NilZero.string_of_int].
  pose proof (Unsigned.to_uint_nonnil p) as H. unfold NilZero.string_of_uint.
  destruct (Pos.to_uint p); [now elim H | reflexivity ..].
Qed.

Lemma str_negative p :
  Py.str (Zneg p) = String "-" (NilEmpty.string_of_uint (Pos.to_uint p)).
Proof.
  unfold Py.str. cbn [Z.to_int NilZero.string_of_int].
  pose proof (Unsigned.to_uint_nonnil p) as H. unfold NilZero.string_of_uint.
  destruct (Pos.to_uint p); [now elim H | reflexivity ..].
Qed.

(** [int(str(n)) == n] for every integer whose decimal text has at most
    4300 characters. *)
Lemma int_str n :
  (String.length (Py.str n) <= 4300)%nat -> Py.int (Py.str n) = Some n.
Proof.
  destruct n as [|p|p]; intros Hlen.
  - reflexivity.
  - rewrite str_positive in *. rewrite length_string_of_uint in Hlen.
    now apply int_string_of_uint.
  - rewrite str_negative in *. cbn [String.length] in Hlen.
    rewrite length_string_of_uint in Hlen.
    apply int_string_of_uint. lia.
Qed.

(* ================================================================== *)
(** ** The DPI list *)
(* ================================================================== *)

Lemma findText_In its text :
  In text its ->
  exists i, Combo.findText its text = Some i /\ nth i its EmptyString = text.
Proof.
  induction its as [|x its IH]; [intros []|]. intros Hin. cbn [Combo.findText].
  destruct (String.eqb x text) eqn:E.
  - apply String.eqb_eq in E. exists 0%nat. now split.
  - destruct Hin as [->|Hin]; [now rewrite String.eqb_refl in E|].
    destruct (IH Hin) as (i & Hi & Hn). exists (S i). rewrite Hi. now split.
Qed.

Lemma setCurrentText_present c text :
  In text (Combo.items c) ->
  Combo.currentText (Combo.setCurrentText c text) = text /\
  Combo.items (Combo.setCurrentText c text) = Combo.items c.
Proof.
  intros Hin. destruct (findText_In _ _ Hin) as (i & Hi & Hn).
  unfold Combo.setCurrentText. rewrite Hi. now split.
Qed.

Lemma int_in_spec x xs : int_in x xs = true <-> In x xs.
Proof.
  unfold int_in. rewrite existsb_exists. split.
  - intros (y & Hy & E). apply Z.eqb_eq in E. now subst.
  - intros H. exists x. split; [assumption|apply Z.eqb_refl].
Qed.

(** The DPI the dialog offers is the DPI the printer gets.  After
    [update_dpi_list] has filled the combo box, its current text is one of
    its items and is the decimal text of the chosen resolution: 300 when
    the driver supports it, else 600 when it supports that, else the first
    resolution the driver reports, and 300 from the fallback list when it
    reports none.  [execute_print] converts that text back to exactly this
    number, so the resolution is always set (and main_2.py never shows its
    "Invalid DPI" warning). *)
Theorem dpi_offered_is_dpi_printed :
  forall (supported : list Z) (combo : Combo.QComboBox) (w : Collaborators)
         (d : PrintDialog),
    (forall r, In r supported -> (String.length (Py.str r) <= 4300)%nat) ->
    let c := fill_dpi_combo supported combo in
    let chosen :=
      if int_in 300 supported then 300
      else if int_in 600 supported then 600
      else hd 300 supported in
    let d' := set_dpi_combo d (Combo.currentText c) in
    In (Combo.currentText c) (Combo.items c) /\
    Combo.items c
    = match supported with
      | [] => ["75"; "96"; "150"; "300"; "600"]
      | _ => map Py.str supported
      end /\
    Combo.currentText c = Py.str chosen /\
    (supported <> [] -> In chosen supported) /\
    resolution_set (Main.configured_printer d') = Some chosen /\
    resolution_set (Main_2.configured_printer d') = Some chosen /\
    resolution_set (Main_3.configured_printer d') = Some chosen /\
    Main_2.execute_print w d'
    = Main_2.process_and_print w d' (Main_2.configured_printer d').
Proof.
  intros supported combo w d Hlen c chosen d'.
  assert (H : In (Combo.currentText c) (Combo.items c) /\
              Combo.items c
              = match supported with
                | [] => ["75"; "96"; "150"; "300"; "600"]
                | _ => map Py.str supported
                end /\
              Combo.currentText c = Py.str chosen /\
              (supported <> [] -> In chosen supported) /\
              Py.int (Combo.currentText c) = Some chosen).
  { subst c chosen. unfold fill_dpi_combo.
    destruct supported as [|r rest].
    - cbn. repeat split; auto; try congruence.
    - set (l := r :: rest) in *.
      assert (Hadd : Combo.addItems (Combo.clear combo) (map Py.str l)
                     = Combo.mkCombo (map Py.str l) (Some 0%nat)) by reflexivity.
      rewrite Hadd. clear Hadd.
      destruct (int_in 300 l) eqn:E300.
      + apply int_in_spec in E300.
        destruct (setCurrentText_present
                    (Combo.mkCombo (map Py.str l) (Some 0%nat)) "300")
          as [Hc Hi]; [apply (in_map Py.str l 300 E300)|].
        rewrite Hc, Hi. cbn [Combo.items].
        repeat split; auto. apply (in_map Py.str l 300 E300).
      + destruct (int_in 600 l) eqn:E600.
        * apply int_in_spec in E600.
          destruct (setCurrentText_present
                      (Combo.mkCombo (map Py.str l) (Some 0%nat)) "600")
            as [Hc Hi]; [apply (in_map Py.str l 600 E600)|].
          rewrite Hc, Hi. cbn [Combo.items].
          repeat split; auto. apply (in_map Py.str l 600 E600).
        * cbn [Combo.currentText Combo.currentIndex Combo.items l map nth hd].
          repeat split; auto.
          -- now left.
          -- intros _. now left.
          -- apply int_str, Hlen. now left. }
  destruct H as (H1 & H2 & H3 & H4 & H5).
  repeat split; auto.
  unfold Main_2.execute_print.
  change (dpi_combo d') with (Combo.currentText c). now rewrite H5.
Qed.

Lemma dpi_sample_witness :
  Combo.currentText
    (fill_dpi_combo (sample_resolutions "Office") (Combo.mkCombo [] None))
  = Py.str 600.
Proof.
  pose proof (dpi_offered_is_dpi_printed (sample_resolutions "Office")
                (Combo.mkCombo [] None) sample_world sample_dialog) as H.
  cbv zeta in H. refine (proj1 (proj2 (proj2 (H _)))).
  intros r [<-|[<-|[<-|[]]]]; cbn; lia.
Defined.

Example dpi_fallback :
  Combo.currentText (update_dpi_list (fun _ => []) "Office" (Combo.mkCombo [] None))
  = "300".
Proof. reflexivity. Qed.

Example dpi_first_reported :
  Combo.currentText
    (update_dpi_list (fun _ => [1200; 150]) "Office" (Combo.mkCombo ["72"] (Some 0%nat)))
  = "1200".
Proof. reflexivity. Qed.

Example dpi_no_printer :
  update_dpi_list sample_resolutions "" (Combo.mkCombo [] None)
  = Combo.mkCombo [] None /\
  Combo.currentText
    (update_dpi_list_main_2 (fun _ => []) "" (Combo.mkCombo [] None)) = "300".
Proof. split; reflexivity. Qed.

(* ================================================================== *)
(** ** The selection of a valid range text *)
(* ================================================================== *)

Lemma range_cons lo hi : lo < hi -> Py.range lo hi = lo :: Py.range (lo + 1) hi.
Proof.
  intros H. unfold Py.range.
  replace (Z.to_nat (hi - lo)) with (S (Z.to_nat (hi - (lo + 1)))) by lia.
  cbn [seq map]. f_equal; [lia|].
  rewrite <- seq_shift, map_map. apply map_ext. intros; lia.
Qed.

(** The filter of [update_preview_range] clamps a run to the document. *)
Lemma filter_range_clamp n lo hi :
  filter (fun p => (0 <=? p) && (p <? n)) (Py.range lo hi)
  = Py.range (Z.max lo 0) (Z.min hi n).
Proof.
  remember (Z.to_nat (hi - lo)) as k eqn:Hk. revert lo Hk.
  induction k as [|k IH]; intros lo Hk.
  - rewrite (PyFacts.range_empty lo hi) by lia.
    rewrite PyFacts.range_empty by lia. reflexivity.
  - rewrite (range_cons lo hi) by lia. cbn [filter].
    rewrite (IH (lo + 1)) by lia.
    destruct (0 <=? lo) eqn:E0; destruct (lo <? n) eqn:En; cbn [andb];
      rewrite ?Z.leb_le, ?Z.leb_gt, ?Z.ltb_lt, ?Z.ltb_ge in *.
    + rewrite (range_cons (Z.max lo 0)) by lia.
      f_equal; [lia|]. f_equal; lia.
    + rewrite !PyFacts.range_empty by lia. reflexivity.
    + f_equal; lia.
    + f_equal; lia.
Qed.

Lemma generated_single w d n :
  all_pages_radio d = false ->
  page_range_edit d <> "" ->
  Py.contains "-" (page_range_edit d) = false ->
  Py.int (page_range_edit d) = Some n ->
  Main.generated_pages w d = Py.Returns [n - 1].
Proof.
  intros Hradio Hne Hdash Hint. unfold Main.generated_pages.
  rewrite Hradio, truthy_nonempty by assumption. cbn [orb negb].
  replace (Py.contains "-" (Py.strip (page_range_edit d))) with false
    by (symmetry; unfold Py.strip;
        auto using PyFacts.contains_lstrip, PyFacts.contains_rstrip).
  now rewrite (PyFacts.int_strip_some _ n Hint).
Qed.

(** A range text of two tokens "start-end" that both parse as integers
    selects exactly the pages of the document from [max(start, 1)] to
    [min(end, pageCount)] (1-based), in ascending order - the 0-based run
    from [max(start-1, 0)] up to, not including, [min(end, pageCount)] -
    provided the run from [start-1] to [end-1] is short enough to be built
    as a list.  When it is not, nothing is selected, not even the pages of
    the run that are in the document.  The same selection is computed by
    main_2.py and main_3.py. *)
Theorem dash_range_selects_clamped_run :
  forall (w : Collaborators) (d : PrintDialog) (text ta tb : string)
         (start end_ pageCount : Z),
    tokens text = [ta; tb] ->
    Py.int ta = Some start ->
    Py.int tb = Some end_ ->
    (run_fits w start end_ ->
     Main.resolve w d (Explicit text) pageCount
     = Py.range (Z.max (start - 1) 0) (Z.min end_ pageCount) /\
     Main_2.resolve w d (Explicit text) pageCount
     = Py.range (Z.max (start - 1) 0) (Z.min end_ pageCount) /\
     Main_3.resolve w d (Explicit text) pageCount
     = Py.range (Z.max (start - 1) 0) (Z.min end_ pageCount)) /\
    (~ run_fits w start end_ ->
     Main.resolve w d (Explicit text) pageCount = [] /\
     Main_2.resolve w d (Explicit text) pageCount = [] /\
     Main_3.resolve w d (Explicit text) pageCount = []).
Proof.
  intros w d text ta tb start end_ n Htok Hs He.
  assert (Hgen : Main.generated_pages w
                   (apply_spec (Explicit text) (set_total_pages d n))
                 = Py.list_range (list_capacity w) (start - 1) end_)
    by (apply (generated_two_tokens w _ ta tb start end_); auto).
  split; intros Hfits.
  - assert (H : Main.resolve w d (Explicit text) n
                = Py.range (Z.max (start - 1) 0) (Z.min end_ n)).
    { rewrite resolve_unfold, Hgen, (list_range_fits w start end_ Hfits).
      apply filter_range_clamp. }
    split; [exact H|].
    split; (etransitivity; [|exact H]);
      [apply resolve_main_2 | apply resolve_main_3].
  - assert (H : Main.resolve w d (Explicit text) n = []).
    { rewrite resolve_unfold, Hgen.
      destruct (list_range_raises w start end_ Hfits) as [-> | ->];
        reflexivity. }
    split; [exact H|].
    split; (etransitivity; [|exact H]);
      [apply resolve_main_2 | apply resolve_main_3].
Qed.

Lemma clamped_run_witness :
  Main.resolve sample_world sample_dialog (Explicit "0-9") 4
  = Py.range (Z.max (0 - 1) 0) (Z.min 9 4).
Proof.
  refine (proj1 (proj1 (dash_range_selects_clamped_run sample_world
                          sample_dialog "0-9" "0" "9" 0 9 4
                          eq_refl eq_refl eq_refl) _)).
  vm_compute. discriminate.
Defined.

Example huge_run_selects_nothing :
  Main.resolve sample_world sample_dialog (Explicit huge_range) 5 = [] /\
  Main.resolve sample_world sample_dialog (Explicit "1-5") 5 = [0; 1; 2; 3; 4].
Proof. split; vm_compute; reflexivity. Qed.

(** A range text that is a single valid number [n] selects page [n]
    alone when [1 <= n <= pageCount], and nothing otherwise (zero, a
    negative number, a number past the last page). *)
Theorem single_page_selects_one_or_none :
  forall (w : Collaborators) (d : PrintDialog) (text : string)
         (n pageCount : Z),
    text <> "" ->
    Py.contains "-" text = false ->
    Py.int text = Some n ->
    Main.resolve w d (Explicit text) pageCount
    = (if (1 <=? n) && (n <=? pageCount) then [n - 1] else []) /\
    Main_2.resolve w d (Explicit text) pageCount
    = Main.resolve w d (Explicit text) pageCount /\
    Main_3.resolve w d (Explicit text) pageCount
    = Main.resolve w d (Explicit text) pageCount.
Proof.
  intros w d text n pc Hne Hdash Hint.
  split; [|split; [apply resolve_main_2 | apply resolve_main_3]].
  rewrite resolve_unfold. rewrite (generated_single w _ n) by auto.
  cbn [filter].
  destruct (0 <=? n - 1) eqn:E1; destruct (n - 1 <? pc) eqn:E2;
    destruct (1 <=? n) eqn:E3; destruct (n <=? pc) eqn:E4; cbn [andb];
    rewrite ?Z.leb_le, ?Z.leb_gt, ?Z.ltb_lt, ?Z.ltb_ge in *;
    try reflexivity; lia.
Qed.

Lemma single_page_witness :
  Main.resolve sample_world sample_dialog (Explicit " 3 ") 5
  = (if (1 <=? 3) && (3 <=? 5) then [3 - 1] else []).
Proof.
  refine (proj1 (single_page_selects_one_or_none sample_world sample_dialog
                   " 3 " 3 5 _ eq_refl eq_refl)).
  discriminate.
Defined.

Example resolve_zero_start :
  Main.resolve sample_world sample_dialog (Explicit "0-2") 5 = [0; 1].
Proof. reflexivity. Qed.

(** What is generated depends on the radio button, the text and the page
    count only. *)
Lemma generated_same w d d' :
  all_pages_radio d' = all_pages_radio d ->
  page_range_edit d' = page_range_edit d ->
  total_pages d' = total_pages d ->
  Main.generated_pages w d' = Main.generated_pages w d.
Proof. unfold Main.generated_pages. now intros -> -> ->. Qed.

Ltac runs_twice M :=
  match goal with
  | |- ?upd ?w (fst (?upd ?w ?d)) = _ =>
      let Hg := fresh "Hg" in
      let r := fresh "r" in
      let Hr := fresh "Hr" in
      assert (Hg : Main.generated_pages w (set_preview_pages (fst (upd w d)) [])
                   = Main.generated_pages w d)
        by (apply generated_same; unfold upd;
            change (M w (set_preview_pages d []))
              with (Main.generated_pages w d);
            destruct (Main.generated_pages w d) as [?|[| |]]; reflexivity);
      remember (upd w d) as r eqn:Hr;
      unfold upd;
      change (M w (set_preview_pages (fst r) []))
        with (Main.generated_pages w (set_preview_pages (fst r) []));
      rewrite Hg; subst r; unfold upd;
      change (M w (set_preview_pages d [])) with (Main.generated_pages w d);
      destruct (Main.generated_pages w d) as [?|[| |]]; reflexivity
  end.

(** [update_preview_range] rebuilds the selection from the radio button,
    the text and the page count alone: the previous selection never
    matters, and running it twice is the same as running it once.  The
    previous cursor does not matter either when the method runs to its end,
    as it does whenever the range can be built; when the run of a typed
    range is too long to be built, the method is left before it resets the
    cursor, and the cursor stays where it was. *)
Theorem update_preview_range_rebuilds :
  forall (w : Collaborators) (d : PrintDialog) (pages : list Z) (index : Z),
    Main.update_preview_range w (set_preview_pages d pages)
    = Main.update_preview_range w d /\
    (buildable w d ->
     Main.update_preview_range w
       (set_current_preview_index (set_preview_pages d pages) index)
     = Main.update_preview_range w d) /\
    (forall ta tb start end_,
       all_pages_radio d = false ->
       tokens (page_range_edit d) = [ta; tb] ->
       Py.int ta = Some start -> Py.int tb = Some end_ ->
       ~ run_fits w start end_ ->
       current_preview_index
         (fst (Main.update_preview_range w
                 (set_current_preview_index (set_preview_pages d pages) index)))
       = index) /\
    Main.update_preview_range w (fst (Main.update_preview_range w d))
    = Main.update_preview_range w d /\
    Main_2.update_preview_range w (fst (Main_2.update_preview_range w d))
    = Main_2.update_preview_range w d /\
    Main_3.update_preview_range w (fst (Main_3.update_preview_range w d))
    = Main_3.update_preview_range w d.
Proof.
  intros w d pages index.
  split; [|split; [|split; [|split; [|split]]]].
  - unfold Main.update_preview_range.
    change (Main.generated_pages w
              (set_preview_pages (set_preview_pages d pages) []))
      with (Main.generated_pages w d).
    change (Main.generated_pages w (set_preview_pages d [])) with
      (Main.generated_pages w d).
    destruct (Main.generated_pages w d) as [?|[| |]]; reflexivity.
  - intros Hb. apply buildable_completes in Hb.
    unfold Main.update_preview_range.
    change (Main.generated_pages w
              (set_preview_pages
                 (set_current_preview_index (set_preview_pages d pages) index) []))
      with (Main.generated_pages w d).
    change (Main.generated_pages w (set_preview_pages d [])) with
      (Main.generated_pages w d).
    destruct (Main.generated_pages w d) as [?|[| |]];
      try discriminate Hb; reflexivity.
  - intros ta tb start end_ Hr Ht Ha Hbb Hn.
    pose proof (unbuildable_cut_short w d ta tb start end_ Hr Ht Ha Hbb Hn) as E.
    unfold Main.update_preview_range.
    change (Main.generated_pages w
              (set_preview_pages
                 (set_current_preview_index (set_preview_pages d pages) index) []))
      with (Main.generated_pages w d).
    destruct (Main.generated_pages w d) as [?|[| |]];
      try discriminate E; reflexivity.
  - runs_twice Main.generated_pages.
  - runs_twice Main_2.generated_pages.
  - runs_twice Main_3.generated_pages.
Qed.

(** The range "2-4" on 5 pages: the previous selection and cursor do not
    matter. *)
Lemma rebuilds_witness :
  Main.update_preview_range sample_world
    (set_current_preview_index
       (set_preview_pages (dialog_with (Explicit "2-4") 5) [4; 0]) 7)
  = Main.update_preview_range sample_world (dialog_with (Explicit "2-4") 5).
Proof.
  refine (proj1 (proj2 (update_preview_range_rebuilds sample_world
                          (dialog_with (Explicit "2-4") 5) [4; 0] 7)) _).
  intros ta tb start end_ _ Htok Ha Hb.
  assert (ta = "2" /\ tb = "4") as [-> ->]
    by (vm_compute in Htok; split; congruence).
  assert (start = 2 /\ end_ = 4) as [-> ->]
    by (vm_compute in Ha, Hb; split; congruence).
  vm_compute. discriminate.
Defined.

(* ================================================================== *)
(** ** The document over a session *)
(* ================================================================== *)

Lemma getitem_In {A} (l : list A) (i : Z) (a : A) :
  Py.getitem l i = Some a -> In a l.
Proof.
  unfold Py.getitem. destruct (_ && _); [apply nth_error_In|].
  destruct (_ && _); [apply nth_error_In | discriminate].
Qed.

Ltac loads_selected Hget :=
  cbn [loaded_pages app]; rewrite ?loaded_pages_app; cbn [loaded_pages app];
  intros x [<-|[]]; exact (getitem_In _ _ _ Hget).

Lemma render_loads_selected_main w d :
  incl (loaded_pages (Main.render_current_preview_page w d)) (preview_pages d).
Proof.
  unfold Main.render_current_preview_page.
  destruct (preview_pages d) as [|p0 l] eqn:Hp; [intros x []|].
  destruct (scroll_area d); [|intros x []].
  destruct (Py.getitem (p0 :: l) (current_preview_index d)) as [p|] eqn:Hget;
    [|intros x []].
  destruct (get_pixmap w p None false); loads_selected Hget.
Qed.

Lemma render_loads_selected_main_2 w d :
  incl (loaded_pages (Main_2.render_current_preview_page w d)) (preview_pages d).
Proof.
  unfold Main_2.render_current_preview_page.
  destruct (preview_pages d) as [|p0 l] eqn:Hp; [intros x []|].
  destruct (Py.getitem (p0 :: l) (current_preview_index d)) as [p|] eqn:Hget;
    [|intros x []].
  destruct (get_pixmap w p None false); loads_selected Hget.
Qed.

Lemma render_loads_selected_main_3 w d :
  incl (loaded_pages (Main_3.render_current_preview_page w d)) (preview_pages d).
Proof.
  unfold Main_3.render_current_preview_page.
  destruct (preview_pages d) as [|p0 l] eqn:Hp; [intros x []|].
  destruct (Py.getitem (p0 :: l) (current_preview_index d)) as [p|] eqn:Hget;
    [|intros x []].
  destruct (get_pixmap w p None false); [loads_selected Hget|].
  destruct (scroll_area d); loads_selected Hget.
Qed.

Lemma filtered_in_document d pages :
  selection_in_document
    (set_current_preview_index
       (set_preview_pages d (filter (Main.in_bounds d) pages)) 0).
Proof.
  unfold selection_in_document. cbn. apply Forall_forall. intros p Hp.
  apply filter_In in Hp as [_ Hp]. unfold Main.in_bounds in Hp.
  apply andb_true_iff in Hp. now rewrite Z.leb_le, Z.ltb_lt in Hp.
Qed.

Ltac keeps_document_by upd prev next render_loads :=
  unfold keeps_document;
  cbn [main_slots main_2_slots main_3_slots slot_update_preview_range
       slot_show_prev_page slot_show_next_page slot_render_current_preview_page];
  split; [|split; [|split; [|split]]];
  [ intros w d; unfold upd;
    match goal with
    | |- context [match ?g with Py.Returns _ => _ | Py.Raise _ => _ end] =>
        destruct g as [?|[| |]]
    end;
    cbn [fst]; (split; [reflexivity|]);
    [ apply (filtered_in_document (set_preview_pages d []))
    | unfold selection_in_document; cbn; constructor .. ]
  | intros w d; unfold prev;
    destruct (0 <? current_preview_index d); cbn [fst snd];
    (split; [reflexivity|]); (split; [reflexivity|]);
    [ apply (render_loads w
               (set_current_preview_index d (current_preview_index d - 1)))
    | intros x [] ]
  | intros w d; unfold next;
    destruct (current_preview_index d
              <? Z.of_nat (List.length (preview_pages d)) - 1); cbn [fst snd];
    (split; [reflexivity|]); (split; [reflexivity|]);
    [ apply (render_loads w
               (set_current_preview_index d (current_preview_index d + 1)))
    | intros x [] ]
  | intros w d; apply render_loads
  | intros w d; unfold upd;
    match goal with
    | |- context [match ?g with Py.Returns _ => _ | Py.Raise _ => _ end] =>
        destruct g as [?|[| |]]
    end;
    cbn [fst snd]; solve [apply render_loads | intros x []] ].

Lemma main_keeps_document : keeps_document main_slots.
Proof.
  keeps_document_by Main.update_preview_range Main.show_prev_page
    Main.show_next_page render_loads_selected_main.
Qed.

Lemma main_2_keeps_document : keeps_document main_2_slots.
Proof.
  keeps_document_by Main_2.update_preview_range Main_2.show_prev_page
    Main_2.show_next_page render_loads_selected_main_2.
Qed.

Lemma main_3_keeps_document : keeps_document main_3_slots.
Proof.
  keeps_document_by Main_3.update_preview_range Main_3.show_prev_page
    Main_3.show_next_page render_loads_selected_main_3.
Qed.

Section DocumentInvariant.

Variable m : preview_slots.
Hypothesis m_keeps : keeps_document m.
Variable w : Collaborators.

(** A dialog with its trace so far: the selection lies in the document and
    so does every page the trace asked the document for. *)
Let inside (n : Z) (st : PrintDialog * list event) : Prop :=
  total_pages (fst st) = n /\
  selection_in_document (fst st) /\
  Forall (fun p => 0 <= p < n) (loaded_pages (snd st)).

Lemma incl_in_document d l :
  selection_in_document d -> incl l (preview_pages d) ->
  Forall (fun p => 0 <= p < total_pages d) l.
Proof.
  intros Hs Hi. apply Forall_forall. intros p Hp.
  unfold selection_in_document in Hs. rewrite Forall_forall in Hs. auto.
Qed.

Lemma handle_inside n a d :
  total_pages d = n -> selection_in_document d ->
  total_pages (fst (handle m w a d)) = n /\
  selection_in_document (fst (handle m w a d)) /\
  Forall (fun p => 0 <= p < n) (loaded_pages (snd (handle m w a d))).
Proof.
  destruct m_keeps as (Hu & Hp & Hn & Hr & Hul). intros Ht Hs. subst n.
  destruct a; cbn [handle fst snd].
  - destruct (Hu w (set_all_pages_radio d checked)) as [H1 H2].
    split; [exact H1|]. split; [exact H2|].
    change (total_pages d) with (total_pages (set_all_pages_radio d checked)).
    rewrite <- H1. apply incl_in_document; [exact H2 | apply Hul].
  - destruct (Hu w (set_page_range_edit d text)) as [H1 H2].
    split; [exact H1|]. split; [exact H2|].
    change (total_pages d) with (total_pages (set_page_range_edit d text)).
    rewrite <- H1. apply incl_in_document; [exact H2 | apply Hul].
  - destruct (Hp w d) as (H1 & H2 & H3). split; [exact H1|].
    split; [unfold selection_in_document; now rewrite H1, H2|].
    now apply incl_in_document.
  - destruct (Hn w d) as (H1 & H2 & H3). split; [exact H1|].
    split; [unfold selection_in_document; now rewrite H1, H2|].
    now apply incl_in_document.
  - split; [reflexivity|]. split; [exact Hs|].
    apply (incl_in_document (set_orientation_combo d text)); [exact Hs | apply Hr].
  - split; [reflexivity|]. split; [exact Hs|].
    apply (incl_in_document (set_scroll_area d (Some viewport)));
      [exact Hs | apply Hr].
Qed.

Lemma run_inside n actions st :
  inside n st -> inside n (run m w actions st).
Proof.
  revert st. induction actions as [|a rest IH]; intros [d t] (Ht & Hs & Hl);
    [now repeat split|].
  cbn [run fst snd] in *.
  destruct (handle_inside n a d Ht Hs) as (Ht' & Hs' & Hl').
  destruct (handle m w a d) as [d' t']. cbn [fst snd] in *.
  apply IH. repeat split; auto. cbn [snd].
  rewrite loaded_pages_app. apply Forall_app. now split.
Qed.

Lemma session_inside fitz_open d0 actions :
  inside (total_pages (loaded_dialog (load_document fitz_open (set_total_pages d0 0))))
         (session m w fitz_open d0 actions).
Proof.
  unfold session. apply run_inside. unfold constructed, opened.
  set (l := load_document fitz_open (set_total_pages d0 0)).
  destruct m_keeps as (Hu & _ & _ & _ & Hul).
  set (d1 := set_current_preview_index (set_preview_pages (loaded_dialog l) []) 0).
  destruct (Hu w d1) as [H1 H2]. specialize (Hul w d1).
  destruct (slot_update_preview_range m w d1) as [d t]. cbn [fst snd] in *.
  assert (Hload : loaded_pages (loaded_events l) = []).
  { subst l. unfold load_document, failed_to_load.
    destruct (Py.endswith _ _); [destruct (fitz_open _)|]; reflexivity. }
  repeat split; auto. cbn [snd]. rewrite loaded_pages_app, Hload. cbn [app].
  change (total_pages (loaded_dialog l)) with (total_pages d1).
  rewrite <- H1. now apply incl_in_document.
Qed.

End DocumentInvariant.

Lemma load_document_total fitz_open d0 :
  0 <= total_pages (loaded_dialog (load_document fitz_open (set_total_pages d0 0))).
Proof.
  unfold load_document, failed_to_load.
  destruct (Py.endswith _ _); [destruct (fitz_open _)|]; cbn; lia.
Qed.

Lemma print_loads_selected_main w d printer :
  incl (loaded_pages (Main.process_and_print w d printer)) (preview_pages d).
Proof.
  unfold Main.process_and_print.
  destruct (preview_pages d) as [|p0 l] eqn:Hp; [intros x []|].
  destruct (negb _); [intros x []|].
  match goal with
  | |- context [print_loop ?a ?f ?g ?h ?n ?i ?pages] =>
      destruct (print_loop_sound a f g h main_reports n i pages) as (Hl & _);
      destruct (print_loop a f g h n i pages) as [t ex]
  end.
  cbn [fst] in Hl. rewrite Forall_forall in Hl.
  destruct ex; cbn [loaded_pages]; rewrite loaded_pages_app;
    cbn [loaded_pages]; rewrite app_nil_r; intros x Hx; now apply Hl.
Qed.

Lemma print_loads_selected_main_2 w d printer :
  incl (loaded_pages (Main_2.process_and_print w d printer)) (preview_pages d).
Proof.
  unfold Main_2.process_and_print.
  destruct (preview_pages d) as [|p0 l] eqn:Hp; [intros x []|].
  destruct (negb _); [intros x []|].
  match goal with
  | |- context [print_loop ?a ?f ?g ?h ?n ?i ?pages] =>
      destruct (print_loop_sound a f g h main_2_reports n i pages) as (Hl & _);
      destruct (print_loop a f g h n i pages) as [t ex]
  end.
  cbn [fst] in Hl. rewrite Forall_forall in Hl.
  destruct ex; cbn [loaded_pages]; rewrite loaded_pages_app;
    cbn [loaded_pages]; rewrite app_nil_r; intros x Hx; now apply Hl.
Qed.

Lemma print_loads_selected_main_3 w d printer :
  incl (loaded_pages (Main_3.process_and_print w d printer)) (preview_pages d).
Proof.
  unfold Main_3.process_and_print.
  destruct (preview_pages d) as [|p0 l] eqn:Hp; [intros x []|].
  destruct (negb _); [intros x []|].
  match goal with
  | |- context [print_loop ?a ?f ?g ?h ?n ?i ?pages] =>
      destruct (print_loop_sound a f g h main_3_reports n i pages) as (Hl & _);
      destruct (print_loop a f g h n i pages) as [t ex]
  end.
  cbn [fst] in Hl. rewrite Forall_forall in Hl.
  destruct ex; cbn [loaded_pages]; rewrite loaded_pages_app;
    cbn [loaded_pages]; rewrite app_nil_r; intros x Hx; now apply Hl.
Qed.

(** Over a whole session -- construction on any file, then any sequence
    of user actions -- the page count stays what [load_document] found, the
    selection stays inside the document, and every page the preview or the
    print job asks the document for is a page of the document.  This holds
    in the three variants with a preview. *)
Theorem session_asks_only_for_pages_of_the_document :
  forall (w : Collaborators) (fitz_open : string -> open_result)
         (d0 : PrintDialog) (actions : list action) (printer : QPrinter),
    let n := total_pages
               (loaded_dialog (load_document fitz_open (set_total_pages d0 0))) in
    0 <= n /\
    (let st := session main_slots w fitz_open d0 actions in
     total_pages (fst st) = n /\
     selection_in_document (fst st) /\
     Forall (fun p => 0 <= p < n) (loaded_pages (snd st)) /\
     Forall (fun p => 0 <= p < n)
       (loaded_pages (Main.process_and_print w (fst st) printer))) /\
    (let st := session main_2_slots w fitz_open d0 actions in
     total_pages (fst st) = n /\
     selection_in_document (fst st) /\
     Forall (fun p => 0 <= p < n) (loaded_pages (snd st)) /\
     Forall (fun p => 0 <= p < n)
       (loaded_pages (Main_2.process_and_print w (fst st) printer))) /\
    (let st := session main_3_slots w fitz_open d0 actions in
     total_pages (fst st) = n /\
     selection_in_document (fst st) /\
     Forall (fun p => 0 <= p < n) (loaded_pages (snd st)) /\
     Forall (fun p => 0 <= p < n)
       (loaded_pages (Main_3.process_and_print w (fst st) printer))).
Proof.
  intros w fitz_open d0 actions printer n.
  split; [apply load_document_total|].
  pose proof (session_inside main_slots main_keeps_document w fitz_open d0 actions)
    as (T1 & S1 & L1).
  pose proof (session_inside main_2_slots main_2_keeps_document w fitz_open d0 actions)
    as (T2 & S2 & L2).
  pose proof (session_inside main_3_slots main_3_keeps_document w fitz_open d0 actions)
    as (T3 & S3 & L3).
  fold n in T1, T2, T3, L1, L2, L3. cbv zeta.
  split; [|split].
  - repeat (split; [assumption|]). rewrite <- T1.
    apply incl_in_document; [exact S1 | apply print_loads_selected_main].
  - repeat (split; [assumption|]). rewrite <- T2.
    apply incl_in_document; [exact S2 | apply print_loads_selected_main_2].
  - repeat (split; [assumption|]). rewrite <- T3.
    apply incl_in_document; [exact S3 | apply print_loads_selected_main_3].
Qed.

Lemma refused_when_no_page d :
  total_pages d = 0 -> selection_in_document d -> preview_pages d = [].
Proof.
  unfold selection_in_document. intros Ht Hs. rewrite Ht in Hs.
  destruct (preview_pages d) as [|p l]; [reflexivity|].
  inversion Hs; subst. lia.
Qed.

Lemma load_failure fitz_open d0 :
  Py.endswith (Py.lower (file_path d0)) ".pdf" = false \/
  (exists e, fitz_open (file_path d0) = OpenRaises e) ->
  exists msg,
    load_document fitz_open (set_total_pages d0 0)
    = failed_to_load (set_total_pages d0 0) msg.
Proof.
  unfold load_document.
  change (file_path (set_total_pages d0 0)) with (file_path d0).
  intros [H|[e H]].
  - rewrite H. eauto.
  - rewrite H. destruct (Py.endswith _ _); eauto.
Qed.

(** A file that is not a PDF, or a PDF the document library cannot open,
    never reaches the printer in the variants with a preview.
    [load_document] shows one "Error" box and asks the dialog to close; the
    page count stays 0, so whatever the user then does the selection is
    empty and printing is refused with "No Pages Selected".  In main_1.py a
    file that is not a PDF is refused with "Not Implemented", and no page
    of a PDF that could not be opened is ever drawn. *)
Theorem unloadable_file_is_never_printed :
  forall (w : Collaborators) (fitz_open : string -> open_result)
         (d0 : PrintDialog) (actions : list action) (printer : QPrinter),
    Py.endswith (Py.lower (file_path d0)) ".pdf" = false \/
    (exists e, fitz_open (file_path d0) = OpenRaises e) ->
    (exists msg,
       loaded_events (load_document fitz_open (set_total_pages d0 0))
       = [QMessageBox_critical "Error" ("Failed to load document: " ++ msg)%string]) /\
    close_called (load_document fitz_open (set_total_pages d0 0)) = true /\
    (let d := fst (session main_slots w fitz_open d0 actions) in
     preview_pages d = [] /\
     Main.execute_print w d = [Main.no_pages_selected]) /\
    (let d := fst (session main_2_slots w fitz_open d0 actions) in
     preview_pages d = [] /\
     Main_2.process_and_print w d printer = [Main_2.no_pages_selected]) /\
    (let d := fst (session main_3_slots w fitz_open d0 actions) in
     preview_pages d = [] /\
     Main_3.execute_print w d = [Main_3.no_pages_selected]) /\
    (Py.endswith (Py.lower (file_path d0)) ".pdf" = false ->
     Main_1.process_and_print w
       (loaded_dialog (load_document fitz_open (set_total_pages d0 0))) printer
     = [QMessageBox_warning "Not Implemented"
          "Printing is only supported for PDF files."]) /\
    drawn_pages
      (Main_1.process_and_print w
         (loaded_dialog (load_document fitz_open (set_total_pages d0 0))) printer)
    = [].
Proof.
  intros w fitz_open d0 actions printer Hbad.
  destruct (load_failure fitz_open d0 Hbad) as [msg Hl].
  assert (Hn : total_pages
                 (loaded_dialog (load_document fitz_open (set_total_pages d0 0)))
               = 0) by (now rewrite Hl).
  pose proof (session_inside main_slots main_keeps_document w fitz_open d0 actions)
    as (T1 & S1 & _).
  pose proof (session_inside main_2_slots main_2_keeps_document w fitz_open d0 actions)
    as (T2 & S2 & _).
  pose proof (session_inside main_3_slots main_3_keeps_document w fitz_open d0 actions)
    as (T3 & S3 & _).
  rewrite Hn in T1, T2, T3.
  pose proof (refused_when_no_page _ T1 S1) as P1.
  pose proof (refused_when_no_page _ T2 S2) as P2.
  pose proof (refused_when_no_page _ T3 S3) as P3.
  split; [exists msg; now rewrite Hl|].
  split; [now rewrite Hl|]. cbv zeta.
  split; [split; [exact P1 | apply (empty_selection_refused w _ _ P1)]|].
  split; [split; [exact P2 | apply (empty_selection_refused w _ _ P2)]|].
  split; [split; [exact P3 | apply (empty_selection_refused w _ _ P3)]|].
  split.
  - intros Hpdf. rewrite Hl. unfold Main_1.process_and_print.
    change (file_path (loaded_dialog (failed_to_load (set_total_pages d0 0) msg)))
      with (file_path d0). now rewrite Hpdf.
  - pose proof (proj2 (main_1_draws_inside_document w
                  (loaded_dialog (load_document fitz_open (set_total_pages d0 0)))
                  printer)) as Hd.
    rewrite Hn in Hd.
    destruct (drawn_pages _) as [|p l]; [reflexivity|].
    inversion Hd; subst. lia.
Qed.

Lemma broken_pdf_witness :
  preview_pages
    (fst (session main_slots sample_world broken_pdf sample_dialog
            [toggle_all_pages false; edit_page_range "1-3"; click_next])) = [].
Proof.
  refine (proj1 (proj1 (proj2 (proj2
            (unloadable_file_is_never_printed sample_world broken_pdf
               sample_dialog
               [toggle_all_pages false; edit_page_range "1-3"; click_next]
               (Main.configured_printer sample_dialog) _))))).
  right. exists (OtherException "cannot open broken document"). reflexivity.
Defined.

Example five_page_session :
  let st := session main_slots sample_world five_pages sample_dialog
              [toggle_all_pages false; edit_page_range "2-9"; click_next] in
  preview_pages (fst st) = [1; 2; 3; 4] /\
  current_preview_index (fst st) = 1 /\
  loaded_pages (snd st) = [0; 0; 1; 2].
Proof. repeat split; reflexivity. Qed.

(* ================================================================== *)
(** ** Walking through the preview *)
(* ================================================================== *)

Lemma show_next_state w d :
  fst (Main.show_next_page w d)
  = if current_preview_index d <? Z.of_nat (List.length (preview_pages d)) - 1
    then set_current_preview_index d (current_preview_index d + 1) else d.
Proof. unfold Main.show_next_page. now destruct (_ <? _). Qed.

Lemma show_prev_state w d :
  fst (Main.show_prev_page w d)
  = if 0 <? current_preview_index d
    then set_current_preview_index d (current_preview_index d - 1) else d.
Proof. unfold Main.show_prev_page. now destruct (_ <? _). Qed.

Lemma set_index_same d : set_current_preview_index d (current_preview_index d) = d.
Proof. now destruct d. Qed.

Lemma set_index_twice d i j :
  set_current_preview_index (set_current_preview_index d i) j
  = set_current_preview_index d j.
Proof. reflexivity. Qed.

(** [k] clicks on "Next" move the cursor forward by [k], but never past
    the last page of the selection; [k] clicks on "Previous" move it back
    by [k], but never before the first.  The selection is left alone.  The
    slots of main_2.py and main_3.py change the dialog in the same way. *)
Theorem clicks_move_cursor_and_saturate :
  forall (w : Collaborators) (d : PrintDialog) (k : nat),
    cursor_in_bounds d ->
    preview_pages d <> [] ->
    (current_preview_index (next_clicks w k d)
     = Z.min (current_preview_index d + Z.of_nat k)
             (Z.of_nat (List.length (preview_pages d)) - 1) /\
     preview_pages (next_clicks w k d) = preview_pages d) /\
    (current_preview_index (prev_clicks w k d)
     = Z.max (current_preview_index d - Z.of_nat k) 0 /\
     preview_pages (prev_clicks w k d) = preview_pages d) /\
    fst (Main_2.show_next_page w d) = fst (Main.show_next_page w d) /\
    fst (Main_3.show_next_page w d) = fst (Main.show_next_page w d) /\
    fst (Main_2.show_prev_page w d) = fst (Main.show_prev_page w d) /\
    fst (Main_3.show_prev_page w d) = fst (Main.show_prev_page w d).
Proof.
  intros w d k Hc Hne. split; [|split].
  - revert d Hc Hne. induction k as [|k IH]; intros d [H0 Hlt] Hne.
    + cbn [next_clicks]. specialize (Hlt Hne). split; [lia|reflexivity].
    + cbn [next_clicks]. rewrite show_next_state. specialize (Hlt Hne).
      destruct (_ <? _) eqn:E.
      * apply Z.ltb_lt in E.
        destruct (IH (set_current_preview_index d (current_preview_index d + 1)))
          as [Hi Hp]; [split; cbn; lia | exact Hne |].
        cbn [current_preview_index preview_pages set_current_preview_index] in *.
        split; [rewrite Hi; lia | exact Hp].
      * apply Z.ltb_ge in E.
        destruct (IH d) as [Hi Hp]; [split; auto | exact Hne |].
        split; [rewrite Hi; lia | exact Hp].
  - clear Hne. destruct Hc as [H0 _]. revert d H0.
    induction k as [|k IH]; intros d H0.
    + cbn [prev_clicks]. split; [lia|reflexivity].
    + cbn [prev_clicks]. rewrite show_prev_state.
      destruct (_ <? _) eqn:E.
      * apply Z.ltb_lt in E.
        destruct (IH (set_current_preview_index d (current_preview_index d - 1)))
          as [Hi Hp]; [cbn; lia|].
        cbn [current_preview_index preview_pages set_current_preview_index] in *.
        split; [rewrite Hi; lia | exact Hp].
      * apply Z.ltb_ge in E. destruct (IH d H0) as [Hi Hp].
        split; [rewrite Hi; lia | exact Hp].
  - unfold Main_2.show_next_page, Main_3.show_next_page, Main.show_next_page,
      Main_2.show_prev_page, Main_3.show_prev_page, Main.show_prev_page.
    destruct (_ <? _); destruct (0 <? _); auto.
Qed.

Lemma clicks_witness :
  current_preview_index
    (next_clicks sample_world 7
       (fst (Main.update_preview_range sample_world (dialog_with (Explicit "2-4") 5))))
  = Z.min (0 + Z.of_nat 7) (Z.of_nat 3 - 1).
Proof.
  refine (proj1 (proj1 (clicks_move_cursor_and_saturate sample_world
            (fst (Main.update_preview_range sample_world
                    (dialog_with (Explicit "2-4") 5))) 7 _ _))).
  - split; [vm_compute; discriminate | intros _; vm_compute; reflexivity].
  - vm_compute. discriminate.
Defined.

(** "Previous" undoes "Next" and "Next" undoes "Previous": when a click
    moves the cursor, the opposite click restores the dialog exactly. *)
Theorem previous_and_next_are_inverse :
  forall (w : Collaborators) (d : PrintDialog),
    0 <= current_preview_index d ->
    (current_preview_index d < Z.of_nat (List.length (preview_pages d)) - 1 ->
     fst (Main.show_prev_page w (fst (Main.show_next_page w d))) = d) /\
    (0 < current_preview_index d < Z.of_nat (List.length (preview_pages d)) ->
     fst (Main.show_next_page w (fst (Main.show_prev_page w d))) = d).
Proof.
  intros w d H0. split.
  - intros Hlt. rewrite show_next_state.
    replace (_ <? _) with true by (symmetry; apply Z.ltb_lt; lia).
    rewrite show_prev_state.
    cbn [current_preview_index set_current_preview_index].
    replace (0 <? current_preview_index d + 1) with true
      by (symmetry; apply Z.ltb_lt; lia).
    rewrite set_index_twice.
    replace (current_preview_index d + 1 - 1) with (current_preview_index d) by lia.
    apply set_index_same.
  - intros [Hpos Hlt]. rewrite show_prev_state.
    replace (0 <? _) with true by (symmetry; apply Z.ltb_lt; lia).
    rewrite show_next_state.
    cbn [current_preview_index preview_pages set_current_preview_index].
    replace (current_preview_index d - 1
             <? Z.of_nat (List.length (preview_pages d)) - 1) with true
      by (symmetry; apply Z.ltb_lt; lia).
    rewrite set_index_twice.
    replace (current_preview_index d - 1 + 1) with (current_preview_index d) by lia.
    apply set_index_same.
Qed.

Lemma previous_next_witness :
  fst (Main.show_prev_page sample_world
         (fst (Main.show_next_page sample_world
                 (fst (Main.update_preview_range sample_world (dialog_with All 3))))))
  = fst (Main.update_preview_range sample_world (dialog_with All 3)).
Proof.
  refine (proj1 (previous_and_next_are_inverse sample_world
            (fst (Main.update_preview_range sample_world (dialog_with All 3))) _) _);
    vm_compute; [discriminate | reflexivity].
Defined.

(* ================================================================== *)
(** ** Sheets, failures and outcomes of a print job *)
(* ================================================================== *)

Lemma page_advances_app t1 t2 :
  page_advances (t1 ++ t2) = (page_advances t1 + page_advances t2)%nat.
Proof.
  induction t1 as [|e t1 IH]; [reflexivity|].
  destruct e; cbn [app page_advances]; rewrite IH; reflexivity.
Qed.

Lemma skip_reports_advance_nothing t :
  (forall e, In e t -> is_skip_report e = true) -> page_advances t = 0%nat.
Proof.
  induction t as [|e t IH]; [reflexivity|]. intros H.
  specialize (IH (fun e' He' => H e' (or_intror He'))).
  specialize (H e (or_introl eq_refl)). destruct e; try discriminate; exact IH.
Qed.

Lemma count_app f t1 t2 : count f (t1 ++ t2) = (count f t1 + count f t2)%nat.
Proof. unfold count. now rewrite filter_app, length_app. Qed.

Lemma filter_removelast_last {A} (f : A -> bool) (l : list A) (x : A) :
  l <> [] ->
  filter f l = filter f (removelast l) ++ (if f (last l x) then [last l x] else []).
Proof.
  intros Hne. rewrite (app_removelast_last x Hne) at 1.
  rewrite filter_app. reflexivity.
Qed.

Lemma filter_nothing {A} (f : A -> bool) (l : list A) :
  (forall x, In x l -> f x = false) -> filter f l = [].
Proof.
  induction l as [|x l IH]; intros H; [reflexivity|].
  cbn [filter]. rewrite (H x (or_introl eq_refl)).
  apply IH. intros y Hy. apply H. now right.
Qed.

Lemma filter_is_drawn_cons in_document render (p : Z) l :
  filter (is_drawn in_document render) (p :: l)
  = if in_document p && negb (renders_null render p)
    then p :: filter (is_drawn in_document render) l
    else filter (is_drawn in_document render) l.
Proof. reflexivity. Qed.

Section PrintLoopSheets.

Variable page_rect : QSize.
Variable in_document : Z -> bool.
Variable render : Z -> pixmap_result.
Variable report_null : Z -> list event.
Hypothesis report_null_reports :
  forall p e, In e (report_null p) -> is_skip_report e = true.

Local Abbreviation loop := (print_loop page_rect in_document render report_null).

(** A page advance follows each drawing, except a drawing at the very last
    position of the selection. *)
Lemma print_loop_advances n i pages :
  (forall p, In p pages -> in_document p = true -> exists q, render p = Image q) ->
  n = i + Z.of_nat (List.length pages) ->
  page_advances (fst (loop n i pages))
  = List.length (filter (is_drawn in_document render) (removelast pages)).
Proof.
  revert i. induction pages as [|p rest IH]; intros i Hr Hn; [reflexivity|].
  assert (IH' := IH (i + 1) (fun p0 H => Hr p0 (or_intror H))). clear IH.
  assert (Hrest : rest = [] \/ rest <> []) by (destruct rest; auto; right; discriminate).
  assert (Hcond : (i <? n - 1) = match rest with [] => false | _ => true end).
  { destruct rest; cbn [List.length] in Hn;
      [apply Z.ltb_ge | apply Z.ltb_lt]; lia. }
  assert (Hrl : removelast (p :: rest)
                = match rest with [] => [] | _ => p :: removelast rest end)
    by (destruct rest; reflexivity).
  rewrite Hrl. cbn [List.length] in Hn.
  specialize (IH' ltac:(lia)).
  destruct (in_document p) eqn:Hin.
  - destruct (Hr p (or_introl eq_refl) Hin) as [q Hq].
    destruct (isNull q) eqn:Hnull.
    + assert (Hren : renders_null render p = true)
        by (unfold renders_null; now rewrite Hq).
      rewrite (print_loop_null_page page_rect in_document render report_null
                 n i p rest Hin Hren).
      cbn [fst page_advances]. rewrite page_advances_app.
      rewrite (skip_reports_advance_nothing (report_null p))
        by apply report_null_reports.
      rewrite IH'. destruct rest; [reflexivity|].
      rewrite filter_is_drawn_cons, Hin, Hren. reflexivity.
    + assert (Hren : renders_null render p = false)
        by (unfold renders_null; now rewrite Hq).
      rewrite (print_loop_valid_page page_rect in_document render report_null
                 n i p q rest Hin Hq Hnull).
      cbn [fst page_advances]. rewrite page_advances_app, Hcond, IH'.
      destruct rest; [reflexivity|].
      rewrite filter_is_drawn_cons, Hin, Hren. reflexivity.
  - rewrite (print_loop_out_of_document page_rect in_document render report_null
               n i p rest Hin).
    rewrite IH'. destruct rest; [reflexivity|].
    rewrite filter_is_drawn_cons, Hin. reflexivity.
Qed.

(** The loop over a selection in two parts. *)
Lemma print_loop_app n i pre rest :
  loop n i (pre ++ rest) =
  match loop n i pre with
  | (t1, Completed) =>
      (t1 ++ fst (loop n (i + Z.of_nat (List.length pre)) rest),
       snd (loop n (i + Z.of_nat (List.length pre)) rest))
  | (t1, Raised e) => (t1, Raised e)
  end.
Proof.
  revert i. induction pre as [|p pre IH]; intros i.
  - cbn [app print_loop List.length]. rewrite Z.add_0_r.
    now destruct (loop n i rest).
  - cbn [app print_loop List.length].
    replace (i + Z.of_nat (S (List.length pre)))
      with (i + 1 + Z.of_nat (List.length pre)) by lia.
    destruct (negb (in_document p)); [apply IH|].
    destruct (render p) as [e|q]; [reflexivity|].
    rewrite IH. destruct (loop n (i + 1) pre) as [t1 [|e]]; [|reflexivity].
    rewrite <- app_comm_cons, <- app_assoc. reflexivity.
Qed.

(** The loop up to a page whose rendering raises: the pages before it are
    handled as usual, the failing page is requested, nothing follows. *)
Lemma print_loop_fails_at n i pre p post e :
  (forall p0, In p0 pre -> in_document p0 = true -> exists q, render p0 = Image q) ->
  in_document p = true -> render p = Raises e ->
  exists t,
    loop n i (pre ++ p :: post) = (t ++ [load_page p], Raised e) /\
    loaded_pages t = filter in_document pre /\
    drawn_pages t = filter (is_drawn in_document render) pre /\
    filter is_skip_report t
    = flat_map report_null
        (filter (fun p0 => in_document p0 && renders_null render p0) pre).
Proof.
  intros Hr Hin Hp.
  destruct (print_loop_completes page_rect in_document render report_null
              report_null_reports n i pre Hr) as (Hs & Hl & Hd).
  pose proof (print_loop_reports page_rect in_document render report_null
                report_null_reports n i pre Hr) as Hrep.
  rewrite print_loop_app.
  destruct (loop n i pre) as [t ex]. cbn [fst snd] in *. subst ex.
  rewrite (print_loop_raises page_rect in_document render report_null
             _ _ p e post Hin Hp).
  exists t. cbn [fst snd]. repeat split; auto.
Qed.

(** The loop emits nothing that [f] counts, when [f] counts neither page
    requests, drawings and page advances nor the reports of null pages. *)
Lemma print_loop_counts_nothing (f : event -> bool) n i pages :
  (forall p, f (load_page p) = false) ->
  (forall r p, f (painter_drawImage r p) = false) ->
  f printer_newPage = false ->
  (forall p e, In e (report_null p) -> f e = false) ->
  count f (fst (loop n i pages)) = 0%nat.
Proof.
  intros Hload Hdraw Hnew Hrep. revert i.
  induction pages as [|p rest IH]; intros i; [reflexivity|].
  cbn [print_loop]. destruct (negb (in_document p)); [apply IH|].
  destruct (render p) as [e|q].
  - cbn [fst]. unfold count. cbn [filter]. now rewrite Hload.
  - specialize (IH (i + 1)). destruct (loop n (i + 1) rest) as [t r].
    cbn [fst] in *. unfold count in *. cbn [filter]. rewrite Hload.
    rewrite filter_app, length_app, IH.
    destruct (isNull q).
    + rewrite (filter_nothing f (report_null p) (Hrep p)). reflexivity.
    + cbn [filter]. rewrite Hdraw. destruct (i <? n - 1); cbn [filter];
        rewrite ?Hnew; reflexivity.
Qed.

End PrintLoopSheets.

Lemma count_cons f e t :
  count f (e :: t) = ((if f e then 1 else 0) + count f t)%nat.
Proof. unfold count. cbn [filter]. now destruct (f e). Qed.

Section JobSheets.

Variable page_rect : QSize.
Variable in_document : Z -> bool.
Variable render : Z -> pixmap_result.
Variable report_null : Z -> list event.
Hypothesis report_null_reports :
  forall p e, In e (report_null p) -> is_skip_report e = true.

Local Abbreviation loop := (print_loop page_rect in_document render report_null).

(** The sheets of a job whose loop meets no exception. *)
Lemma job_sheets pages closing :
  pages <> [] ->
  (forall p, In p pages -> in_document p = true -> exists q, render p = Image q) ->
  page_advances closing = 0%nat -> drawn_pages closing = [] ->
  exists t,
    loop (Z.of_nat (List.length pages)) 0 pages = (t, Completed) /\
    sheets_follow_drawings (painter_begin_called true :: t ++ closing) pages
      (is_drawn in_document render).
Proof.
  intros Hne Hr Hca Hcd.
  destruct (print_loop_completes page_rect in_document render report_null
              report_null_reports (Z.of_nat (List.length pages)) 0 pages Hr)
    as (Hs & _ & Hd).
  pose proof (print_loop_advances page_rect in_document render report_null
                report_null_reports (Z.of_nat (List.length pages)) 0 pages Hr
                eq_refl) as Ha.
  destruct (loop (Z.of_nat (List.length pages)) 0 pages) as [t ex].
  cbn [fst snd] in *. subst ex. exists t. split; [reflexivity|].
  change (filter (fun p => in_document p && negb (renders_null render p)) pages)
    with (filter (is_drawn in_document render) pages) in Hd.
  assert (Hdj : drawn_pages (painter_begin_called true :: t ++ closing)
                = filter (is_drawn in_document render) pages).
  { cbn [drawn_pages]. now rewrite drawn_pages_app, Hcd, app_nil_r. }
  assert (Haj : page_advances (painter_begin_called true :: t ++ closing)
                = List.length (filter (is_drawn in_document render)
                                 (removelast pages))).
  { cbn [page_advances]. rewrite page_advances_app, Hca. lia. }
  unfold sheets_follow_drawings. rewrite Hdj, Haj.
  split; [reflexivity|]. split; [reflexivity|].
  rewrite (filter_removelast_last (is_drawn in_document render) pages 0 Hne).
  split; intros ->.
  - rewrite length_app. cbn [List.length]. lia.
  - now rewrite app_nil_r.
Qed.

End JobSheets.

Ltac started_job Hbegin :=
  match goal with
  | |- context [preview_pages ?d] =>
      let p0 := fresh "p0" in
      let l := fresh "l" in
      let Hp := fresh "Hp" in
      destruct (preview_pages d) as [|p0 l] eqn:Hp; [congruence|];
      rewrite Hbegin; cbn [negb]
  end.

(** The sheets of a print job.  When the painter has started and no
    selected page makes the document library raise, [printer.newPage()] is
    called after each drawing except a drawing at the last position of the
    selection (the test is [i < len(pages_to_print) - 1], on the position,
    not on what remains to be drawn).  Hence a job whose last position is
    drawn uses one sheet per drawn page, and a job whose last position is
    not drawn - a null raster, or in main_1.py an index outside the
    document - advances the page after its last drawing as well and ends on
    a sheet with nothing on it. *)
Theorem sheets_of_a_completed_job :
  forall (w : Collaborators) (d : PrintDialog) (printer : QPrinter),
    painter_begin w printer = true ->
    (preview_pages d <> [] ->
     (forall p, In p (preview_pages d) ->
                exists q, Main.print_raster w d printer p = Image q) ->
     sheets_follow_drawings (Main.process_and_print w d printer)
       (preview_pages d)
       (is_drawn (fun _ => true) (Main.print_raster w d printer))) /\
    (preview_pages d <> [] ->
     (forall p, In p (preview_pages d) ->
                exists q, Main_2.print_raster w d printer p = Image q) ->
     sheets_follow_drawings (Main_2.process_and_print w d printer)
       (preview_pages d)
       (is_drawn (fun _ => true) (Main_2.print_raster w d printer))) /\
    (preview_pages d <> [] ->
     (forall p, In p (preview_pages d) ->
                exists q, Main_3.print_raster w d printer p = Image q) ->
     sheets_follow_drawings (Main_3.process_and_print w d printer)
       (preview_pages d)
       (is_drawn (fun _ => true) (Main_3.print_raster w d printer))) /\
    (forall pages,
       Py.endswith (Py.lower (file_path d)) ".pdf" = true ->
       Main_1.pages_to_print w d = Py.Returns pages ->
       pages <> [] ->
       (forall p, In p pages -> Main_1.in_bounds d p = true ->
                  exists q, Main_1.print_raster w d p = Image q) ->
       sheets_follow_drawings (Main_1.process_and_print w d printer) pages
         (is_drawn (Main_1.in_bounds d) (Main_1.print_raster w d))).
Proof.
  intros w d printer Hbegin. split; [|split; [|split]].
  - intros Hne Hr. unfold Main.process_and_print. started_job Hbegin.
    destruct (job_sheets (pageRect w printer) (fun _ => true)
                (Main.print_raster w d printer) Main.null_raster_report
                main_reports (p0 :: l) [painter_end; Main.success])
      as (t & Ht & Hs); try reflexivity; [discriminate| |].
    { intros p Hin _. now apply Hr. }
    rewrite Ht. exact Hs.
  - intros Hne Hr. unfold Main_2.process_and_print. started_job Hbegin.
    destruct (job_sheets (pageRect w printer) (fun _ => true)
                (Main_2.print_raster w d printer) Main_2.null_raster_report
                main_2_reports (p0 :: l) [painter_end; Main_2.success; accept])
      as (t & Ht & Hs); try reflexivity; [discriminate| |].
    { intros p Hin _. now apply Hr. }
    rewrite Ht. exact Hs.
  - intros Hne Hr. unfold Main_3.process_and_print. started_job Hbegin.
    destruct (job_sheets (pageRect w printer) (fun _ => true)
                (Main_3.print_raster w d printer) Main_3.null_raster_report
                main_3_reports (p0 :: l) [painter_end; Main_3.success])
      as (t & Ht & Hs); try reflexivity; [discriminate| |].
    { intros p Hin _. now apply Hr. }
    rewrite Ht. exact Hs.
  - intros pages Hpdf Hpages Hne Hr. unfold Main_1.process_and_print.
    rewrite Hpdf, Hpages, Hbegin. cbn [negb].
    destruct (job_sheets (pageRect w printer) (Main_1.in_bounds d)
                (Main_1.print_raster w d) Main_1.null_raster_report
                main_1_reports pages [painter_end; Main_1.success; accept])
      as (t & Ht & Hs); try reflexivity; [exact Hne|exact Hr|].
    rewrite Ht. exact Hs.
Qed.

(** Two pages of which the second gives a null raster: one drawing, one
    page advance, so the job ends on an empty second sheet. *)
Lemma null_last_page_witness :
  sheets_follow_drawings
    (Main.process_and_print null_second_page_world null_second_page_dialog
       (Main.configured_printer null_second_page_dialog))
    (preview_pages null_second_page_dialog)
    (is_drawn (fun _ => true)
       (Main.print_raster null_second_page_world null_second_page_dialog
          (Main.configured_printer null_second_page_dialog))).
Proof.
  apply (proj1 (sheets_of_a_completed_job null_second_page_world
                  null_second_page_dialog
                  (Main.configured_printer null_second_page_dialog) eq_refl)).
  - discriminate.
  - intros p _. unfold Main.print_raster. cbn.
    destruct (p =? 1); eexists; reflexivity.
Defined.

Example null_last_page_sheets :
  let job := Main.process_and_print null_second_page_world
               null_second_page_dialog
               (Main.configured_printer null_second_page_dialog) in
  drawn_pages job = [0] /\ page_advances job = 1%nat.
Proof. vm_compute. split; reflexivity. Qed.

(** main_1.py, pages 2-9 of a 3-page document: two drawings, two page
    advances. *)
Example main_1_range_past_the_end_sheets :
  let d := set_page_range_edit
             (set_all_pages_radio (set_total_pages sample_dialog 3) false)
             "2-9" in
  let job := Main_1.process_and_print sample_world d
               (Main_1.configured_printer d) in
  drawn_pages job = [1; 2] /\ page_advances job = 2%nat.
Proof. vm_compute. split; reflexivity. Qed.

(* ================================================================== *)
(** ** A page that cannot be rendered *)
(* ================================================================== *)

Section JobFailure.

Variable page_rect : QSize.
Variable in_document : Z -> bool.
Variable render : Z -> pixmap_result.
Variable report_null : Z -> list event.
Hypothesis report_null_reports :
  forall p e, In e (report_null p) -> is_skip_report e = true.

(** The job up to the page whose rendering raises. *)
Lemma job_stops n pre p post e closing :
  (forall p0, In p0 pre -> in_document p0 = true ->
              exists q, render p0 = Image q) ->
  in_document p = true -> render p = Raises e ->
  exists t,
    print_loop page_rect in_document render report_null n 0
      (pre ++ p :: post) = (t ++ [load_page p], Raised e) /\
    stopped_at (painter_begin_called true :: (t ++ [load_page p]) ++ closing)
      (filter in_document pre) (filter (is_drawn in_document render) pre)
      p closing.
Proof.
  intros Hr Hin Hp.
  destruct (print_loop_fails_at page_rect in_document render report_null
              report_null_reports n 0 pre p post e Hr Hin Hp)
    as (t & Ht & Hl & Hd & _).
  exists t. split; [exact Ht|]. exists t. split; [|split; assumption].
  now rewrite <- app_assoc.
Qed.

End JobFailure.

(** A page that makes the document library raise, in main.py, main_2.py
    and main_3.py.  When the painter has started, the pages before the
    failing one are handled as in a job that completes - requested in
    order, drawn where the raster is valid -, the failing page is
    requested, and the job ends there: the "Printing Failed" box with the
    exception's text, then [painter.end()].  No later page is requested,
    and nothing says the document was sent. *)
Theorem failing_page_ends_the_job :
  forall (w : Collaborators) (d : PrintDialog) (printer : QPrinter)
         (pre post : list Z) (p : Z) (e : exn),
    painter_begin w printer = true ->
    preview_pages d = pre ++ p :: post ->
    ((forall p0, In p0 pre ->
                 exists q, Main.print_raster w d printer p0 = Image q) ->
     Main.print_raster w d printer p = Raises e ->
     stopped_at (Main.process_and_print w d printer) pre
       (filter (is_drawn (fun _ => true) (Main.print_raster w d printer)) pre)
       p [printing_failed e; painter_end]) /\
    ((forall p0, In p0 pre ->
                 exists q, Main_2.print_raster w d printer p0 = Image q) ->
     Main_2.print_raster w d printer p = Raises e ->
     stopped_at (Main_2.process_and_print w d printer) pre
       (filter (is_drawn (fun _ => true) (Main_2.print_raster w d printer)) pre)
       p [printing_failed e; painter_end]) /\
    ((forall p0, In p0 pre ->
                 exists q, Main_3.print_raster w d printer p0 = Image q) ->
     Main_3.print_raster w d printer p = Raises e ->
     stopped_at (Main_3.process_and_print w d printer) pre
       (filter (is_drawn (fun _ => true) (Main_3.print_raster w d printer)) pre)
       p [printing_failed e; painter_end]).
Proof.
  intros w d printer pre post p e Hbegin Hpages.
  assert (Hne : pre ++ p :: post <> []) by (destruct pre; discriminate).
  split; [|split]; intros Hr Hp.
  - unfold Main.process_and_print. rewrite Hpages.
    destruct (job_stops (pageRect w printer) (fun _ => true)
                (Main.print_raster w d printer) Main.null_raster_report
                main_reports (Z.of_nat (List.length (pre ++ p :: post)))
                pre p post e [printing_failed e; painter_end])
      as (t & Ht & Hs); auto.
    rewrite filter_true in Hs.
    destruct (pre ++ p :: post) eqn:E; [congruence|].
    rewrite Hbegin. cbn [negb]. rewrite Ht. exact Hs.
  - unfold Main_2.process_and_print. rewrite Hpages.
    destruct (job_stops (pageRect w printer) (fun _ => true)
                (Main_2.print_raster w d printer) Main_2.null_raster_report
                main_2_reports (Z.of_nat (List.length (pre ++ p :: post)))
                pre p post e [printing_failed e; painter_end])
      as (t & Ht & Hs); auto.
    rewrite filter_true in Hs.
    destruct (pre ++ p :: post) eqn:E; [congruence|].
    rewrite Hbegin. cbn [negb]. rewrite Ht. exact Hs.
  - unfold Main_3.process_and_print. rewrite Hpages.
    destruct (job_stops (pageRect w printer) (fun _ => true)
                (Main_3.print_raster w d printer) Main_3.null_raster_report
                main_3_reports (Z.of_nat (List.length (pre ++ p :: post)))
                pre p post e [printing_failed e; painter_end])
      as (t & Ht & Hs); auto.
    rewrite filter_true in Hs.
    destruct (pre ++ p :: post) eqn:E; [congruence|].
    rewrite Hbegin. cbn [negb]. rewrite Ht. exact Hs.
Qed.

(** Three pages of which the second raises: page 0 is drawn, page 1 is
    requested, page 2 never is. *)
Lemma failing_second_page_witness :
  stopped_at
    (Main.process_and_print value_error_world failing_second_page_dialog
       (Main.configured_printer failing_second_page_dialog))
    [0]
    (filter (is_drawn (fun _ => true)
               (Main.print_raster value_error_world failing_second_page_dialog
                  (Main.configured_printer failing_second_page_dialog))) [0])
    1 [printing_failed (ValueError "document closed"); painter_end].
Proof.
  apply (proj1 (failing_page_ends_the_job value_error_world
                  failing_second_page_dialog
                  (Main.configured_printer failing_second_page_dialog)
                  [0] [2] 1 (ValueError "document closed")
                  eq_refl eq_refl)).
  - intros p0 [<-|[]]. eexists. reflexivity.
  - reflexivity.
Defined.

Example failing_second_page_job :
  Main.process_and_print value_error_world failing_second_page_dialog
    (Main.configured_printer failing_second_page_dialog)
  = [painter_begin_called true;
     load_page 0; painter_drawImage (mkRect 0 0 2480 3508) 0; printer_newPage;
     load_page 1;
     QMessageBox_critical "Printing Failed"
       "An unexpected error occurred: document closed";
     painter_end].
Proof. vm_compute. reflexivity. Qed.

(** main_1.py has two handlers around the job.  An exception other than
    [ValueError] raised while a page is rendered ends the job as in the
    other variants.  A [ValueError] raised there is caught by the handler
    meant for the range text: the user is told "Invalid Page Range" although
    the range was accepted and pages may have been drawn, and
    [painter.end()] is not called, so the job on the printer is left
    open. *)
Theorem main_1_value_error_while_printing :
  forall (w : Collaborators) (d : PrintDialog) (printer : QPrinter)
         (pre post : list Z) (p : Z) (e : exn),
    Py.endswith (Py.lower (file_path d)) ".pdf" = true ->
    Main_1.pages_to_print w d = Py.Returns (pre ++ p :: post) ->
    painter_begin w printer = true ->
    (forall p0, In p0 pre -> Main_1.in_bounds d p0 = true ->
                exists q, Main_1.print_raster w d p0 = Image q) ->
    Main_1.in_bounds d p = true ->
    Main_1.print_raster w d p = Raises e ->
    let job := Main_1.process_and_print w d printer in
    let requested := filter (Main_1.in_bounds d) pre in
    let drawn :=
      filter (is_drawn (Main_1.in_bounds d) (Main_1.print_raster w d)) pre in
    match e with
    | ValueError _ =>
        stopped_at job requested drawn p [Main_1.invalid_page_range] /\
        count is_painter_started job = 1%nat /\
        count is_painter_end job = 0%nat
    | OtherException _ =>
        stopped_at job requested drawn p [printing_failed e; painter_end] /\
        count is_painter_started job = 1%nat /\
        count is_painter_end job = 1%nat
    end.
Proof.
  intros w d printer pre post p e Hpdf Hpages Hbegin Hr Hin Hp job requested
    drawn.
  subst job requested drawn. unfold Main_1.process_and_print.
  rewrite Hpdf, Hpages, Hbegin. cbn [negb].
  pose proof (print_loop_counts_nothing (pageRect w printer)
                (Main_1.in_bounds d) (Main_1.print_raster w d)
                Main_1.null_raster_report is_painter_started
                (Z.of_nat (List.length (pre ++ p :: post))) 0
                (pre ++ p :: post)) as Hstart.
  pose proof (print_loop_counts_nothing (pageRect w printer)
                (Main_1.in_bounds d) (Main_1.print_raster w d)
                Main_1.null_raster_report is_painter_end
                (Z.of_nat (List.length (pre ++ p :: post))) 0
                (pre ++ p :: post)) as Hend.
  assert (Hrep : forall f : event -> bool,
             (forall a b, f (QMessageBox_warning a b) = false) ->
             forall p1 e1, In e1 (Main_1.null_raster_report p1) -> f e1 = false).
  { intros f Hf p1 e1 [<-|[]]. apply Hf. }
  specialize (Hstart (fun _ => eq_refl) (fun _ _ => eq_refl) eq_refl
                (Hrep _ (fun _ _ => eq_refl))).
  specialize (Hend (fun _ => eq_refl) (fun _ _ => eq_refl) eq_refl
                (Hrep _ (fun _ _ => eq_refl))).
  destruct e as [m|m].
  - destruct (job_stops (pageRect w printer) (Main_1.in_bounds d)
                (Main_1.print_raster w d) Main_1.null_raster_report
                main_1_reports (Z.of_nat (List.length (pre ++ p :: post)))
                pre p post (ValueError m) [Main_1.invalid_page_range])
      as (t & Ht & Hs); auto.
    rewrite Ht in *. cbn [fst] in Hstart, Hend.
    split; [exact Hs|].
    rewrite !count_cons, !(count_app _ (t ++ [load_page p])), Hstart, Hend.
    split; reflexivity.
  - destruct (job_stops (pageRect w printer) (Main_1.in_bounds d)
                (Main_1.print_raster w d) Main_1.null_raster_report
                main_1_reports (Z.of_nat (List.length (pre ++ p :: post)))
                pre p post (OtherException m)
                [printing_failed (OtherException m); painter_end])
      as (t & Ht & Hs); auto.
    rewrite Ht in *. cbn [fst] in Hstart, Hend.
    split; [exact Hs|].
    rewrite !count_cons, !(count_app _ (t ++ [load_page p])), Hstart, Hend.
    split; reflexivity.
Qed.

(** main_1.py, three pages of which the second raises [ValueError]. *)
Lemma main_1_value_error_witness :
  stopped_at
    (Main_1.process_and_print value_error_world
       (set_total_pages sample_dialog 3)
       (Main_1.configured_printer (set_total_pages sample_dialog 3)))
    [0] [0] 1 [Main_1.invalid_page_range] /\
  count is_painter_started
    (Main_1.process_and_print value_error_world
       (set_total_pages sample_dialog 3)
       (Main_1.configured_printer (set_total_pages sample_dialog 3)))
  = 1%nat /\
  count is_painter_end
    (Main_1.process_and_print value_error_world
       (set_total_pages sample_dialog 3)
       (Main_1.configured_printer (set_total_pages sample_dialog 3)))
  = 0%nat.
Proof.
  apply (main_1_value_error_while_printing value_error_world
           (set_total_pages sample_dialog 3)
           (Main_1.configured_printer (set_total_pages sample_dialog 3))
           [0] [2] 1 (ValueError "document closed") eq_refl eq_refl eq_refl).
  - intros p0 [<-|[]] _. eexists. reflexivity.
  - reflexivity.
  - reflexivity.
Defined.

(* ================================================================== *)
(** ** The outcome of a click on "Print" *)
(* ================================================================== *)

Section JobOutcome.

Variable page_rect : QSize.
Variable render : Z -> pixmap_result.
Variable report_null : Z -> list event.
Hypothesis report_null_prints :
  forall p e, In e (report_null p) -> exists line, e = print line.

(** A started job of main.py, main_2.py or main_3.py, whatever its loop
    does: one message box, one [painter.end()]. *)
Lemma started_job_outcome n pages (ok : list event) (failed : exn -> event) :
  count is_message_box ok = 1%nat -> count is_painter_end ok = 1%nat ->
  count is_painter_started ok = 0%nat ->
  (forall e, exists a b, failed e = QMessageBox_critical a b) ->
  let job :=
    painter_begin_called true ::
    match print_loop page_rect (fun _ => true) render report_null n 0 pages
    with
    | (t, Completed) => t ++ ok
    | (t, Raised e) => t ++ [failed e; painter_end]
    end in
  count is_message_box job = 1%nat /\
  count is_painter_started job = 1%nat /\
  count is_painter_end job = 1%nat.
Proof.
  intros Hm He Hs Hfailed job. subst job.
  assert (Hcount : forall f : event -> bool,
             (forall p, f (load_page p) = false) ->
             (forall r p, f (painter_drawImage r p) = false) ->
             f printer_newPage = false ->
             (forall line, f (print line) = false) ->
             count f (fst (print_loop page_rect (fun _ => true) render
                             report_null n 0 pages)) = 0%nat).
  { intros f H1 H2 H3 H4. apply print_loop_counts_nothing; auto.
    intros p e Hin. destruct (report_null_prints p e Hin) as [line ->].
    apply H4. }
  pose proof (Hcount is_message_box (fun _ => eq_refl) (fun _ _ => eq_refl)
                eq_refl (fun _ => eq_refl)) as H1.
  pose proof (Hcount is_painter_started (fun _ => eq_refl)
                (fun _ _ => eq_refl) eq_refl (fun _ => eq_refl)) as H2.
  pose proof (Hcount is_painter_end (fun _ => eq_refl) (fun _ _ => eq_refl)
                eq_refl (fun _ => eq_refl)) as H3.
  destruct (print_loop page_rect (fun _ => true) render report_null n 0 pages)
    as [t [|e]]; cbn [fst] in H1, H2, H3.
  - rewrite !count_cons, !count_app, H1, H2, H3, Hm, He, Hs.
    repeat split.
  - destruct (Hfailed e) as (a & b & ->).
    rewrite !count_cons, !count_app, H1, H2, H3. repeat split.
Qed.

End JobOutcome.

Lemma main_prints_reports p e :
  In e (Main.null_raster_report p) -> exists line, e = print line.
Proof. intros []. Qed.

Lemma main_2_prints_reports p e :
  In e (Main_2.null_raster_report p) -> exists line, e = print line.
Proof. intros [<-|[]]. eexists. reflexivity. Qed.

Lemma main_3_prints_reports p e :
  In e (Main_3.null_raster_report p) -> exists line, e = print line.
Proof. intros [<-|[]]. eexists. reflexivity. Qed.

(** One click on "Print", one answer.  In main.py, main_2.py and
    main_3.py, whatever the dialog's state, the printer and the document
    do - empty selection, a printer that does not start, null rasters, a
    page that raises -, [process_and_print] shows exactly one message box,
    and it calls [painter.end()] exactly once when the painter was started
    and never when it was not; the painter is started at most once. *)
Theorem print_shows_one_message_and_ends_the_painter :
  forall (w : Collaborators) (d : PrintDialog) (printer : QPrinter),
    let outcome (job : list event) :=
      count is_message_box job = 1%nat /\
      count is_painter_end job = count is_painter_started job /\
      count is_painter_started job
      = match preview_pages d with
        | [] => 0%nat
        | _ => if painter_begin w printer then 1%nat else 0%nat
        end in
    outcome (Main.process_and_print w d printer) /\
    outcome (Main_2.process_and_print w d printer) /\
    outcome (Main_3.process_and_print w d printer).
Proof.
  intros w d printer outcome. subst outcome. cbv beta.
  split; [|split].
  - unfold Main.process_and_print.
    destruct (preview_pages d) as [|p0 l]; [now repeat split|].
    destruct (painter_begin w printer); cbn [negb]; [|now repeat split].
    destruct (started_job_outcome (pageRect w printer)
                (Main.print_raster w d printer) Main.null_raster_report
                main_prints_reports (Z.of_nat (List.length (p0 :: l)))
                (p0 :: l) [painter_end; Main.success] printing_failed)
      as (H1 & H2 & H3); try reflexivity.
    { intros e. eexists. eexists. reflexivity. }
    exact (conj H1 (conj (eq_trans H3 (eq_sym H2)) H2)).
  - unfold Main_2.process_and_print.
    destruct (preview_pages d) as [|p0 l]; [now repeat split|].
    destruct (painter_begin w printer); cbn [negb]; [|now repeat split].
    destruct (started_job_outcome (pageRect w printer)
                (Main_2.print_raster w d printer) Main_2.null_raster_report
                main_2_prints_reports (Z.of_nat (List.length (p0 :: l)))
                (p0 :: l) [painter_end; Main_2.success; accept]
                printing_failed)
      as (H1 & H2 & H3); try reflexivity.
    { intros e. eexists. eexists. reflexivity. }
    exact (conj H1 (conj (eq_trans H3 (eq_sym H2)) H2)).
  - unfold Main_3.process_and_print.
    destruct (preview_pages d) as [|p0 l]; [now repeat split|].
    destruct (painter_begin w printer); cbn [negb]; [|now repeat split].
    destruct (started_job_outcome (pageRect w printer)
                (Main_3.print_raster w d printer) Main_3.null_raster_report
                main_3_prints_reports (Z.of_nat (List.length (p0 :: l)))
                (p0 :: l) [painter_end; Main_3.success] printing_failed)
      as (H1 & H2 & H3); try reflexivity.
    { intros e. eexists. eexists. reflexivity. }
    exact (conj H1 (conj (eq_trans H3 (eq_sym H2)) H2)).
Qed.

(* ================================================================== *)
(** ** The paper size sent to the printer *)
(* ================================================================== *)

Lemma find_absent {A} (f : A -> bool) (l : list A) :
  (forall x, In x l -> f x = false) -> find f l = None.
Proof.
  intros H. destruct (find f l) as [x|] eqn:E; [|reflexivity].
  apply find_some in E as [Hin Hf]. rewrite (H x Hin) in Hf. discriminate.
Qed.

(** The paper size [execute_print] gives the printer.  In main.py every
    entry the "Paper Size" combo offers sets a page size: the entry's id
    when it has one, else its size in inches (the 8.5 x 13 "Legal"), else -
    the "Custom..." entry - the width and height typed by the user, in the
    unit selected; for a text that no entry displays nothing is set and the
    printer keeps its own page size.  In main_1.py, main_2.py and main_3.py
    each offered name selects the page size of that name, and any other text
    selects Letter. *)
Theorem offered_paper_size_is_the_one_set :
  forall (d : PrintDialog) (text : string),
    (forall info, In info Main.paper_sizes -> text = Main.display info ->
       pageSize (Main.configured_printer (set_paper_size_combo d text))
       = Some match Main.id info, Main.size_in info with
              | Some i, _ => PageSizeId i
              | None, Some (pw, ph) => PageSizeF pw ph Inch
              | None, None =>
                  PageSizeF (custom_width_input d) (custom_height_input d)
                    (if String.eqb (custom_unit_combo d) "Inches"
                     then Inch else Millimeter)
              end) /\
    ((forall info, In info Main.paper_sizes -> text <> Main.display info) ->
       pageSize (Main.configured_printer (set_paper_size_combo d text))
       = None) /\
    (In text (map fst Main_1.paper_sizes) ->
       pageSize (Main_1.configured_printer (set_paper_size_combo d text))
       = Some (PageSizeId text) /\
       pageSize (Main_2.configured_printer (set_paper_size_combo d text))
       = Some (PageSizeId text) /\
       pageSize (Main_3.configured_printer (set_paper_size_combo d text))
       = Some (PageSizeId text)) /\
    (~ In text (map fst Main_1.paper_sizes) ->
       pageSize (Main_1.configured_printer (set_paper_size_combo d text))
       = Some (PageSizeId "Letter") /\
       pageSize (Main_2.configured_printer (set_paper_size_combo d text))
       = Some (PageSizeId "Letter") /\
       pageSize (Main_3.configured_printer (set_paper_size_combo d text))
       = Some (PageSizeId "Letter")).
Proof.
  intros d text. split; [|split; [|split]].
  - intros info Hin ->. cbn in Hin.
    repeat (destruct Hin as [<-|Hin]; [reflexivity|]). destruct Hin.
  - intros Habsent. unfold Main.configured_printer.
    cbn [pageSize paper_size_combo set_paper_size_combo].
    destruct (String.eqb text "Custom...") eqn:E.
    + apply String.eqb_eq in E.
      elim (Habsent (Main.mkPaper "Custom..." None None)); [|exact E].
      cbn. tauto.
    + rewrite find_absent; [reflexivity|].
      intros x Hx. apply String.eqb_neq. intros Heq.
      now apply (Habsent x Hx).
  - intros Hin. cbn in Hin.
    repeat (destruct Hin as [<-|Hin]; [repeat split|]). destruct Hin.
  - intros Hout.
    assert (H : Main_1.paper_size_id text = "Letter").
    { unfold Main_1.paper_size_id. rewrite find_absent; [reflexivity|].
      intros [k v] Hkv. apply String.eqb_neq. intros Heq. apply Hout.
      cbn [fst] in Heq. subst k. apply (in_map fst) in Hkv. exact Hkv. }
    unfold Main_1.configured_printer, Main_2.configured_printer,
      Main_3.configured_printer.
    cbn [pageSize paper_size_combo set_paper_size_combo].
    rewrite H. repeat split.
Qed.

(** The two "Legal" entries of main.py and a text main_1.py does not
    offer. *)
Lemma legal_13_witness :
  pageSize (Main.configured_printer
              (set_paper_size_combo sample_dialog "Legal (8.5 x 13.0 in)"))
  = Some (PageSizeF (17 # 2) (13 # 1) Inch) /\
  pageSize (Main_1.configured_printer
              (set_paper_size_combo sample_dialog "Legal (8.5 x 13.0 in)"))
  = Some (PageSizeId "Letter").
Proof.
  split.
  - refine (proj1 (offered_paper_size_is_the_one_set sample_dialog
                     "Legal (8.5 x 13.0 in)")
              (Main.mkPaper "Legal (8.5 x 13.0 in)" None (Some (17 # 2, 13 # 1)%Q))
              _ eq_refl).
    cbn. tauto.
  - refine (proj1 (proj2 (proj2 (proj2
              (offered_paper_size_is_the_one_set sample_dialog
                 "Legal (8.5 x 13.0 in)"))) _)).
    cbn. intros [H|[H|[H|[H|[H|[]]]]]]; discriminate H.
Defined.

(* ================================================================== *)
(** ** main_1.py against the variants with a preview *)
(* ================================================================== *)

Lemma pages_to_print_generated w d :
  all_pages_radio d = true \/ page_range_edit d <> "" ->
  Main_1.pages_to_print w d = Main.generated_pages w d.
Proof.
  intros H. unfold Main_1.pages_to_print, Main.generated_pages.
  destruct (all_pages_radio d); [reflexivity|].
  destruct H as [H|H]; [discriminate|].
  now rewrite (truthy_nonempty _ H).
Qed.

(** main_1.py parses the range when the user prints, the other variants
    when the preview is updated; for the same dialog inputs they select the
    same pages.  When "All Pages" is checked or the range text is not
    empty: if main_1.py accepts the text, the pages its completed job
    requests from the document are exactly the selection
    [update_preview_range] computes in main.py, main_2.py and main_3.py,
    in the same order; if it rejects the text with "Invalid Page Range",
    that selection is empty; and if the run of the range is too long to be
    built, main_1.py answers "Printing Failed" - and its handler then fails
    on the painter that was never created - while that selection is empty
    as well. *)
Theorem main_1_prints_the_selection_of_the_preview_variants :
  forall (w : Collaborators) (d : PrintDialog) (printer : QPrinter),
    all_pages_radio d = true \/ page_range_edit d <> "" ->
    Py.endswith (Py.lower (file_path d)) ".pdf" = true ->
    painter_begin w printer = true ->
    let selection := preview_pages (fst (Main.update_preview_range w d)) in
    preview_pages (fst (Main_2.update_preview_range w d)) = selection /\
    preview_pages (fst (Main_3.update_preview_range w d)) = selection /\
    match Main_1.pages_to_print w d with
    | Py.Returns pages =>
        (forall p, In p pages -> Main_1.in_bounds d p = true ->
                   exists q, Main_1.print_raster w d p = Image q) ->
        loaded_pages (Main_1.process_and_print w d printer) = selection
    | Py.Raise Py.ValueError =>
        Main_1.process_and_print w d printer = [Main_1.invalid_page_range] /\
        selection = []
    | Py.Raise e =>
        Main_1.process_and_print w d printer
        = [QMessageBox_critical "Printing Failed"
             ("An unexpected error occurred: " ++ Py.exception_msg e)%string;
           uncaught "UnboundLocalError"] /\
        selection = []
    end.
Proof.
  intros w d printer Hsel Hpdf Hbegin selection. subst selection.
  split; [apply update_preview_range_pages_2|].
  split; [apply update_preview_range_pages_3|].
  rewrite update_preview_range_pages, <- (pages_to_print_generated w d Hsel).
  unfold Main_1.process_and_print. rewrite Hpdf. cbn [negb].
  destruct (Main_1.pages_to_print w d) as [pages|[| |]]; [|now split..].
  intros Hr. rewrite Hbegin. cbn [negb].
  destruct (print_loop_completes (pageRect w printer) (Main_1.in_bounds d)
              (Main_1.print_raster w d) Main_1.null_raster_report
              main_1_reports (Z.of_nat (List.length pages)) 0 pages Hr)
    as (Hs & Hl & _).
  destruct (print_loop (pageRect w printer) (Main_1.in_bounds d)
              (Main_1.print_raster w d) Main_1.null_raster_report
              (Z.of_nat (List.length pages)) 0 pages) as [t ex].
  cbn [fst snd] in Hs, Hl. subst ex.
  cbn [loaded_pages]. rewrite loaded_pages_app, Hl. cbn [loaded_pages].
  apply app_nil_r.
Qed.

(** Pages 2-9 of a 3-page document: both select pages 1 and 2. *)
Lemma main_1_same_selection_witness :
  loaded_pages
    (Main_1.process_and_print sample_world (dialog_with (Explicit "2-9") 3)
       (Main_1.configured_printer (dialog_with (Explicit "2-9") 3)))
  = preview_pages
      (fst (Main.update_preview_range sample_world
              (dialog_with (Explicit "2-9") 3))).
Proof.
  assert (Hsel : all_pages_radio (dialog_with (Explicit "2-9") 3) = true \/
                 page_range_edit (dialog_with (Explicit "2-9") 3) <> "")
    by (right; discriminate).
  pose proof (main_1_prints_the_selection_of_the_preview_variants sample_world
                (dialog_with (Explicit "2-9") 3)
                (Main_1.configured_printer (dialog_with (Explicit "2-9") 3))
                Hsel eq_refl eq_refl) as H.
  cbv zeta in H. destruct H as (_ & _ & H).
  assert (E : Main_1.pages_to_print sample_world
                (dialog_with (Explicit "2-9") 3)
              = Py.Returns (Py.range 1 9)) by (vm_compute; reflexivity).
  rewrite E in H. apply H. intros p _ _. eexists. reflexivity.
Defined.

Example main_1_same_selection_pages :
  preview_pages
    (fst (Main.update_preview_range sample_world
            (dialog_with (Explicit "2-9") 3))) = [1; 2].
Proof. vm_compute. reflexivity. Qed.

(* ================================================================== *)
(** ** The navigation buttons *)
(* ================================================================== *)

Lemma buttons_set_tail t label b1 b2 :
  (forall e, In e t -> is_nav_button e = false) ->
  buttons_set
    (t ++ [page_info_label_setText label; prev_page_button_setEnabled b1;
           next_page_button_setEnabled b2]) b1 b2.
Proof.
  intros Ht. split; intros b; split.
  - intros H. apply in_app_or in H as [H|H].
    + apply Ht in H. discriminate.
    + destruct H as [H|[H|[H|[]]]]; congruence.
  - intros ->. apply in_or_app. right. cbn. tauto.
  - intros H. apply in_app_or in H as [H|H].
    + apply Ht in H. discriminate.
    + destruct H as [H|[H|[H|[]]]]; congruence.
  - intros ->. apply in_or_app. right. cbn. tauto.
Qed.

Lemma moves_back d (b : bool) :
  moves d (if b then set_current_preview_index d (current_preview_index d - 1)
           else d) = b.
Proof.
  unfold moves. destruct b; cbn [current_preview_index set_current_preview_index].
  - replace (_ =? _) with false; [reflexivity|]. symmetry. apply Z.eqb_neq. lia.
  - now rewrite Z.eqb_refl.
Qed.

Lemma moves_forward d (b : bool) :
  moves d (if b then set_current_preview_index d (current_preview_index d + 1)
           else d) = b.
Proof.
  unfold moves. destruct b; cbn [current_preview_index set_current_preview_index].
  - replace (_ =? _) with false; [reflexivity|]. symmetry. apply Z.eqb_neq. lia.
  - now rewrite Z.eqb_refl.
Qed.

Lemma clicks_main w d :
  moves d (fst (Main.show_prev_page w d)) = (0 <? current_preview_index d) /\
  moves d (fst (Main.show_next_page w d))
  = (current_preview_index d <? Z.of_nat (List.length (preview_pages d)) - 1).
Proof.
  unfold Main.show_prev_page, Main.show_next_page. split.
  - rewrite <- (moves_back d (0 <? current_preview_index d)) at 2.
    now destruct (0 <? _).
  - rewrite <- (moves_forward d (current_preview_index d <? _)) at 2.
    now destruct (_ <? _).
Qed.

Lemma clicks_main_2 w d :
  moves d (fst (Main_2.show_prev_page w d)) = (0 <? current_preview_index d) /\
  moves d (fst (Main_2.show_next_page w d))
  = (current_preview_index d <? Z.of_nat (List.length (preview_pages d)) - 1).
Proof.
  unfold Main_2.show_prev_page, Main_2.show_next_page. split.
  - rewrite <- (moves_back d (0 <? current_preview_index d)) at 2.
    now destruct (0 <? _).
  - rewrite <- (moves_forward d (current_preview_index d <? _)) at 2.
    now destruct (_ <? _).
Qed.

Lemma clicks_main_3 w d :
  moves d (fst (Main_3.show_prev_page w d)) = (0 <? current_preview_index d) /\
  moves d (fst (Main_3.show_next_page w d))
  = (current_preview_index d <? Z.of_nat (List.length (preview_pages d)) - 1).
Proof.
  unfold Main_3.show_prev_page, Main_3.show_next_page. split.
  - rewrite <- (moves_back d (0 <? current_preview_index d)) at 2.
    now destruct (0 <? _).
  - rewrite <- (moves_forward d (current_preview_index d <? _)) at 2.
    now destruct (_ <? _).
Qed.

Ltac buttons_by Hclicks Hp :=
  destruct Hclicks as [-> ->];
  rewrite Hp; rewrite app_comm_cons; apply buttons_set_tail;
  intros e0 [<-|He0]; [reflexivity|];
  repeat match goal with
         | H : In _ (match ?x with _ => _ end) |- _ => destruct x
         end;
  destruct He0 as [<-|[]]; reflexivity.

(** The navigation buttons say what a click will do.  Whenever a page of
    a non-empty selection is rendered with the cursor inside the selection,
    [render_current_preview_page] enables "Previous Page" exactly when
    [show_prev_page] would move the cursor and "Next Page" exactly when
    [show_next_page] would, whether the page could be rendered or not: no
    enabled button is dead, no disabled button would have moved.  (main.py
    renders only once the scroll area exists.) *)
Theorem navigation_buttons_tell_what_a_click_does :
  forall (w : Collaborators) (d : PrintDialog),
    cursor_in_bounds d -> preview_pages d <> [] ->
    (scroll_area d <> None ->
     buttons_set (Main.render_current_preview_page w d)
       (moves d (fst (Main.show_prev_page w d)))
       (moves d (fst (Main.show_next_page w d)))) /\
    buttons_set (Main_2.render_current_preview_page w d)
      (moves d (fst (Main_2.show_prev_page w d)))
      (moves d (fst (Main_2.show_next_page w d))) /\
    buttons_set (Main_3.render_current_preview_page w d)
      (moves d (fst (Main_3.show_prev_page w d)))
      (moves d (fst (Main_3.show_next_page w d))).
Proof.
  intros w d [H0 Hlt] Hne. specialize (Hlt Hne).
  destruct (PyFacts.getitem_in_range (preview_pages d)
              (current_preview_index d) (conj H0 Hlt)) as [p Hp].
  pose proof (clicks_main w d) as H1.
  pose proof (clicks_main_2 w d) as H2.
  pose proof (clicks_main_3 w d) as H3.
  split; [|split].
  - intros Hscroll. unfold Main.render_current_preview_page.
    revert Hp H1.
    destruct (preview_pages d) as [|p0 l] eqn:E; [congruence|]. rewrite <- E.
    intros Hp H1.
    destruct (scroll_area d) as [viewport|]; [|congruence].
    buttons_by H1 Hp.
  - unfold Main_2.render_current_preview_page.
    revert Hp H2.
    destruct (preview_pages d) as [|p0 l] eqn:E; [congruence|]. rewrite <- E.
    intros Hp H2.
    buttons_by H2 Hp.
  - unfold Main_3.render_current_preview_page.
    revert Hp H3.
    destruct (preview_pages d) as [|p0 l] eqn:E; [congruence|]. rewrite <- E.
    intros Hp H3.
    buttons_by H3 Hp.
Qed.

(** The first of three pages: "Previous Page" disabled, "Next Page"
    enabled. *)
Lemma first_page_buttons_witness :
  buttons_set (Main_2.render_current_preview_page sample_world three_page_dialog)
    (moves three_page_dialog
       (fst (Main_2.show_prev_page sample_world three_page_dialog)))
    (moves three_page_dialog
       (fst (Main_2.show_next_page sample_world three_page_dialog))).
Proof.
  refine (proj1 (proj2 (navigation_buttons_tell_what_a_click_does sample_world
                          three_page_dialog _ _))).
  - split; [vm_compute; discriminate|intros _; vm_compute; reflexivity].
  - discriminate.
Defined.

Example first_page_buttons :
  moves three_page_dialog
    (fst (Main_2.show_prev_page sample_world three_page_dialog)) = false /\
  moves three_page_dialog
    (fst (Main_2.show_next_page sample_world three_page_dialog)) = true.
Proof. vm_compute. split; reflexivity. Qed.
